(** * Record-management service layer: todos and ledger entries over localStorage

    A shallow embedding of [src/features/expenseService.js], the todo service
    (same shape, key ["todos"]) and [src/utils/storage.js], with the
    properties of the repository specification stated and settled against it,
    and further properties of these files and of the computations the pages
    [src/pages/Dashboard.tsx] and [src/pages/FinancePage.tsx] make on them.

    The browser is not part of the repository.  Its numbers (IEEE doubles)
    and [JSON.stringify] / [JSON.parse] are taken through the interface
    [Platform], with the few laws the proofs need in [Lawful];
    [localStorage] is a finite map from keys to texts whose [setItem] may
    throw; the clock and [Math.random] are read from an explicit
    environment record.  [Date] calendar arithmetic works on integers and
    is written out after the ECMAScript day-number algorithms.

    A record is a JavaScript object with primitive fields, modelled as a
    finite map from property names to values; strings are sequences of
    bytes.  The module [IntegerPlatform] implements the interface over the
    integers and is proved lawful, so that every property can be run on
    concrete stores. *)

From Stdlib Require Import ZArith String Ascii List Bool Lia.
From Stdlib Require Import DecimalString Decimal DecimalZ DecimalPos.
From stdpp Require Import base option list gmap strings.

Local Open Scope Z_scope.

(** ** JavaScript values *)

(** Primitive values held by record fields; [num] is the carrier of
    JavaScript numbers. *)
Inductive value (num : Type) : Type :=
  | VUndefined
  | VNull
  | VBool (b : bool)
  | VNum (n : num)
  | VStr (s : string).
Arguments VUndefined {num}.
Arguments VNull {num}.
Arguments VBool {num} b.
Arguments VNum {num} n.
Arguments VStr {num} s.

(** The documents this application serialises: an array of flat records,
    one flat object (the settings record) or a primitive. *)
Inductive json (num : Type) : Type :=
  | JPrim (v : value num)
  | JObj (o : gmap string (value num))
  | JArr (l : list (gmap string (value num))).
Arguments JPrim {num} v.
Arguments JObj {num} o.
Arguments JArr {num} l.

(** What [JSON.stringify] keeps exactly: no [undefined] field (it would be
    dropped) and only numbers that print and parse back to themselves
    (finite, not negative zero). *)
Definition storable_value {num} (exact : num → bool) (v : value num) : Prop :=
  match v with
  | VUndefined => False
  | VNum n => exact n = true
  | _ => True
  end.

Definition storable_record {num} (exact : num → bool)
    (r : gmap string (value num)) : Prop :=
  ∀ k v, r !! k = Some v → storable_value exact v.

Definition storable {num} (exact : num → bool) (d : json num) : Prop :=
  match d with
  | JPrim v => storable_value exact v
  | JObj o => storable_record exact o
  | JArr l => Forall (storable_record exact) l
  end.

(** The same conditions as boolean checks. *)
Definition storable_valueb {num} (exact : num → bool) (v : value num) : bool :=
  match v with
  | VUndefined => false
  | VNum n => exact n
  | _ => true
  end.

Definition storable_recordb {num} (exact : num → bool)
    (r : gmap string (value num)) : bool :=
  forallb (λ kv, storable_valueb exact kv.2) (map_to_list r).

(** ** The world: localStorage and the exceptions of the platform *)

Inductive exn := SyntaxError | TypeError | QuotaExceededError.

(** [items] is the content of localStorage.  [faults] says, for each coming
    call of [setItem] in turn, whether it throws; past its end no call
    throws. *)
Record world := World { items : gmap string string; faults : list bool }.

Inductive outcome (A : Type) : Type :=
  | Return (a : A)
  | Throw (e : exn).
Arguments Return {A} a.
Arguments Throw {A} e.

Definition js (A : Type) : Type := world → outcome A * world.

Definition ret {A} (a : A) : js A := λ w, (Return a, w).

Definition bind {A B} (m : js A) (f : A → js B) : js B := λ w,
  match m w with
  | (Return a, w') => f a w'
  | (Throw e, w') => (Throw e, w')
  end.

Definition throw {A} (e : exn) : js A := λ w, (Throw e, w).

Notation "'let!' x ':=' m 'in' k" := (bind m (λ x, k))
  (at level 10, x name, m at level 100, k at level 200,
   format "'[v' 'let!'  x  ':='  m  'in' '/' k ']'").

(** [try { m } catch (error) { h }] *)
Definition try_catch {A} (m : js A) (h : js A) : js A := λ w,
  match m w with
  | (Return a, w') => (Return a, w')
  | (Throw _, w') => h w'
  end.

(** [localStorage.getItem(key)]; [None] stands for [null]. *)
Definition getItem (key : string) : js (option string) :=
  λ w, (Return (items w !! key), w).

(** [localStorage.setItem(key, text)] *)
Definition setItem (key text : string) : js unit := λ w,
  match faults w with
  | true :: fs => (Throw QuotaExceededError, World (items w) fs)
  | _ :: fs => (Return tt, World (<[key := text]> (items w)) fs)
  | [] => (Return tt, World (<[key := text]> (items w)) [])
  end.

(** [array.filter(p)] when the callback [p] may throw: the elements are
    tested in order and the first exception ends the call. *)
Fixpoint filter_js {A} (p : A → js bool) (l : list A) : js (list A) :=
  match l with
  | [] => ret []
  | x :: l' =>
      let! keep := p x in
      let! rest := filter_js p l' in
      ret (if keep then x :: rest else rest)
  end.

(** ** Objects the services exchange *)

(** What the code reads from the clock and from [Math.random] during one
    call, and the time zone of the host: the two conversions of time values
    (milliseconds since 1970-01-01T00:00Z) that [Date] applies to go from
    local time to UTC and back. *)
Record environment (num : Type) := Env {
  Date_now : num;          (* Date.now() *)
  Math_random : num;       (* Math.random() *)
  toISOString : string;    (* new Date().toISOString() *)
  getFullYear : Z;         (* new Date().getFullYear() *)
  getMonth : Z;            (* new Date().getMonth() *)
  UTC : Z → Z;             (* UTC(t), the time value of the local time t *)
  LocalTime : Z → Z        (* LocalTime(t), the local time of the time value t *)
}.
Arguments Env {num}.
Arguments Date_now {num}.
Arguments Math_random {num}.
Arguments toISOString {num}.
Arguments getFullYear {num}.
Arguments getMonth {num}.
Arguments UTC {num}.
Arguments LocalTime {num}.

(** The object returned by [getExpenseStats] *)
Record expenseStats (num : Type) := ExpenseStats {
  totalIncome : value num;
  totalExpense : value num;
  balance : value num;
  incomeCount : nat;
  expenseCount : nat;
  totalCount : nat
}.
Arguments ExpenseStats {num}.
Arguments totalIncome {num}.
Arguments totalExpense {num}.
Arguments balance {num}.
Arguments incomeCount {num}.
Arguments expenseCount {num}.
Arguments totalCount {num}.

(** An entry of the object returned by [getCategoryStats] *)
Record categoryEntry (num : Type) := CategoryEntry {
  count : nat;
  total : value num;
  type : value num
}.
Arguments CategoryEntry {num}.
Arguments count {num}.
Arguments total {num}.
Arguments type {num}.

(** What [Object.prototype] holds under the names [count] and [total];
    [None]: no such property. *)
Record objectPrototype (num : Type) := Prototype {
  inherited_count : option (value num);    (* Object.prototype.count *)
  inherited_total : option (value num)     (* Object.prototype.total *)
}.
Arguments Prototype {num}.
Arguments inherited_count {num}.
Arguments inherited_total {num}.

(** What a property lookup on the object of [getCategoryStats] finds. *)
Inductive propertyFound (num : Type) :=
  | Entry (c : categoryEntry num)  (* an entry of the object itself *)
  | Method                         (* a function of [Object.prototype] *)
  | ThePrototype                   (* [Object.prototype] itself *)
  | Primitive (v : value num).     (* [undefined] when nothing is found *)
Arguments Entry {num}.
Arguments Method {num}.
Arguments ThePrototype {num}.
Arguments Primitive {num}.

(** ** The platform interface *)

Class Platform := {
  num : Type;
  (* number literals and the results of coercions *)
  num_zero : num;
  num_one : num;
  num_nan : num;
  (* arithmetic and comparison of numbers *)
  num_add : num → num → num;
  num_sub : num → num → num;
  num_eqb : num → num → bool;
  num_ltb : num → num → bool;
  (* conversions between numbers and strings *)
  num_of_string : string → num;
  num_to_string : num → string;
  parseFloat : string → num;
  (* the numbers JSON represents exactly *)
  num_exact : num → bool;
  JSON_stringify : json num → string;
  JSON_parse : string → option (json num)
}.

(** What the properties below rely on: a document that JSON keeps exactly
    parses back from its text, the empty text is no JSON text, and ["[]"]
    is the empty array. *)
Class Lawful (P : Platform) : Prop := {
  JSON_parse_stringify :
    ∀ d, storable num_exact d → JSON_parse (JSON_stringify d) = Some d;
  JSON_parse_empty : JSON_parse "" = None;
  JSON_parse_brackets : JSON_parse "[]" = Some (JArr [])
}.

(** The order of numbers, as far as the identifiers of [storage.add] need
    it: zero is a number, [<] is asymmetric, [>=] is transitive on numbers,
    and [<] does not tell equal numbers apart. *)
Class Ordered (P : Platform) : Prop := {
  num_zero_self : num_eqb num_zero num_zero = true;
  num_ltb_asym : ∀ a b, num_ltb a b = true → num_ltb b a = false;
  num_geb_trans : ∀ a b c,
    num_eqb a a = true → num_eqb b b = true → num_eqb c c = true →
    num_ltb a b = false → num_ltb b c = false → num_ltb a c = false;
  num_ltb_eqb : ∀ a b c, num_eqb a b = true → num_ltb c a = num_ltb c b
}.

Abbreviation val := (value num).
Abbreviation record := (gmap string (value num)).
Abbreviation document := (json num).
Abbreviation env := (environment num).
Abbreviation expense_stats := (expenseStats num).
Abbreviation category_entry := (categoryEntry num).
Abbreviation prototype := (objectPrototype num).
Abbreviation property := (propertyFound num).

Section Embedding.
Context `{Platform}.

(** *** Operators on values *)

Definition truthy (v : val) : bool :=
  match v with
  | VUndefined | VNull => false
  | VBool b => b
  | VNum n => negb (num_eqb n num_zero) && num_eqb n n
  | VStr s => negb (String.eqb s "")
  end.

(** [a === b] *)
Definition strict_eq (a b : val) : bool :=
  match a, b with
  | VUndefined, VUndefined => true
  | VNull, VNull => true
  | VBool x, VBool y => Bool.eqb x y
  | VNum x, VNum y => num_eqb x y
  | VStr x, VStr y => String.eqb x y
  | _, _ => false
  end.

Definition to_string (v : val) : string :=
  match v with
  | VUndefined => "undefined"
  | VNull => "null"
  | VBool true => "true"
  | VBool false => "false"
  | VNum n => num_to_string n
  | VStr s => s
  end.

Definition to_number (v : val) : num :=
  match v with
  | VUndefined => num_nan
  | VNull => num_zero
  | VBool true => num_one
  | VBool false => num_zero
  | VNum n => n
  | VStr s => num_of_string s
  end.

(** [a + b]: concatenation as soon as one side is a string. *)
Definition js_add (a b : val) : val :=
  match a, b with
  | VStr _, _ | _, VStr _ => VStr (to_string a +:+ to_string b)
  | _, _ => VNum (num_add (to_number a) (to_number b))
  end.

(** [a - b] *)
Definition js_sub (a b : val) : val :=
  VNum (num_sub (to_number a) (to_number b)).

(** [a < b]: two strings compare unit by unit (bytes here, which for ASCII
    texts such as ISO dates is the order of code units), anything else
    compares as numbers. *)
Definition js_lt (a b : val) : bool :=
  match a, b with
  | VStr x, VStr y => String.ltb x y
  | _, _ => num_ltb (to_number a) (to_number b)
  end.

(** [a > b] *)
Definition js_gt (a b : val) : bool := js_lt b a.

(** [a >= b]: false as soon as the comparison involves [NaN]. *)
Definition js_ge (a b : val) : bool :=
  match a, b with
  | VStr x, VStr y => negb (String.ltb x y)
  | _, _ =>
      negb (num_ltb (to_number a) (to_number b))
      && num_eqb (to_number a) (to_number a)
      && num_eqb (to_number b) (to_number b)
  end.

(** [a <= b] *)
Definition js_le (a b : val) : bool := js_ge b a.

(** [a || b] *)
Definition js_or (a b : val) : val := if truthy a then a else b.

(** [!a] *)
Definition js_not (a : val) : val := VBool (negb (truthy a)).

(** [r.k]: a missing property reads as [undefined]. *)
Definition get (r : record) (k : string) : val := default VUndefined (r !! k).

(** [{...a, ...b}]: the properties of [b] win. *)
Definition spread (a b : record) : record := b ∪ a.

(** [Array.prototype.findIndex]; [None] stands for [-1]. *)
Fixpoint findIndex {A} (p : A → bool) (l : list A) : option nat :=
  match l with
  | [] => None
  | x :: l' => if p x then Some 0%nat else S <$> findIndex p l'
  end.

(** [JSON.parse(text)] *)
Definition parse (text : string) : js document :=
  match JSON_parse text with
  | Some d => ret d
  | None => throw SyntaxError
  end.

(** Calling an array method on the value [d]: anything but an array has no
    such method, and the call throws. *)
Definition as_array (d : document) : js (list record) :=
  match d with
  | JArr l => ret l
  | _ => throw TypeError
  end.

End Embedding.

(** ** Calendar arithmetic of [Date] and number formatting *)

(** [n.toString()] for an integer [n] *)
Definition Z_to_string (n : Z) : string := NilZero.string_of_int (Z.to_int n).

Fixpoint repeat_string (n : nat) (p : string) : string :=
  match n with
  | O => ""
  | S n' => p +:+ repeat_string n' p
  end.

(** [s.padStart(n, p)] *)
Definition padStart (n : nat) (p s : string) : string :=
  let fill := (n - String.length s)%nat in
  if String.eqb p "" then s
  else String.substring 0 fill (repeat_string fill p) +:+ s.

(** [s.split('T')[0]]: the text before the first ['T'], all of it when
    there is none. *)
Fixpoint before_T (s : string) : string :=
  match s with
  | EmptyString => ""
  | String c s' => if Ascii.eqb c "T" then "" else String c (before_T s')
  end.

(** [s.includes(k)] *)
Fixpoint includes (s k : string) : bool :=
  String.prefix k s
  || match s with
     | String _ s' => includes s' k
     | EmptyString => false
     end.

Module JSDate.

(** Day number (days since 1970-01-01) of the first day of year [y]. *)
Definition DayFromYear (y : Z) : Z :=
  365 * (y - 1970) + (y - 1969) / 4 - (y - 1901) / 100 + (y - 1601) / 400.

Definition DaysInYear (y : Z) : Z :=
  if negb (y mod 4 =? 0) then 365
  else if negb (y mod 100 =? 0) then 366
  else if negb (y mod 400 =? 0) then 365
  else 366.

(** The largest [y] with [DayFromYear y <= d]: an estimate from the mean
    length of a year, moved by one where it misses. *)
Definition YearFromDay (d : Z) : Z :=
  let y := 1970 + (d * 400) / 146097 in
  if d <? DayFromYear y then y - 1
  else if DayFromYear (y + 1) <=? d then y + 1
  else y.

(** 1 in a leap year, 0 otherwise *)
Definition InLeapYear (d : Z) : Z :=
  if DaysInYear (YearFromDay d) =? 366 then 1 else 0.

Definition DayWithinYear (d : Z) : Z := d - DayFromYear (YearFromDay d).

Definition MonthFromDay (d : Z) : Z :=
  let w := DayWithinYear d in
  let l := InLeapYear d in
  if w <? 31 then 0
  else if w <? 59 + l then 1
  else if w <? 90 + l then 2
  else if w <? 120 + l then 3
  else if w <? 151 + l then 4
  else if w <? 181 + l then 5
  else if w <? 212 + l then 6
  else if w <? 243 + l then 7
  else if w <? 273 + l then 8
  else if w <? 304 + l then 9
  else if w <? 334 + l then 10
  else 11.

Definition DateFromDay (d : Z) : Z :=
  let w := DayWithinYear d in
  let l := InLeapYear d in
  match MonthFromDay d with
  | 0 => w + 1
  | 1 => w - 30
  | 2 => w - 58 - l
  | 3 => w - 89 - l
  | 4 => w - 119 - l
  | 5 => w - 150 - l
  | 6 => w - 180 - l
  | 7 => w - 211 - l
  | 8 => w - 242 - l
  | 9 => w - 272 - l
  | 10 => w - 303 - l
  | _ => w - 333 - l
  end.

(** Days from the start of a year to the start of month [mn] (0-based). *)
Definition month_start (mn l : Z) : Z :=
  match mn with
  | 0 => 0
  | 1 => 31
  | 2 => 59 + l
  | 3 => 90 + l
  | 4 => 120 + l
  | 5 => 151 + l
  | 6 => 181 + l
  | 7 => 212 + l
  | 8 => 243 + l
  | 9 => 273 + l
  | 10 => 304 + l
  | _ => 334 + l
  end.

(** [MakeDay(year, month, date)]: months and days out of range carry over. *)
Definition MakeDay (year month date : Z) : Z :=
  let ym := year + month / 12 in
  let mn := month mod 12 in
  let l := if DaysInYear ym =? 366 then 1 else 0 in
  DayFromYear ym + month_start mn l + date - 1.

Definition msPerDay : Z := 86400000.

(** [Day(t)]: the day number of the time value [t] *)
Definition Day (t : Z) : Z := t / msPerDay.

(** [MakeFullYear(year)]: years 0 to 99 mean 1900 to 1999. *)
Definition MakeFullYear (year : Z) : Z :=
  if (0 <=? year) && (year <=? 99) then 1900 + year else year.

(** [TimeClip(t)]; [None] stands for [NaN]. *)
Definition TimeClip (t : Z) : option Z :=
  if (-8640000000000000 <=? t) && (t <=? 8640000000000000) then Some t else None.

(** [new Date(year, month, date).getDate()]; [None] stands for [NaN], the
    answer of an invalid date.  The date is built from local time, midnight
    of the day [MakeDay] gives, which [utc] turns into the time value the
    object holds; [getDate] reads the day of the month off the local time
    [local] gives back for that value. *)
Definition getDate_of (utc local : Z → Z) (year month date : Z) : option Z :=
  let yr := MakeFullYear year in
  let finalDate := MakeDay yr month date * msPerDay in
  match TimeClip (utc finalDate) with
  | Some tv => Some (DateFromDay (Day (local tv)))
  | None => None
  end.

End JSDate.

(** [lastDay.toString()] where [lastDay] is a day of the month or [NaN] *)
Definition day_to_string (d : option Z) : string :=
  match d with
  | Some n => Z_to_string n
  | None => "NaN"
  end.

(** [STORAGE_KEYS] of [src/utils/storage.js] *)
Module STORAGE_KEYS.
Definition TODOS : string := "finance_todos".
Definition EXPENSES : string := "finance_expenses".
Definition BUDGETS : string := "finance_budgets".
Definition TEMPLATES : string := "finance_templates".
Definition SETTINGS : string := "finance_settings".
End STORAGE_KEYS.

(** The object returned by [getTodoStats] *)
Module TodoStats.
Record t := Make {
  total : nat;
  completed : nat;
  pending : nat;
  high : nat;
  medium : nat;
  low : nat
}.
End TodoStats.

Section Services.
Context `{Platform}.

(** ** [src/features/expenseService.js] *)

Definition EXPENSES_STORAGE_KEY : string := "expenses".

(** [generateId]: [Date.now() + Math.random()] *)
Definition generateId (e : env) : val := VNum (num_add (Date_now e) (Math_random e)).

Definition loadExpenses : js document :=
  try_catch
    (let! expensesData := getItem EXPENSES_STORAGE_KEY in
     match expensesData with
     | Some text => if String.eqb text "" then ret (JArr []) else parse text
     | None => ret (JArr [])
     end)
    (ret (JArr [])).

Definition saveExpenses (expenses : list record) : js bool :=
  try_catch
    (let! _ := setItem EXPENSES_STORAGE_KEY (JSON_stringify (JArr expenses)) in
     ret true)
    (ret false).

Definition getAllExpenses : js document := loadExpenses.

(** The object literal [newExpense] of [addExpense]: the generated fields
    come first, the spread of the caller's data last. *)
Definition newExpense (e : env) (expenseData : record) : record :=
  spread
    {[ "id" := generateId e;
       "amount" := VNum (parseFloat (to_string (get expenseData "amount")));
       "description" := get expenseData "description";
       "category" := get expenseData "category";
       "type" := get expenseData "type";
       "date" := get expenseData "date";
       "createdAt" := VStr (toISOString e) ]}
    expenseData.

Definition addExpense (e : env) (expenseData : record) : js (option record) :=
  let! loaded := loadExpenses in
  let newExpense := newExpense e expenseData in
  let! expenses := as_array loaded in
  let expenses := expenses ++ [newExpense] in
  let! success := saveExpenses expenses in
  ret (if success then Some newExpense else None).

Definition updateExpense (id : val) (updateData : record) : js (option record) :=
  let! loaded := loadExpenses in
  let! expenses := as_array loaded in
  match findIndex (λ expense, strict_eq (get expense "id") id) expenses with
  | None => ret None
  | Some index =>
      let updated := spread (expenses !!! index) updateData in
      let expenses := <[index := updated]> expenses in
      let! success := saveExpenses expenses in
      ret (if success then Some (expenses !!! index) else None)
  end.

Definition deleteExpense (id : val) : js bool :=
  let! loaded := loadExpenses in
  let! expenses := as_array loaded in
  let filteredExpenses :=
    List.filter (λ expense, negb (strict_eq (get expense "id") id)) expenses in
  if (length filteredExpenses =? length expenses)%nat then ret false
  else saveExpenses filteredExpenses.

(** [items.reduce((sum, item) => sum + item.amount, 0)] *)
Definition sum_amounts (l : list record) : val :=
  fold_left (λ sum item, js_add sum (get item "amount")) l (VNum num_zero).

Definition getExpenseStats (startDate endDate : val) : js expense_stats :=
  let! loaded := loadExpenses in
  let! expenses :=
    (if truthy (js_or startDate endDate) then
       let! expenses := as_array loaded in
       ret (List.filter (λ expense,
         let expenseDate := get expense "date" in
         if truthy startDate && js_lt expenseDate startDate then false
         else if truthy endDate && js_gt expenseDate endDate then false
         else true) expenses)
     else as_array loaded) in
  let income := List.filter (λ e, strict_eq (get e "type") (VStr "income")) expenses in
  let expense := List.filter (λ e, strict_eq (get e "type") (VStr "expense")) expenses in
  let totalIncome := sum_amounts income in
  let totalExpense := sum_amounts expense in
  ret {| totalIncome := totalIncome;
          totalExpense := totalExpense;
          balance := js_sub totalIncome totalExpense;
          incomeCount := length income;
          expenseCount := length expense;
          totalCount := length expenses |}.

(** [year] and [month] are integers; an omitted argument is falsy like 0. *)
Definition getMonthlyStats (e : env) (year month : Z) : js expense_stats :=
  let targetYear := if year =? 0 then getFullYear e else year in
  let targetMonth := if month =? 0 then getMonth e + 1 else month in
  let startDate :=
    Z_to_string targetYear +:+ "-" +:+ padStart 2 "0" (Z_to_string targetMonth)
      +:+ "-01" in
  let lastDay :=
    JSDate.getDate_of (UTC e) (LocalTime e) targetYear targetMonth 0 in
  let endDate :=
    Z_to_string targetYear +:+ "-" +:+ padStart 2 "0" (Z_to_string targetMonth)
      +:+ "-" +:+ padStart 2 "0" (day_to_string lastDay) in
  getExpenseStats (VStr startDate) (VStr endDate).

(** The object [categoryStats] of [getCategoryStats] is an object literal:
    besides the entries it is given, it inherits the properties of
    [Object.prototype].  These are the methods of that prototype, the
    accessor [__proto__], which answers the prototype itself, and what the
    loop below may have left on the prototype under [count] and [total]
    (nothing in a page that has just been loaded). *)
Definition Object_prototype_methods : list string :=
  [ "constructor"; "hasOwnProperty"; "isPrototypeOf"; "propertyIsEnumerable";
    "toLocaleString"; "toString"; "valueOf"; "__defineGetter__";
    "__defineSetter__"; "__lookupGetter__"; "__lookupSetter__" ].

Definition is_method (key : string) : bool :=
  existsb (String.eqb key) Object_prototype_methods.

(** What [categoryStats[key]] evaluates to. *)
Definition lookup_property (categoryStats : gmap string category_entry)
    (proto : prototype) (key : string) : property :=
  match categoryStats !! key with
  | Some c => Entry c
  | None =>
      if is_method key then Method
      else if String.eqb key "__proto__" then ThePrototype
      else if String.eqb key "count" then
        Primitive (default VUndefined (inherited_count proto))
      else if String.eqb key "total" then
        Primitive (default VUndefined (inherited_total proto))
      else Primitive VUndefined
  end.

(** The body of the [forEach] of [getCategoryStats]; the object is keyed by
    the category converted to a property name.  An entry is created where
    the lookup is falsy.  The two [+=] then work on what the lookup finds:
    an entry of the object; a method, on which the sums are left, out of
    sight of the object; the prototype, whose [count] and [total] every
    object inherits from then on; or a truthy primitive, and a property of
    a primitive cannot be set in the strict code of a module. *)
Definition category_step (categoryStats : gmap string category_entry)
    (proto : prototype) (expense : record)
    : outcome (gmap string category_entry) * prototype :=
  let key := to_string (get expense "category") in
  let categoryStats :=
    match lookup_property categoryStats proto key with
    | Primitive v =>
        if truthy v then categoryStats
        else <[key := {| count := 0; total := VNum num_zero;
                         type := get expense "type" |}]> categoryStats
    | _ => categoryStats
    end in
  match lookup_property categoryStats proto key with
  | Entry c =>
      let c := {| count := count c + 1; total := total c; type := type c |} in
      let c := {| count := count c;
                  total := js_add (total c) (get expense "amount");
                  type := type c |} in
      (Return (<[key := c]> categoryStats), proto)
  | Method => (Return categoryStats, proto)
  | ThePrototype =>
      let proto :=
        {| inherited_count :=
             Some (js_add (default VUndefined (inherited_count proto))
                          (VNum num_one));
           inherited_total := inherited_total proto |} in
      let proto :=
        {| inherited_count := inherited_count proto;
           inherited_total :=
             Some (js_add (default VUndefined (inherited_total proto))
                          (get expense "amount")) |} in
      (Return categoryStats, proto)
  | Primitive _ => (Throw TypeError, proto)
  end.

(** [expenses.forEach(body)] with the body above: an exception ends the
    loop. *)
Fixpoint forEach_category (expenses : list record)
    (categoryStats : gmap string category_entry) (proto : prototype)
    : outcome (gmap string category_entry) * prototype :=
  match expenses with
  | [] => (Return categoryStats, proto)
  | expense :: rest =>
      match category_step categoryStats proto expense with
      | (Return categoryStats, proto) => forEach_category rest categoryStats proto
      | (Throw e, proto) => (Throw e, proto)
      end
  end.

(** [proto] is what [Object.prototype] holds when the call begins; the
    result carries what it holds when the call ends. *)
Definition getCategoryStats (type : val) (proto : prototype) (w : world)
    : outcome (gmap string category_entry) * prototype * world :=
  let expenses :=
    (let! loaded := loadExpenses in
     if truthy type then
       let! expenses := as_array loaded in
       ret (List.filter (λ expense, strict_eq (get expense "type") type) expenses)
     else as_array loaded) in
  match expenses w with
  | (Return expenses, w) => (forEach_category expenses ∅ proto, w)
  | (Throw e, w) => (Throw e, proto, w)
  end.

(** ** The todo service *)

Definition TODOS_STORAGE_KEY : string := "todos".

Definition loadTodos : js document :=
  try_catch
    (let! todosData := getItem TODOS_STORAGE_KEY in
     match todosData with
     | Some text => if String.eqb text "" then ret (JArr []) else parse text
     | None => ret (JArr [])
     end)
    (ret (JArr [])).

Definition saveTodos (todos : list record) : js bool :=
  try_catch
    (let! _ := setItem TODOS_STORAGE_KEY (JSON_stringify (JArr todos)) in
     ret true)
    (ret false).

Definition getAllTodos : js document := loadTodos.

(** The object literal [newTodo] of [addTodo] *)
Definition newTodo (e : env) (todoData : record) : record :=
  spread
    {[ "id" := generateId e;
       "text" := get todoData "text";
       "completed" := VBool false;
       "date" := get todoData "date";
       "priority" := js_or (get todoData "priority") (VStr "medium");
       "category" := js_or (get todoData "category") (VStr "其他");
       "createdAt" := VStr (toISOString e) ]}
    todoData.

Definition addTodo (e : env) (todoData : record) : js (option record) :=
  let! loaded := loadTodos in
  let newTodo := newTodo e todoData in
  let! todos := as_array loaded in
  let todos := todos ++ [newTodo] in
  let! success := saveTodos todos in
  ret (if success then Some newTodo else None).

Definition updateTodo (id : val) (updateData : record) : js (option record) :=
  let! loaded := loadTodos in
  let! todos := as_array loaded in
  match findIndex (λ todo, strict_eq (get todo "id") id) todos with
  | None => ret None
  | Some index =>
      let updated := spread (todos !!! index) updateData in
      let todos := <[index := updated]> todos in
      let! success := saveTodos todos in
      ret (if success then Some (todos !!! index) else None)
  end.

Definition toggleTodo (id : val) : js (option record) :=
  let! loaded := loadTodos in
  let! todos := as_array loaded in
  match findIndex (λ todo, strict_eq (get todo "id") id) todos with
  | None => ret None
  | Some index =>
      let todo := todos !!! index in
      let todos :=
        <[index := <["completed" := js_not (get todo "completed")]> todo]> todos in
      let! success := saveTodos todos in
      ret (if success then Some (todos !!! index) else None)
  end.

Definition deleteTodo (id : val) : js bool :=
  let! loaded := loadTodos in
  let! todos := as_array loaded in
  let filteredTodos :=
    List.filter (λ todo, negb (strict_eq (get todo "id") id)) todos in
  if (length filteredTodos =? length todos)%nat then ret false
  else saveTodos filteredTodos.

(** The [date] argument of a query: absent, an ISO string, or a dayjs
    object, of which only [format('YYYY-MM-DD')] is used. *)
Inductive date_arg :=
  | NoDate
  | IsoDate (s : string)
  | Dayjs (formatted : string).

Definition date_given (date : date_arg) : bool :=
  match date with
  | NoDate => false
  | IsoDate s => negb (String.eqb s "")
  | Dayjs _ => true
  end.

(** [typeof date === 'string' ? date : date.format('YYYY-MM-DD')] *)
Definition date_string (date : date_arg) : js string :=
  match date with
  | NoDate => throw TypeError
  | IsoDate s => ret s
  | Dayjs formatted => ret formatted
  end.

Definition getTodoStats (date : date_arg) : js TodoStats.t :=
  let! loaded := loadTodos in
  let! todos :=
    (if date_given date then
       let! dateStr := date_string date in
       let! todos := as_array loaded in
       ret (List.filter (λ todo, strict_eq (get todo "date") (VStr dateStr)) todos)
     else as_array loaded) in
  ret {| TodoStats.total := length todos;
         TodoStats.completed := length (List.filter (λ todo, truthy (get todo "completed")) todos);
         TodoStats.pending :=
           length (List.filter (λ todo, negb (truthy (get todo "completed"))) todos);
         TodoStats.high :=
           length (List.filter (λ todo, strict_eq (get todo "priority") (VStr "high")) todos);
         TodoStats.medium :=
           length (List.filter (λ todo, strict_eq (get todo "priority") (VStr "medium")) todos);
         TodoStats.low :=
           length (List.filter (λ todo, strict_eq (get todo "priority") (VStr "low")) todos) |}.

(** ** [src/utils/storage.js] *)

(** [utils.getCurrentTimestamp] *)
Definition getCurrentTimestamp (e : env) : string := toISOString e.

(** [storage.get]: [getItem(key) || '[]'] falls back on [null] and on the
    empty text. *)
Definition storage_get (key : string) : js document :=
  try_catch
    (let! text := getItem key in
     parse (match text with
            | Some t => if String.eqb t "" then "[]" else t
            | None => "[]"
            end))
    (ret (JArr [])).

(** [storage.set] *)
Definition storage_set (key : string) (data : document) : js bool :=
  try_catch
    (let! _ := setItem key (JSON_stringify data) in
     ret true)
    (ret false).

Definition default_settings (e : env) : record :=
  {[ "initialized" := VBool true;
     "version" := VStr "2.0";
     "currency" := VStr "TWD";
     "created_at" := VStr (getCurrentTimestamp e) ]}.

Definition initializeData (e : env) : js unit :=
  let! present := getItem STORAGE_KEYS.SETTINGS in
  if match present with
     | Some text => negb (String.eqb text "")
     | None => false
     end
  then ret tt
  else
    let settings := default_settings e in
    let! _ := setItem STORAGE_KEYS.SETTINGS (JSON_stringify (JObj settings)) in
    let! _ := storage_set STORAGE_KEYS.TODOS (JArr []) in
    let! _ := storage_set STORAGE_KEYS.EXPENSES (JArr []) in
    let! _ := storage_set STORAGE_KEYS.BUDGETS (JArr []) in
    let! _ := storage_set STORAGE_KEYS.TEMPLATES (JArr []) in
    ret tt.

Definition clearAllData (e : env) : js unit :=
  let! _ := storage_set STORAGE_KEYS.TODOS (JArr []) in
  let! _ := storage_set STORAGE_KEYS.EXPENSES (JArr []) in
  let! _ := storage_set STORAGE_KEYS.BUDGETS (JArr []) in
  let! _ := storage_set STORAGE_KEYS.TEMPLATES (JArr []) in
  let settings := default_settings e in
  setItem STORAGE_KEYS.SETTINGS (JSON_stringify (JObj settings)).

(** ** Queries of the ledger service *)

(** [new Date().toISOString().split('T')[0]] *)
Definition today (e : env) : string := before_T (toISOString e).

Definition getExpensesByDate (date : date_arg) : js (list record) :=
  let! loaded := loadExpenses in
  let! dateStr := date_string date in
  let! expenses := as_array loaded in
  ret (List.filter (λ expense, strict_eq (get expense "date") (VStr dateStr)) expenses).

Definition getTodayExpenses (e : env) : js (list record) :=
  let today := today e in
  getExpensesByDate (IsoDate today).

Definition getExpensesByType (type : val) : js (list record) :=
  let! loaded := loadExpenses in
  let! expenses := as_array loaded in
  ret (List.filter (λ expense, strict_eq (get expense "type") type) expenses).

Definition getTodayStats (e : env) : js expense_stats :=
  let today := today e in
  getExpenseStats (VStr today) (VStr today).

Definition getExpensesByCategory (category : val) : js (list record) :=
  let! loaded := loadExpenses in
  let! expenses := as_array loaded in
  ret (List.filter (λ expense, strict_eq (get expense "category") category) expenses).

Definition getExpensesByDateRange (startDate endDate : val) : js (list record) :=
  let! loaded := loadExpenses in
  let! expenses := as_array loaded in
  ret (List.filter (λ expense,
         let expenseDate := get expense "date" in
         js_ge expenseDate startDate && js_le expenseDate endDate) expenses).

Definition clearAllExpenses : js bool := saveExpenses [].

(** ** Queries of the todo service *)

Definition getTodosByDate (date : date_arg) : js (list record) :=
  let! loaded := loadTodos in
  let! dateStr := date_string date in
  let! todos := as_array loaded in
  ret (List.filter (λ todo, strict_eq (get todo "date") (VStr dateStr)) todos).

Definition getTodayTodos (e : env) : js (list record) :=
  let today := today e in
  getTodosByDate (IsoDate today).

Definition getTodosByCategory (category : val) : js (list record) :=
  let! loaded := loadTodos in
  let! todos := as_array loaded in
  ret (List.filter (λ todo, strict_eq (get todo "category") category) todos).

Definition getTodosByPriority (priority : val) : js (list record) :=
  let! loaded := loadTodos in
  let! todos := as_array loaded in
  ret (List.filter (λ todo, strict_eq (get todo "priority") priority) todos).

Definition clearAllTodos : js bool := saveTodos [].

(** ** [src/pages/Dashboard.tsx]: the totals of the day, computed from the
    records [getTodayExpenses] returned *)

Definition todayIncome (todayExpenses : list record) : val :=
  fold_left (λ sum expense, js_add sum (get expense "amount"))
    (List.filter (λ expense, strict_eq (get expense "type") (VStr "income"))
       todayExpenses)
    (VNum num_zero).

Definition todayExpense (todayExpenses : list record) : val :=
  fold_left (λ sum expense, js_add sum (get expense "amount"))
    (List.filter (λ expense, strict_eq (get expense "type") (VStr "expense"))
       todayExpenses)
    (VNum num_zero).

Definition todayBalance (todayExpenses : list record) : val :=
  js_sub (todayIncome todayExpenses) (todayExpense todayExpenses).

(** ** Helpers of [src/utils/storage.js] *)

(** [utils.getCurrentDate] *)
Definition getCurrentDate (e : env) : string := before_T (toISOString e).

(** [utils.getCurrentMonth]: [toISOString().substring(0, 7)] *)
Definition getCurrentMonth (e : env) : string :=
  String.substring 0 7 (toISOString e).

Definition is_nan (n : num) : bool := negb (num_eqb n n).

(** [Math.max(0, ...rest)] on numbers: [NaN] as soon as an argument is
    [NaN], the largest argument otherwise.  The running maximum starts at
    the literal 0 and only moves to a strictly larger number. *)
Definition Math_max_0 (rest : list num) : num :=
  fold_left (λ m x, if is_nan m || is_nan x then num_nan
                    else if num_ltb m x then x else m)
    rest num_zero.

(** [utils.getNextId]:
    [Math.max(0, ...items.map(item => item.id || 0)) + 1] *)
Definition getNextId (items : list record) : val :=
  js_add
    (VNum (Math_max_0
       (map (λ item, to_number (js_or (get item "id") (VNum num_zero))) items)))
    (VNum num_one).

(** [storage.add] *)
Definition storage_add (e : env) (key : string) (item : record) : js record :=
  let! loaded := storage_get key in
  let! items := as_array loaded in
  let newItem :=
    spread item
      {[ "id" := getNextId items;
         "created_at" := VStr (getCurrentTimestamp e) ]} in
  let items := items ++ [newItem] in
  let! _ := storage_set key (JArr items) in
  ret newItem.

(** [storage.update] *)
Definition storage_update (e : env) (key : string) (id : val) (updates : record)
    : js (option record) :=
  let! loaded := storage_get key in
  let! items := as_array loaded in
  match findIndex (λ item, strict_eq (get item "id") id) items with
  | Some index =>
      let updated :=
        spread (spread (items !!! index) updates)
          {[ "updated_at" := VStr (getCurrentTimestamp e) ]} in
      let items := <[index := updated]> items in
      let! _ := storage_set key (JArr items) in
      ret (Some (items !!! index))
  | None => ret None
  end.

(** [storage.delete] *)
Definition storage_delete (key : string) (id : val) : js bool :=
  let! loaded := storage_get key in
  let! items := as_array loaded in
  let filtered := List.filter (λ item, negb (strict_eq (get item "id") id)) items in
  let! _ := storage_set key (JArr filtered) in
  ret true.

(** ** [src/pages/FinancePage.tsx] *)

(** [getTodayString]: [today.toISOString().slice(0, 10)] *)
Definition getTodayString (e : env) : string :=
  String.substring 0 10 (toISOString e).

(** [v.startsWith(p)]: only strings have the method. *)
Definition startsWith (v : val) (p : string) : js bool :=
  match v with
  | VStr s => ret (String.prefix p s)
  | _ => throw TypeError
  end.

(** [monthStr]: the year and the month (0 to 11) the page shows *)
Definition monthStr (year month : Z) : string :=
  Z_to_string year +:+ "-" +:+ padStart 2 "0" (Z_to_string (month + 1)).

Definition monthExpenses (year month : Z) : js (list record) :=
  let! loaded := getAllExpenses in
  let! expenses := as_array loaded in
  filter_js (λ e, startsWith (get e "date") (monthStr year month)) expenses.

(** [monthTotal]: the pair of [monthIncome] and [monthExpense] *)
Definition monthTotal (year month : Z) : js (val * val) :=
  let! monthExpenses := monthExpenses year month in
  let monthIncome :=
    fold_left (λ sum e, js_add sum (get e "amount"))
      (List.filter (λ e, strict_eq (get e "type") (VStr "income")) monthExpenses)
      (VNum num_zero) in
  let monthExpense :=
    fold_left (λ sum e, js_add sum (get e "amount"))
      (List.filter (λ e, strict_eq (get e "type") (VStr "expense")) monthExpenses)
      (VNum num_zero) in
  ret (monthIncome, monthExpense).

(** [changeMonth(delta)] on the month (0 to 11) and the year the page
    shows: the new month and the new year. *)
Definition changeMonth (month year delta : Z) : Z * Z :=
  let newMonth := month + delta in
  if newMonth <? 0 then (11, year - 1)
  else if 11 <? newMonth then (0, year + 1)
  else (newMonth, year).

(** ** Searching *)

Section Search.

(** [String.prototype.toLowerCase], which follows the Unicode case
    mappings, is taken as given. *)
Variable toLowerCase : string → string.

(** [v.toLowerCase()]: only strings have the method. *)
Definition lowered (v : val) : js string :=
  match v with
  | VStr s => ret (toLowerCase s)
  | _ => throw TypeError
  end.

Definition searchExpenses (keyword : val) : js (list record) :=
  let! loaded := loadExpenses in
  let! lowerKeyword := lowered keyword in
  let! expenses := as_array loaded in
  filter_js (λ expense,
    let! description := lowered (get expense "description") in
    if includes description lowerKeyword then ret true
    else
      let! category := lowered (get expense "category") in
      ret (includes category lowerKeyword)) expenses.

Definition searchTodos (keyword : val) : js (list record) :=
  let! loaded := loadTodos in
  let! lowerKeyword := lowered keyword in
  let! todos := as_array loaded in
  filter_js (λ todo,
    let! text := lowered (get todo "text") in
    if includes text lowerKeyword then ret true
    else
      let! category := lowered (get todo "category") in
      ret (includes category lowerKeyword)) todos.

End Search.

End Services.

(** * Notions used to state the properties *)

Section Notions.
Context `{Platform}.

(** The document a key holds, as every loader of the repository sees it:
    an absent key, an empty text and a text that does not parse all read as
    the empty array. *)
Definition decode (text : option string) : document :=
  match text with
  | Some t =>
      if String.eqb t "" then JArr []
      else match JSON_parse t with Some d => d | None => JArr [] end
  | None => JArr []
  end.

(** The world after one call of [setItem] that does not throw. *)
Definition written (key text : string) (w : world) : world :=
  World (<[key := text]> (items w)) (tail (faults w)).

(** The world after one call of [setItem] that throws. *)
Definition refused (w : world) : world := World (items w) (tail (faults w)).

(** Whether the next call of [setItem] throws. *)
Definition next_fails (w : world) : bool :=
  match faults w with
  | true :: _ => true
  | _ => false
  end.

(** No record of [l] has an identifier strictly equal to [id]. *)
Definition absent (id : val) (l : list record) : Prop :=
  Forall (λ r, strict_eq (get r "id") id = false) l.

(** Some record of [l] has an identifier strictly equal to [id]. *)
Definition present (id : val) (l : list record) : Prop :=
  Exists (λ r, strict_eq (get r "id") id = true) l.

(** The records [getTodoStats] counts: all of them, or those of one date. *)
Definition todos_counted (date : date_arg) (l : list record) : list record :=
  match date with
  | NoDate => l
  | IsoDate s =>
      if String.eqb s "" then l
      else List.filter (λ todo, strict_eq (get todo "date") (VStr s)) l
  | Dayjs s => List.filter (λ todo, strict_eq (get todo "date") (VStr s)) l
  end.

(** The state of the initialization module: initialized when the settings
    key holds a non-empty text. *)
Definition initialized (w : world) : Prop :=
  ∃ text, items w !! STORAGE_KEYS.SETTINGS = Some text ∧ text ≠ "".

(** None of the next [n] calls of [setItem] throws. *)
Definition writes_succeed (n : nat) (w : world) : Prop :=
  Forall (λ b, b = false) (take n (faults w)).

(** The keys of the record kinds, each holding a sequence. *)
Definition sequence_keys : list string :=
  [STORAGE_KEYS.TODOS; STORAGE_KEYS.EXPENSES; STORAGE_KEYS.BUDGETS;
   STORAGE_KEYS.TEMPLATES].

(** An optional date bound as the argument [getExpenseStats] receives. *)
Definition bound (b : option string) : val :=
  match b with
  | Some s => VStr s
  | None => VNull
  end.

(** The date of a record, a string for every record the ledger holds. *)
Definition date_of (r : record) : string :=
  match get r "date" with
  | VStr d => d
  | _ => ""
  end.

(** The range check of the specification: both ends included, no constraint
    on the side whose bound is omitted. *)
Definition within (startDate endDate : option string) (r : record) : bool :=
  match startDate with
  | Some s => String.leb s (date_of r)
  | None => true
  end
  && match endDate with
     | Some e => String.leb (date_of r) e
     | None => true
     end.

Definition is_income (r : record) : bool := strict_eq (get r "type") (VStr "income").
Definition is_expense (r : record) : bool := strict_eq (get r "type") (VStr "expense").

(** The statistics of a sequence of records already restricted to a range. *)
Definition summary (kept : list record) : expense_stats :=
  {| totalIncome := sum_amounts (List.filter is_income kept);
     totalExpense := sum_amounts (List.filter is_expense kept);
     balance := js_sub (sum_amounts (List.filter is_income kept))
                       (sum_amounts (List.filter is_expense kept));
     incomeCount := length (List.filter is_income kept);
     expenseCount := length (List.filter is_expense kept);
     totalCount := length kept |}.

(** The records of [l] the category [c] collects. *)
Definition in_category (c : string) (r : record) : bool :=
  String.eqb (to_string (get r "category")) c.

(** The records [getCategoryStats] groups: all of them, or those of one type. *)
Definition records_grouped (type : val) (l : list record) : list record :=
  if truthy type then List.filter (λ r, strict_eq (get r "type") type) l else l.

(** The total a signed reading of the category statistics would give:
    income amounts added, expense amounts subtracted. *)
Definition signed_total (l : list record) : val :=
  js_sub (sum_amounts (List.filter is_income l))
         (sum_amounts (List.filter is_expense l)).

(** The entry of category [c] after the records [l] have been folded into
    an object in which [c] holds [start]. *)
Definition entry_after (start : option category_entry) (c : string)
    (l : list record) : option category_entry :=
  let members := List.filter (in_category c) l in
  match start, members with
  | Some entry, _ =>
      Some {| count := count entry + length members;
              total := fold_left (λ sum item, js_add sum (get item "amount"))
                         members (total entry);
              type := type entry |}
  | None, [] => None
  | None, first :: _ =>
      Some {| count := length members;
              total := sum_amounts members;
              type := get first "type" |}
  end.

(** The property name under which [getCategoryStats] files a record. *)
Definition category_key (r : record) : string := to_string (get r "category").

(** [Object.prototype] in a page that has just been loaded. *)
Definition clean : prototype :=
  {| inherited_count := None; inherited_total := None |}.

(** [Object.prototype] holds nothing truthy under [count] and [total]. *)
Definition harmless (proto : prototype) : Prop :=
  truthy (default VUndefined (inherited_count proto)) = false
  ∧ truthy (default VUndefined (inherited_total proto)) = false.

(** The records that get an entry of the object: those whose category is
    not the name of an inherited method. *)
Definition filed (l : list record) : list record :=
  List.filter (λ r, negb (is_method (category_key r))) l.

(** What the body of the loop makes of the object for a record whose
    category is not [__proto__], under a harmless prototype. *)
Definition filed_step (acc : gmap string category_entry) (r : record)
    : gmap string category_entry :=
  match acc !! category_key r with
  | Some entry =>
      <[category_key r := {| count := count entry + 1;
                             total := js_add (total entry) (get r "amount");
                             type := type entry |}]> acc
  | None =>
      if is_method (category_key r) then acc
      else <[category_key r := {| count := 0 + 1;
                                  total := js_add (VNum num_zero) (get r "amount");
                                  type := get r "type" |}]> acc
  end.

(** The day number of the last day of month [m] of year [y], as
    [new Date(y, m, 0)] computes it. *)
Definition last_day_number (y m : Z) : Z :=
  JSDate.MakeDay (JSDate.MakeFullYear y) m 0.

(** The zone of [e] has the midnight that begins day [d]: taken to UTC, that
    local time is a time value a [Date] holds, and taken back it is a time
    of day [d]. *)
Definition midnight_kept (e : env) (d : Z) : Prop :=
  -8640000000000000 <= UTC e (d * JSDate.msPerDay) <= 8640000000000000
  ∧ JSDate.Day (LocalTime e (UTC e (d * JSDate.msPerDay))) = d.

(** The zone of [e] is [o] milliseconds ahead of UTC at all times. *)
Definition fixed_offset (e : env) (o : Z) : Prop :=
  ∀ t, UTC e t = t - o ∧ LocalTime e t = t + o.

(** The priority of a todo is one of the three the statistics count. *)
Definition known_priority (t : record) : Prop :=
  get t "priority" = VStr "high" ∨ get t "priority" = VStr "medium"
  ∨ get t "priority" = VStr "low".

(** The statistics of a sequence of todos already restricted to a date. *)
Definition todo_summary (counted : list record) : TodoStats.t :=
  {| TodoStats.total := length counted;
     TodoStats.completed :=
       length (List.filter (λ t, truthy (get t "completed")) counted);
     TodoStats.pending :=
       length (List.filter (λ t, negb (truthy (get t "completed"))) counted);
     TodoStats.high :=
       length (List.filter (λ t, strict_eq (get t "priority") (VStr "high")) counted);
     TodoStats.medium :=
       length (List.filter (λ t, strict_eq (get t "priority") (VStr "medium")) counted);
     TodoStats.low :=
       length (List.filter (λ t, strict_eq (get t "priority") (VStr "low")) counted) |}.

(** The text of a value that is a string. *)
Definition text_of (v : val) : string :=
  match v with
  | VStr s => s
  | _ => ""
  end.

(** The texts of [l] one after the other. *)
Definition joined (l : list string) : string := fold_right String.append "" l.

(** The identifier of a record is missing or a number, not [NaN]. *)
Definition numeric_id (r : record) : Prop :=
  get r "id" = VUndefined ∨ ∃ n, get r "id" = VNum n ∧ num_eqb n n = true.

(** The largest identifier [getNextId] finds among [items], 0 at least. *)
Definition largest_id (items : list record) : num :=
  Math_max_0 (map (λ item, to_number (js_or (get item "id") (VNum num_zero))) items).

(** The number of records the category statistics account for. *)
Definition count_sum (stats : gmap string category_entry) : nat :=
  map_fold (λ _ entry n, (count entry + n)%nat) 0%nat stats.

End Notions.

(** The Gregorian calendar, as the specification words it. *)
Definition is_leap_year (y : Z) : bool :=
  (y mod 4 =? 0) && (negb (y mod 100 =? 0) || (y mod 400 =? 0)).

Definition days_in_month (y m : Z) : Z :=
  match m with
  | 1 | 3 | 5 | 7 | 8 | 10 | 12 => 31
  | 4 | 6 | 9 | 11 => 30
  | 2 => if is_leap_year y then 29 else 28
  | _ => 0
  end.

Definition two_digits (n : Z) : string := padStart 2 "0" (Z_to_string n).

Definition iso_date (y m d : Z) : string :=
  Z_to_string y +:+ "-" +:+ two_digits m +:+ "-" +:+ two_digits d.

Definition firstDayOf (y m : Z) : string := iso_date y m 1.
Definition lastDayOf (y m : Z) : string := iso_date y m (days_in_month y m).

Section CalendarDates.
Context `{Platform}.

(** The date of a record is a calendar date with a year of four digits,
    written as [YYYY-MM-DD]. *)
Definition calendar_date (r : record) : Prop :=
  ∃ y m d, get r "date" = VStr (iso_date y m d)
    ∧ 1000 <= y <= 9999 ∧ 1 <= m <= 12 ∧ 1 <= d <= days_in_month y m.

End CalendarDates.

(** [p] holds of the [n] integers from [start] on. *)
Fixpoint all_from (n : nat) (start : Z) (p : Z → bool) : bool :=
  match n with
  | O => true
  | S n' => p start && all_from n' (start + 1) p
  end.

(** The years from 1000 to 9999 are written with four digits. *)
Definition four_digit_years : bool :=
  all_from (Z.to_nat 9000) 1000
    (λ y, (String.length (Z_to_string y) =? 4)%nat).

(** The numbers from 0 to 99 are written with two digits by [two_digits],
    in increasing order and all apart. *)
Definition two_digit_order : bool :=
  all_from 100 0 (λ a,
    (String.length (two_digits a) =? 2)%nat
    && all_from 100 0 (λ b,
         implb (a <=? b) (String.leb (two_digits a) (two_digits b))
         && implb (String.eqb (two_digits a) (two_digits b)) (a =? b))).

(** * A platform over the integers

    An implementation of [Platform] in which a number is an integer or
    [NaN], and JSON texts are read by a lexer and a finite-state parser for
    the documents of this application.  It shows that the interface can be
    met and gives the properties concrete inputs to run on. *)

Module IntegerPlatform.

Inductive number := NaN | Int (z : Z).

Definition add (a b : number) : number :=
  match a, b with
  | Int x, Int y => Int (x + y)
  | _, _ => NaN
  end.

Definition sub (a b : number) : number :=
  match a, b with
  | Int x, Int y => Int (x - y)
  | _, _ => NaN
  end.

Definition eqb (a b : number) : bool :=
  match a, b with
  | Int x, Int y => x =? y
  | _, _ => false
  end.

Definition ltb (a b : number) : bool :=
  match a, b with
  | Int x, Int y => x <? y
  | _, _ => false
  end.

Definition to_string (a : number) : string :=
  match a with
  | Int x => Z_to_string x
  | NaN => "NaN"
  end.

Definition exact (a : number) : bool :=
  match a with
  | Int _ => true
  | NaN => false
  end.

Definition is_digit (c : ascii) : bool :=
  (48 <=? N_of_ascii c)%N && (N_of_ascii c <=? 57)%N.

Definition is_lower (c : ascii) : bool :=
  (97 <=? N_of_ascii c)%N && (N_of_ascii c <=? 122)%N.

Definition is_control (c : ascii) : bool := (N_of_ascii c <? 32)%N.

(** The integer a decimal literal denotes, if it is one. *)
Definition literal (s : string) : option Z :=
  Z.of_int <$> NilZero.int_of_string s.

(** [Number(s)] on integer literals; the empty string is 0. *)
Definition of_string (s : string) : number :=
  if String.eqb s "" then Int 0
  else match literal s with
       | Some z => Int z
       | None => NaN
       end.

Fixpoint digits_prefix (s : string) : string :=
  match s with
  | String c s' => if is_digit c then String c (digits_prefix s') else ""
  | "" => ""
  end.

(** [parseFloat(s)]: the longest prefix that is an integer literal. *)
Definition parse_float (s : string) : number :=
  let prefix :=
    match s with
    | String "-" s' => String "-" (digits_prefix s')
    | _ => digits_prefix s
    end in
  match literal prefix with
  | Some z => Int z
  | None => NaN
  end.

(** ** Tokens *)

Inductive token :=
  | TLBracket | TRBracket | TLBrace | TRBrace | TColon | TComma
  | TString (s : string)
  | TNumber (z : Z)
  | TTrue | TFalse | TNull.

Definition snoc (s : string) (c : ascii) : string := s +:+ String c "".

(** *** Printing *)

Definition hex_char (n : N) : ascii :=
  ascii_of_N (if (n <? 10)%N then 48 + n else 87 + n).

Definition escape_char (c : ascii) : string :=
  match c with
  | "034"%char => String "\"%char (String "034"%char "")
  | "\"%char => "\\"
  | "008"%char => "\b"
  | "009"%char => "\t"
  | "010"%char => "\n"
  | "012"%char => "\f"
  | "013"%char => "\r"
  | _ =>
      if is_control c then
        "\u00" +:+ String (hex_char (N_of_ascii c / 16))
                    (String (hex_char (N_of_ascii c mod 16)) "")
      else String c ""
  end.

Fixpoint escape (s : string) : string :=
  match s with
  | "" => ""
  | String c s' => escape_char c +:+ escape s'
  end.

Definition token_text (t : token) : string :=
  match t with
  | TLBracket => "["
  | TRBracket => "]"
  | TLBrace => "{"
  | TRBrace => "}"
  | TColon => ":"
  | TComma => ","
  | TString s => String "034"%char (escape s +:+ String "034"%char "")
  | TNumber z => Z_to_string z
  | TTrue => "true"
  | TFalse => "false"
  | TNull => "null"
  end.

Fixpoint text (ts : list token) : string :=
  match ts with
  | [] => ""
  | t :: ts' => token_text t +:+ text ts'
  end.

Definition value_token (v : value number) : token :=
  match v with
  | VUndefined | VNull | VNum NaN => TNull
  | VBool true => TTrue
  | VBool false => TFalse
  | VNum (Int z) => TNumber z
  | VStr s => TString s
  end.

Definition defined (kv : string * value number) : bool :=
  match kv.2 with
  | VUndefined => false
  | _ => true
  end.

Fixpoint member_tokens (l : list (string * value number)) : list token :=
  match l with
  | [] => []
  | [(k, v)] => [TString k; TColon; value_token v]
  | (k, v) :: l' => TString k :: TColon :: value_token v :: TComma :: member_tokens l'
  end.

(** The properties are printed in the order of the map, those holding
    [undefined] left out. *)
Definition object_tokens (o : gmap string (value number)) : list token :=
  TLBrace :: member_tokens (List.filter defined (map_to_list o)) ++ [TRBrace].

Fixpoint element_tokens (l : list (gmap string (value number))) : list token :=
  match l with
  | [] => []
  | [o] => object_tokens o
  | o :: l' => object_tokens o ++ TComma :: element_tokens l'
  end.

Definition tokens_of (d : json number) : list token :=
  match d with
  | JPrim v => [value_token v]
  | JObj o => object_tokens o
  | JArr l => TLBracket :: element_tokens l ++ [TRBracket]
  end.

Definition stringify (d : json number) : string :=
  match d with
  | JPrim VUndefined => "undefined"
  | _ => text (tokens_of d)
  end.

(** *** Lexing *)

Inductive lex_state :=
  | LStart
  | LStr (acc : string)                    (* inside a string literal *)
  | LEsc (acc : string)                    (* after a backslash *)
  | LHex (acc : string) (read : list N)    (* after \u *)
  | LNum (acc : string)                    (* inside a number *)
  | LWord (acc : string).                  (* inside true, false, null *)

Definition start_char (c : ascii) : option (option token * lex_state) :=
  match c with
  | "["%char => Some (Some TLBracket, LStart)
  | "]"%char => Some (Some TRBracket, LStart)
  | "{"%char => Some (Some TLBrace, LStart)
  | "}"%char => Some (Some TRBrace, LStart)
  | ":"%char => Some (Some TColon, LStart)
  | ","%char => Some (Some TComma, LStart)
  | "034"%char => Some (None, LStr "")
  | "-"%char => Some (None, LNum "-")
  | _ =>
      if Ascii.is_space c then Some (None, LStart)
      else if is_digit c then Some (None, LNum (String c ""))
      else if is_lower c then Some (None, LWord (String c ""))
      else None
  end.

Definition emit (t : option token) (rest : option (list token))
    : option (list token) :=
  match t with
  | Some t => cons t <$> rest
  | None => rest
  end.

Definition number_token (acc : string) : option token :=
  TNumber <$> literal acc.

Definition word_token (acc : string) : option token :=
  if String.eqb acc "true" then Some TTrue
  else if String.eqb acc "false" then Some TFalse
  else if String.eqb acc "null" then Some TNull
  else None.

Definition hex_value (c : ascii) : option N :=
  let n := N_of_ascii c in
  if (48 <=? n)%N && (n <=? 57)%N then Some (n - 48)%N
  else if (97 <=? n)%N && (n <=? 102)%N then Some (n - 87)%N
  else if (65 <=? n)%N && (n <=? 70)%N then Some (n - 55)%N
  else None.

(** The UTF-8 bytes of a code point of the basic plane. *)
Definition utf8 (n : N) : string :=
  if (n <? 128)%N then String (ascii_of_N n) ""
  else if (n <? 2048)%N then
    String (ascii_of_N (192 + n / 64))
      (String (ascii_of_N (128 + n mod 64)) "")
  else
    String (ascii_of_N (224 + n / 4096))
      (String (ascii_of_N (128 + (n / 64) mod 64))
         (String (ascii_of_N (128 + n mod 64)) "")).

Definition escaped (c : ascii) : option ascii :=
  match c with
  | "034"%char => Some "034"%char
  | "\"%char => Some "\"%char
  | "/"%char => Some "/"%char
  | "b"%char => Some "008"%char
  | "f"%char => Some "012"%char
  | "n"%char => Some "010"%char
  | "r"%char => Some "013"%char
  | "t"%char => Some "009"%char
  | _ => None
  end.

Fixpoint lex (st : lex_state) (s : string) : option (list token) :=
  match s with
  | "" =>
      match st with
      | LStart => Some []
      | LNum acc => (λ t, [t]) <$> number_token acc
      | LWord acc => (λ t, [t]) <$> word_token acc
      | _ => None
      end
  | String c s' =>
      match st with
      | LStart =>
          match start_char c with
          | Some (t, st') => emit t (lex st' s')
          | None => None
          end
      | LStr acc =>
          if Ascii.eqb c "034" then cons (TString acc) <$> lex LStart s'
          else if Ascii.eqb c "\" then lex (LEsc acc) s'
          else if is_control c then None
          else lex (LStr (snoc acc c)) s'
      | LEsc acc =>
          if Ascii.eqb c "u" then lex (LHex acc []) s'
          else match escaped c with
               | Some c' => lex (LStr (snoc acc c')) s'
               | None => None
               end
      | LHex acc read =>
          match hex_value c, read with
          | Some h, [a; b; d] =>
              lex (LStr (acc +:+ utf8 (((a * 16 + b) * 16 + d) * 16 + h)%N)) s'
          | Some h, _ => lex (LHex acc (read ++ [h])) s'
          | None, _ => None
          end
      | LNum acc =>
          if is_digit c then lex (LNum (snoc acc c)) s'
          else match number_token acc, start_char c with
               | Some n, Some (t, st') => cons n <$> emit t (lex st' s')
               | _, _ => None
               end
      | LWord acc =>
          if is_lower c then lex (LWord (snoc acc c)) s'
          else match word_token acc, start_char c with
               | Some n, Some (t, st') => cons n <$> emit t (lex st' s')
               | _, _ => None
               end
      end
  end.

(** *** Parsing *)

(** Where an object stands: at the top, or in an array after the records
    already read. *)
Inductive place :=
  | Top
  | InArray (read : list (gmap string (value number))).

Inductive parse_state :=
  | PStart
  | PArrFirst
  | PArrNext (read : list (gmap string (value number)))
  | PArrAfter (read : list (gmap string (value number)))
  | PObjFirst (p : place)
  | PKey (p : place) (o : gmap string (value number))
  | PColon (p : place) (o : gmap string (value number)) (k : string)
  | PVal (p : place) (o : gmap string (value number)) (k : string)
  | PObjAfter (p : place) (o : gmap string (value number))
  | PEnd (d : json number).

Definition close (p : place) (o : gmap string (value number)) : parse_state :=
  match p with
  | Top => PEnd (JObj o)
  | InArray read => PArrAfter (read ++ [o])
  end.

Definition token_value (t : token) : option (value number) :=
  match t with
  | TString s => Some (VStr s)
  | TNumber z => Some (VNum (Int z))
  | TTrue => Some (VBool true)
  | TFalse => Some (VBool false)
  | TNull => Some VNull
  | _ => None
  end.

Definition step (st : parse_state) (t : token) : option parse_state :=
  match st, t with
  | PStart, TLBracket => Some PArrFirst
  | PStart, TLBrace => Some (PObjFirst Top)
  | PStart, _ => (λ v, PEnd (JPrim v)) <$> token_value t
  | PArrFirst, TRBracket => Some (PEnd (JArr []))
  | PArrFirst, TLBrace => Some (PObjFirst (InArray []))
  | PArrNext read, TLBrace => Some (PObjFirst (InArray read))
  | PArrAfter read, TComma => Some (PArrNext read)
  | PArrAfter read, TRBracket => Some (PEnd (JArr read))
  | PObjFirst p, TRBrace => Some (close p ∅)
  | PObjFirst p, TString k => Some (PColon p ∅ k)
  | PKey p o, TString k => Some (PColon p o k)
  | PColon p o k, TColon => Some (PVal p o k)
  | PVal p o k, _ => (λ v, PObjAfter p (<[k := v]> o)) <$> token_value t
  | PObjAfter p o, TComma => Some (PKey p o)
  | PObjAfter p o, TRBrace => Some (close p o)
  | _, _ => None
  end.

Fixpoint run (st : parse_state) (ts : list token) : option (json number) :=
  match ts with
  | [] =>
      match st with
      | PEnd d => Some d
      | _ => None
      end
  | t :: ts' =>
      match step st t with
      | Some st' => run st' ts'
      | None => None
      end
  end.

Definition parse (s : string) : option (json number) :=
  match lex LStart s with
  | Some ts => run PStart ts
  | None => None
  end.

(** *** Notions for the round trip *)

(** A text after which a number or a word ends. *)
Definition delimited (rest : string) : Prop :=
  match rest with
  | "" => True
  | String c _ => is_digit c = false ∧ is_lower c = false
  end.

Fixpoint all_digits (s : string) : Prop :=
  match s with
  | "" => True
  | String c s' => is_digit c = true ∧ all_digits s'
  end.

Definition wordlike (t : token) : bool :=
  match t with
  | TNumber _ | TTrue | TFalse | TNull => true
  | _ => false
  end.

Definition punctuation (t : token) : bool :=
  match t with
  | TLBracket | TRBracket | TLBrace | TRBrace | TColon | TComma => true
  | _ => false
  end.

(** Every number and word is followed by punctuation or by the end. *)
Fixpoint separated (ts : list token) : Prop :=
  match ts with
  | t :: (t' :: _) as ts' =>
      (wordlike t = true → punctuation t' = true) ∧ separated ts'
  | _ => True
  end.

(** *** Parsing the tokens of a document *)

Definition put (o : gmap string (value number)) (kv : string * value number)
    : gmap string (value number) := <[kv.1 := kv.2]> o.

Definition printable (v : value number) : Prop :=
  token_value (value_token v) = Some v.

(** [toLowerCase] on the letters A to Z; other bytes are kept. *)
Definition lower_char (c : ascii) : ascii :=
  if (65 <=? N_of_ascii c)%N && (N_of_ascii c <=? 90)%N
  then ascii_of_N (N_of_ascii c + 32)
  else c.

Fixpoint to_lower_case (s : string) : string :=
  match s with
  | EmptyString => ""
  | String c s' => String (lower_char c) (to_lower_case s')
  end.

End IntegerPlatform.

(** The integers with [NaN] and the codec above as a platform. *)
#[export] Instance integer_platform : Platform := {|
  num := IntegerPlatform.number;
  num_zero := IntegerPlatform.Int 0;
  num_one := IntegerPlatform.Int 1;
  num_nan := IntegerPlatform.NaN;
  num_add := IntegerPlatform.add;
  num_sub := IntegerPlatform.sub;
  num_eqb := IntegerPlatform.eqb;
  num_ltb := IntegerPlatform.ltb;
  num_of_string := IntegerPlatform.of_string;
  num_to_string := IntegerPlatform.to_string;
  parseFloat := IntegerPlatform.parse_float;
  num_exact := IntegerPlatform.exact;
  JSON_stringify := IntegerPlatform.stringify;
  JSON_parse := IntegerPlatform.parse
|}.

(** * Concrete inputs *)

Module Examples.
Import IntegerPlatform.

(** The ledger of the scenario of the specification. *)
Definition salary : record :=
  {[ "id" := VNum (Int 1); "description" := VStr "薪水";
     "amount" := VNum (Int 50000); "type" := VStr "income";
     "date" := VStr "2025-06-01"; "category" := VStr "薪資";
     "createdAt" := VStr "2025-06-01T08:00:00.000Z" ]}.

Definition lunch : record :=
  {[ "id" := VNum (Int 2); "description" := VStr "午餐";
     "amount" := VNum (Int 150); "type" := VStr "expense";
     "date" := VStr "2025-06-01"; "category" := VStr "餐飲";
     "createdAt" := VStr "2025-06-01T12:30:00.000Z" ]}.

Definition dinner : record :=
  {[ "id" := VNum (Int 3); "description" := VStr "晚餐聚會";
     "amount" := VNum (Int 800); "type" := VStr "expense";
     "date" := VStr "2025-06-02"; "category" := VStr "餐飲";
     "createdAt" := VStr "2025-06-02T19:00:00.000Z" ]}.

Definition ledger : list record := [salary; lunch; dinner].

(** The todos of the scenario of the specification. *)
Definition report : record :=
  {[ "id" := VNum (Int 11); "text" := VStr "report"; "completed" := VBool false;
     "date" := VStr "2025-06-01"; "priority" := VStr "high";
     "category" := VStr "工作"; "createdAt" := VStr "2025-06-01T08:00:00.000Z" ]}.

Definition invoice : record :=
  {[ "id" := VNum (Int 12); "text" := VStr "invoice"; "completed" := VBool true;
     "date" := VStr "2025-06-01"; "priority" := VStr "high";
     "category" := VStr "工作"; "createdAt" := VStr "2025-06-01T08:05:00.000Z" ]}.

Definition errand : record :=
  {[ "id" := VNum (Int 13); "text" := VStr "errand"; "completed" := VBool false;
     "date" := VStr "2025-06-02"; "priority" := VStr "low";
     "category" := VStr "其他"; "createdAt" := VStr "2025-06-01T08:10:00.000Z" ]}.

Definition todos : list record := [report; invoice; errand].

(** A store holding both sequences under the keys of the services, whose
    coming writes follow [faults]. *)
Definition home_with (faults : list bool) : world :=
  World {[ EXPENSES_STORAGE_KEY := JSON_stringify (JArr ledger);
           TODOS_STORAGE_KEY := JSON_stringify (JArr todos) ]} faults.

Definition home : world := home_with [].

(** The same store when the next write is refused. *)
Definition home_full : world := home_with [true].

(** A browser that has never run the application. *)
Definition fresh : world := World ∅ [].

(** The clock on 2025-06-04 in Taipei, eight hours ahead of UTC all year,
    with [Math.random()] answering 0. *)
Definition clock : env :=
  {| Date_now := Int 1749000000000; Math_random := Int 0;
     toISOString := "2025-06-04T01:20:00.000Z";
     getFullYear := 2025; getMonth := 5;
     UTC := λ t, t - 28800000; LocalTime := λ t, t + 28800000 |}.

(** The same clock on Kiritimati, whose zone went from ten hours behind UTC
    to fourteen hours ahead at 1994-12-31T10:00Z: its calendar has no
    1994-12-31.  A local time of that day is taken to UTC with the offset
    in force before the change. *)
Definition kiritimati : env :=
  {| Date_now := Int 1749000000000; Math_random := Int 0;
     toISOString := "2025-06-04T01:20:00.000Z";
     getFullYear := 2025; getMonth := 5;
     UTC := λ t, if t + 36000000 <? 788868000000 then t + 36000000
                 else if 788868000000 <=? t - 50400000 then t - 50400000
                 else t + 36000000;
     LocalTime := λ t, if t <? 788868000000 then t - 36000000
                       else t + 50400000 |}.

(** A ledger of December 1994. *)
Definition airfare : record :=
  {[ "id" := VNum (Int 31); "description" := VStr "airfare";
     "amount" := VNum (Int 900); "type" := VStr "expense";
     "date" := VStr "1994-12-15"; "category" := VStr "travel";
     "createdAt" := VStr "1994-12-15T20:00:00.000Z" ]}.

Definition december_1994 : world :=
  World {[ EXPENSES_STORAGE_KEY := JSON_stringify (JArr [airfare]) ]} [].

(** What the quick-entry form passes to [addExpense]. *)
Definition bus_fare : record :=
  {[ "description" := VStr "交通費"; "amount" := VNum (Int 200);
     "type" := VStr "expense"; "date" := VStr "2025-06-03";
     "category" := VStr "交通" ]}.

(** What the todo form passes to [addTodo]. *)
Definition call_bank : record :=
  {[ "text" := VStr "call the bank"; "description" := VStr "";
     "date" := VStr "2025-06-04"; "time" := VStr "";
     "priority" := VStr "medium"; "category" := VStr "生活" ]}.

(** A record added at the very millisecond of [clock], with the same
    answer of [Math.random()]. *)
Definition taxi : record :=
  {[ "id" := VNum (Int 1749000000000); "description" := VStr "計程車";
     "amount" := VNum (Int 300); "type" := VStr "expense";
     "date" := VStr "2025-06-04"; "category" := VStr "交通";
     "createdAt" := VStr "2025-06-04T01:20:00.000Z" ]}.

Definition same_millisecond : world :=
  World {[ EXPENSES_STORAGE_KEY := JSON_stringify (JArr [taxi]) ]} [].

(** Two records of the default category, one of each type. *)
Definition gift : record :=
  {[ "id" := VNum (Int 21); "description" := VStr "紅包";
     "amount" := VNum (Int 100); "type" := VStr "income";
     "date" := VStr "2025-06-01"; "category" := VStr "其他";
     "createdAt" := VStr "2025-06-01T08:00:00.000Z" ]}.

Definition stamps : record :=
  {[ "id" := VNum (Int 22); "description" := VStr "郵票";
     "amount" := VNum (Int 30); "type" := VStr "expense";
     "date" := VStr "2025-06-01"; "category" := VStr "其他";
     "createdAt" := VStr "2025-06-01T09:00:00.000Z" ]}.

Definition mixed_category : world :=
  World {[ EXPENSES_STORAGE_KEY := JSON_stringify (JArr [gift; stamps]) ]} [].

(** Two records whose categories are names every object inherits, and one
    of a category of its own. *)
Definition riddle : record :=
  {[ "id" := VNum (Int 41); "description" := VStr "riddle";
     "amount" := VNum (Int 10); "type" := VStr "expense";
     "date" := VStr "2025-06-01"; "category" := VStr "toString" ]}.

Definition builder : record :=
  {[ "id" := VNum (Int 42); "description" := VStr "builder";
     "amount" := VNum (Int 20); "type" := VStr "expense";
     "date" := VStr "2025-06-01"; "category" := VStr "constructor" ]}.

Definition snack : record :=
  {[ "id" := VNum (Int 43); "description" := VStr "snack";
     "amount" := VNum (Int 30); "type" := VStr "expense";
     "date" := VStr "2025-06-01"; "category" := VStr "food" ]}.

Definition inherited_names : world :=
  World {[ EXPENSES_STORAGE_KEY := JSON_stringify (JArr [riddle; snack; builder]) ]} [].

(** [invoice] with its completion flag flipped, and the store after the
    first of two toggles. *)
Definition invoice_open : record := <["completed" := VBool false]> invoice.

Definition home_toggled : world :=
  World {[ EXPENSES_STORAGE_KEY := JSON_stringify (JArr ledger);
           TODOS_STORAGE_KEY := JSON_stringify (JArr [report; invoice_open; errand]) ]}
    [].

(** A store whose service keys hold a text cut short. *)
Definition garbled : world :=
  World {[ EXPENSES_STORAGE_KEY := "[{"; TODOS_STORAGE_KEY := "[{" ]} [].

(** A store whose service keys hold an object instead of an array. *)
Definition misplaced : world :=
  World {[ EXPENSES_STORAGE_KEY := JSON_stringify (JObj salary);
           TODOS_STORAGE_KEY := JSON_stringify (JObj report) ]} [].

(** What a form without a priority field would pass to [addTodo]. *)
Definition water_plants : record :=
  {[ "text" := VStr "water the plants"; "date" := VStr "2025-06-04" ]}.

(** Two budgets kept under a key of the storage module. *)
Definition food_budget : record :=
  {[ "id" := VNum (Int 1); "category" := VStr "餐飲"; "limit" := VNum (Int 6000) ]}.

Definition travel_budget : record :=
  {[ "id" := VNum (Int 2); "category" := VStr "交通"; "limit" := VNum (Int 1500) ]}.

Definition budgets : list record := [food_budget; travel_budget].

Definition office_with (faults : list bool) : world :=
  World {[ STORAGE_KEYS.BUDGETS := JSON_stringify (JArr budgets) ]} faults.

Definition office : world := office_with [].

Definition office_full : world := office_with [true].

(** The clock on the morning of 2025-06-01, in the zone of UTC. *)
Definition morning : env :=
  {| Date_now := Int 1748768400000; Math_random := Int 0;
     toISOString := "2025-06-01T09:00:00.000Z";
     getFullYear := 2025; getMonth := 5;
     UTC := λ t, t; LocalTime := λ t, t |}.

(** A browser that has never run the application and refuses the next
    write, and one that refuses the fifth write to come. *)
Definition fresh_full : world := World ∅ [true].

Definition fresh_fifth : world := World ∅ [false; false; false; false; true].

(** One that accepts the next write and refuses the four after it. *)
Definition fresh_once : world := World ∅ [false; true; true; true; true].

(** Two incomes whose amounts were passed as the texts of a form. *)
Definition tip : record :=
  {[ "id" := VNum (Int 31); "description" := VStr "小費";
     "amount" := VStr "100"; "type" := VStr "income";
     "date" := VStr "2025-06-01"; "category" := VStr "其他";
     "createdAt" := VStr "2025-06-01T08:00:00.000Z" ]}.

Definition refund : record :=
  {[ "id" := VNum (Int 32); "description" := VStr "退款";
     "amount" := VStr "30"; "type" := VStr "income";
     "date" := VStr "2025-06-01"; "category" := VStr "其他";
     "createdAt" := VStr "2025-06-01T09:00:00.000Z" ]}.

Definition typed_in : world :=
  World {[ EXPENSES_STORAGE_KEY := JSON_stringify (JArr [tip; refund]) ]} [].

(** A todo stored without a completion flag. *)
Definition note : record :=
  {[ "id" := VNum (Int 41); "text" := VStr "note"; "date" := VStr "2025-06-01" ]}.

Definition notebook : world :=
  World {[ TODOS_STORAGE_KEY := JSON_stringify (JArr [note]) ]} [].

Definition fun_budget : record :=
  {[ "id" := VNum (Int 1); "category" := VStr "娛樂"; "limit" := VNum (Int 800) ]}.

End Examples.

(** * Properties *)

(** ** List lemmas for [findIndex] and [filter] *)

Lemma findIndex_None {A} (p : A → bool) (l : list A) :
  findIndex p l = None ↔ Forall (λ x, p x = false) l.
Proof.
  induction l as [|x l IH]; simpl.
  - split; [constructor|done].
  - destruct (p x) eqn:Hx.
    + split; [done|]. intros Hall. inversion Hall; congruence.
    + destruct (findIndex p l); simpl.
      * split; [done|]. intros Hall. inversion Hall as [|?? _ Hl]; subst.
        apply IH in Hl. done.
      * split; [|done]. intros _. constructor; [done|]. by apply IH.
Qed.

Lemma findIndex_Some {A} (p : A → bool) (l : list A) i :
  findIndex p l = Some i →
  ∃ x, l !! i = Some x ∧ p x = true ∧ Forall (λ y, p y = false) (take i l).
Proof.
  revert i. induction l as [|x l IH]; intros i; simpl; [done|].
  destruct (p x) eqn:Hx.
  - intros [= <-]. exists x. simpl. repeat split; [done|constructor].
  - destruct (findIndex p l) as [j|] eqn:Hj; simpl; [|done].
    intros [= <-]. destruct (IH j eq_refl) as (y & Hy & Hpy & Hpre).
    exists y. simpl. repeat split; [done..|]. by constructor.
Qed.

Lemma filter_all {A} (p : A → bool) (l : list A) :
  Forall (λ x, p x = true) l → List.filter p l = l.
Proof.
  induction 1 as [|x l Hx _ IH]; simpl; [done|]. by rewrite Hx, IH.
Qed.

Lemma filter_length_le {A} (p : A → bool) (l : list A) :
  (length (List.filter p l) ≤ length l)%nat.
Proof. induction l as [|x l IH]; simpl; [lia|]. destruct (p x); simpl; lia. Qed.

Lemma filter_length_eq {A} (p : A → bool) (l : list A) :
  length (List.filter p l) = length l → Forall (λ x, p x = true) l.
Proof.
  induction l as [|x l IH]; simpl; [constructor|].
  destruct (p x) eqn:Hx; simpl.
  - intros [= Hl]. constructor; auto.
  - intros Hl. pose proof (filter_length_le p l). lia.
Qed.

Lemma filter_split_length {A} (p : A → bool) (l : list A) :
  (length (List.filter p l) + length (List.filter (λ x, negb (p x)) l))%nat
  = length l.
Proof.
  induction l as [|x l IH]; simpl; [done|]. destruct (p x); simpl; lia.
Qed.

(** ** The calendar arithmetic of [Date] *)

Module DateFacts.
Import JSDate.

Lemma DaysInYear_leap y :
  DaysInYear y = if is_leap_year y then 366 else 365.
Proof.
  unfold DaysInYear, is_leap_year.
  destruct (y mod 4 =? 0), (y mod 100 =? 0), (y mod 400 =? 0); reflexivity.
Qed.

Lemma DayFromYear_succ y : DayFromYear (y + 1) = DayFromYear y + DaysInYear y.
Proof.
  unfold DayFromYear, DaysInYear.
  destruct (Z.eqb_spec (y mod 4) 0), (Z.eqb_spec (y mod 100) 0),
    (Z.eqb_spec (y mod 400) 0); cbn [negb]; Z.div_mod_to_equations; lia.
Qed.

Lemma YearFromDay_estimate y d :
  DayFromYear y <= d < DayFromYear (y + 1) →
  y - 1 <= 1970 + d * 400 / 146097 <= y + 1.
Proof. unfold DayFromYear. intros. Z.div_mod_to_equations. lia. Qed.

Lemma DaysInYear_pos y : 365 <= DaysInYear y <= 366.
Proof. rewrite DaysInYear_leap. destruct (is_leap_year y); lia. Qed.

Lemma YearFromDay_within y d :
  DayFromYear y <= d < DayFromYear (y + 1) → YearFromDay d = y.
Proof.
  intros Hd. pose proof (YearFromDay_estimate y d Hd) as Hest.
  unfold YearFromDay. set (y0 := 1970 + d * 400 / 146097) in *.
  pose proof (DayFromYear_succ (y - 1)) as Hprev.
  replace (y - 1 + 1) with y in Hprev by lia.
  pose proof (DayFromYear_succ (y + 1)) as Hnext.
  pose proof (DaysInYear_pos (y - 1)). pose proof (DaysInYear_pos (y + 1)).
  assert (y0 = y - 1 ∨ y0 = y ∨ y0 = y + 1) as [->|[->| ->]] by lia.
  - replace (y - 1 + 1) with y by lia.
    destruct (Z.ltb_spec d (DayFromYear (y - 1))); [lia|].
    destruct (Z.leb_spec (DayFromYear y) d); lia.
  - destruct (Z.ltb_spec d (DayFromYear y)); [lia|].
    destruct (Z.leb_spec (DayFromYear (y + 1)) d); lia.
  - destruct (Z.ltb_spec d (DayFromYear (y + 1))); lia.
Qed.

(** The day [k] days into year [y] reads back as such. *)
Lemma day_in_year y k :
  0 <= k < DaysInYear y →
  YearFromDay (DayFromYear y + k) = y
  ∧ DayWithinYear (DayFromYear y + k) = k
  ∧ InLeapYear (DayFromYear y + k) = if is_leap_year y then 1 else 0.
Proof.
  intros Hk.
  assert (Hy : YearFromDay (DayFromYear y + k) = y).
  { apply YearFromDay_within. rewrite DayFromYear_succ. lia. }
  unfold DayWithinYear, InLeapYear. rewrite Hy. repeat split; [lia|].
  rewrite DaysInYear_leap. by destruct (is_leap_year y).
Qed.

Lemma leap_two_digit_year y :
  1 <= y <= 99 → is_leap_year (1900 + y) = is_leap_year y.
Proof.
  intros ?. unfold is_leap_year.
  assert (y mod 100 = y) as -> by (apply Z.mod_small; lia).
  assert ((1900 + y) mod 100 = y) as -> by (Z.div_mod_to_equations; lia).
  assert ((1900 + y) mod 4 = y mod 4) as -> by (Z.div_mod_to_equations; lia).
  destruct (Z.eqb_spec y 0); [lia|]. simpl. by rewrite !andb_true_r.
Qed.

Lemma last_day_of_month yr m :
  1 <= m <= 12 →
  DateFromDay (MakeDay yr m 0) = days_in_month yr m.
Proof.
  intros Hm. unfold MakeDay.
  assert (m = 1 ∨ m = 2 ∨ m = 3 ∨ m = 4 ∨ m = 5 ∨ m = 6 ∨ m = 7 ∨ m = 8
          ∨ m = 9 ∨ m = 10 ∨ m = 11 ∨ m = 12) as Hcases by lia.
  assert (Hin : ∀ k d, 0 <= k < DaysInYear yr → d = DayFromYear yr + k →
    DateFromDay d =
      let l := if is_leap_year yr then 1 else 0 in
      if k <? 31 then k + 1
      else if k <? 59 + l then k - 30
      else if k <? 90 + l then k - 58 - l
      else if k <? 120 + l then k - 89 - l
      else if k <? 151 + l then k - 119 - l
      else if k <? 181 + l then k - 150 - l
      else if k <? 212 + l then k - 180 - l
      else if k <? 243 + l then k - 211 - l
      else if k <? 273 + l then k - 242 - l
      else if k <? 304 + l then k - 272 - l
      else if k <? 334 + l then k - 303 - l
      else k - 333 - l).
  { intros k d Hk ->. destruct (day_in_year yr k Hk) as (Hy & Hw & Hl).
    unfold DateFromDay, MonthFromDay. rewrite Hw, Hl. cbv zeta.
    repeat (destruct (_ <? _); [reflexivity|]). reflexivity. }
  pose proof (DaysInYear_leap yr) as Hlen.
  pose proof (DaysInYear_leap (yr + 1)) as Hlen'.
  pose proof (DayFromYear_succ yr) as Hsucc.
  destruct (is_leap_year yr) eqn:Hleap;
    destruct Hcases as [->|[->|[->|[->|[->|[->|[->|[->|[->|[->|[->| ->]]]]]]]]]]];
    match goal with
    | |- context [?a / 12] =>
        let q := eval vm_compute in (a / 12) in
        let r := eval vm_compute in (a mod 12) in
        change (a / 12) with q; change (a mod 12) with r
    end;
    rewrite ?Z.add_0_r, ?Hlen; cbn [month_start days_in_month];
    rewrite ?Hleap;
    try change (366 =? 366) with true; try change (365 =? 366) with false;
    cbv iota;
    match goal with
    | |- DateFromDay (DayFromYear (yr + 1) - 1) = _ =>
        rewrite (Hin (DaysInYear yr - 1) (DayFromYear (yr + 1) - 1));
          [rewrite Hlen; vm_compute; reflexivity | lia | lia]
    | |- DateFromDay (DayFromYear yr + ?k - 1) = _ =>
        rewrite (Hin (k - 1) (DayFromYear yr + k - 1));
          [vm_compute; reflexivity | rewrite Hlen; lia | lia]
    end.
Qed.

Lemma MakeFullYear_leap y :
  y ≠ 0 → is_leap_year (MakeFullYear y) = is_leap_year y.
Proof.
  intros Hy0. unfold MakeFullYear.
  destruct (Z.leb_spec 0 y), (Z.leb_spec y 99); simpl; try reflexivity.
  apply leap_two_digit_year; lia.
Qed.

Lemma last_day_number_range y m :
  -271820 <= y <= 275759 → 1 <= m <= 12 →
  -99999999 <= MakeDay (MakeFullYear y) m 0 <= 99999999.
Proof.
  intros Hy Hm.
  assert (Hyr : -271820 <= MakeFullYear y <= 275759).
  { unfold MakeFullYear.
    destruct (Z.leb_spec 0 y), (Z.leb_spec y 99); simpl; lia. }
  set (yr := MakeFullYear y) in *. clearbody yr.
  unfold MakeDay.
  assert (Hms : ∀ mn l, 0 <= l <= 1 → 0 <= month_start mn l <= 335).
  { intros mn l Hl. unfold month_start.
    repeat (match goal with |- context [match ?x with _ => _ end] => destruct x end;
            try lia). }
  assert (Hl : 0 <= (if DaysInYear (yr + m / 12) =? 366 then 1 else 0) <= 1)
    by (destruct (_ =? _); lia).
  specialize (Hms (m mod 12) _ Hl).
  destruct (Z.eq_dec m 12) as [->|Hne].
  - change (12 / 12) with 1. change (12 mod 12) with 0. cbn [month_start].
    unfold DayFromYear. Z.div_mod_to_equations. lia.
  - assert (m / 12 = 0) as Hq by (apply Z.div_small; lia).
    rewrite Hq, ?Z.add_0_r in Hms. rewrite Hq, ?Z.add_0_r.
    set (ms := month_start _ _) in *. clearbody ms.
    unfold DayFromYear. Z.div_mod_to_equations. lia.
Qed.

Lemma getDate_of_last_day (utc local : Z → Z) y m :
  y ≠ 0 → 1 <= m <= 12 →
  -8640000000000000 <= utc (MakeDay (MakeFullYear y) m 0 * msPerDay)
    <= 8640000000000000 →
  Day (local (utc (MakeDay (MakeFullYear y) m 0 * msPerDay)))
    = MakeDay (MakeFullYear y) m 0 →
  getDate_of utc local y m 0 = Some (days_in_month y m).
Proof.
  intros Hy0 Hm Hclip Hday. unfold getDate_of, TimeClip.
  destruct (Z.leb_spec (-8640000000000000)
              (utc (MakeDay (MakeFullYear y) m 0 * msPerDay))); [|lia].
  destruct (Z.leb_spec (utc (MakeDay (MakeFullYear y) m 0 * msPerDay))
              8640000000000000); [|lia].
  cbn [andb]. rewrite Hday, last_day_of_month by done.
  unfold days_in_month. by rewrite MakeFullYear_leap.
Qed.

Lemma fixed_offset_round_trip (utc local : Z → Z) o d :
  (∀ t, utc t = t - o ∧ local t = t + o) →
  -86400000 <= o <= 86400000 → -99999999 <= d <= 99999999 →
  -8640000000000000 <= utc (d * msPerDay) <= 8640000000000000
  ∧ Day (local (utc (d * msPerDay))) = d.
Proof.
  intros Hzone Ho Hd.
  destruct (Hzone (d * msPerDay)) as [-> _].
  destruct (Hzone (d * msPerDay - o)) as [_ ->].
  unfold Day, msPerDay. split; [lia|].
  replace (d * 86400000 - o + o) with (d * 86400000) by lia.
  by apply Z.div_mul.
Qed.
End DateFacts.

(** ** The integer platform is lawful *)

Module IntegerPlatformFacts.
Import IntegerPlatform.

(** *** Strings *)

Lemma append_cons c (s t : string) : String c s +:+ t = String c (s +:+ t).
Proof. reflexivity. Qed.

Lemma append_nil_l (t : string) : "" +:+ t = t.
Proof. reflexivity. Qed.

Lemma append_nil_r (s : string) : s +:+ "" = s.
Proof. induction s as [|c s IH]; [done|]. by rewrite append_cons, IH. Qed.

Lemma append_assoc (s t u : string) : (s +:+ t) +:+ u = s +:+ (t +:+ u).
Proof. induction s as [|c s IH]; [done|]. by rewrite !append_cons, IH. Qed.

Lemma snoc_append acc c (s : string) : snoc acc c +:+ s = acc +:+ String c s.
Proof. unfold snoc. by rewrite append_assoc. Qed.

Lemma text_app (a b : list token) : text (a ++ b) = text a +:+ text b.
Proof.
  induction a as [|t a IH]; simpl; [done|]. by rewrite IH, append_assoc.
Qed.

(** *** Lexing what was printed *)

Lemma lex_start c s :
  lex LStart (String c s) =
    match start_char c with
    | Some (t, st') => emit t (lex st' s)
    | None => None
    end.
Proof. reflexivity. Qed.

Lemma lex_escape_char c acc tail :
  lex (LStr acc) (escape_char c +:+ tail) = lex (LStr (snoc acc c)) tail.
Proof.
  destruct c as [[] [] [] [] [] [] [] []]; reflexivity.
Qed.

Lemma lex_string_body s acc rest :
  lex (LStr acc) (escape s +:+ String "034" rest)
  = cons (TString (acc +:+ s)) <$> lex LStart rest.
Proof.
  revert acc. induction s as [|c s IH]; intros acc.
  - simpl. by rewrite append_nil_r.
  - simpl escape. rewrite append_assoc, lex_escape_char, IH.
    by rewrite snoc_append.
Qed.

Lemma lex_digits ds acc rest :
  all_digits ds → lex (LNum acc) (ds +:+ rest) = lex (LNum (acc +:+ ds)) rest.
Proof.
  revert acc. induction ds as [|c ds IH]; intros acc Hds.
  - by rewrite append_nil_l, append_nil_r.
  - destruct Hds as [Hc Hds]. rewrite append_cons. simpl lex.
    rewrite Hc, IH by done. by rewrite snoc_append.
Qed.

Lemma lex_number_end acc n rest :
  number_token acc = Some n → delimited rest →
  lex (LNum acc) rest = cons n <$> lex LStart rest.
Proof.
  intros Hn Hrest. destruct rest as [|c rest]; simpl.
  - by rewrite Hn.
  - destruct Hrest as [-> _]. rewrite Hn. by destruct (start_char c) as [[]|].
Qed.

Lemma lex_word_end acc n rest :
  word_token acc = Some n → delimited rest →
  lex (LWord acc) rest = cons n <$> lex LStart rest.
Proof.
  intros Hn Hrest. destruct rest as [|c rest]; simpl.
  - by rewrite Hn.
  - destruct Hrest as [_ ->]. rewrite Hn. by destruct (start_char c) as [[]|].
Qed.

Lemma uint_digits d : all_digits (NilEmpty.string_of_uint d).
Proof. induction d; simpl; auto. Qed.

(** The decimal text of an integer: a minus sign or a digit, then digits. *)
Lemma Z_to_string_shape z :
  ∃ c s, Z_to_string z = String c s
    ∧ start_char c = Some (None, LNum (String c ""))
    ∧ all_digits s.
Proof.
  unfold Z_to_string.
  assert (Hu : ∀ d, ∃ c s, NilZero.string_of_uint d = String c s
                     ∧ is_digit c = true ∧ all_digits s).
  { intros d. pose proof (uint_digits d) as Hd.
    destruct d; simpl in *;
      (eexists _, _; split; [reflexivity|]; split; [reflexivity|]; tauto). }
  assert (Hstart : ∀ c, is_digit c = true →
            start_char c = Some (None, LNum (String c ""))).
  { intros c. destruct c as [[] [] [] [] [] [] [] []]; done. }
  destruct (Z.to_int z) as [d|d]; simpl.
  - destruct (Hu d) as (c & s & -> & Hc & Hs).
    exists c, s. auto.
  - destruct (Hu d) as (c & s & Heq & Hc & Hs).
    exists "-"%char, (NilZero.string_of_uint d). split; [done|]. split; [done|].
    rewrite Heq. done.
Qed.

Lemma literal_Z_to_string z : literal (Z_to_string z) = Some z.
Proof.
  unfold literal, Z_to_string. rewrite NilZero.isi.
  - simpl. by rewrite DecimalZ.of_to.
  - destruct z; simpl; [done| |done]. intros [= Hp].
    by apply Unsigned.to_uint_nonnil in Hp.
  - destruct z; simpl; [done|done|]. intros [= Hp].
    by apply Unsigned.to_uint_nonnil in Hp.
Qed.

Lemma lex_token t rest :
  (wordlike t = true → delimited rest) →
  lex LStart (token_text t +:+ rest) = cons t <$> lex LStart rest.
Proof.
  intros Hrest. destruct t; try reflexivity.
  - simpl token_text. rewrite append_cons, lex_start. simpl.
    rewrite append_assoc, append_cons, append_nil_l.
    by rewrite lex_string_body.
  - simpl token_text.
    destruct (Z_to_string_shape z) as (c & s & Heq & Hc & Hs).
    rewrite Heq, append_cons, lex_start, Hc. simpl emit.
    rewrite lex_digits by done.
    apply lex_number_end; [|by apply Hrest].
    unfold number_token. change (String c "" +:+ s) with (String c s).
    by rewrite <- Heq, literal_Z_to_string.
  - simpl. by rewrite (lex_word_end "true" TTrue) by auto.
  - simpl. by rewrite (lex_word_end "false" TFalse) by auto.
  - simpl. by rewrite (lex_word_end "null" TNull) by auto.
Qed.

Lemma delimited_punctuation t rest :
  punctuation t = true → delimited (token_text t +:+ rest).
Proof. by destruct t. Qed.

Lemma lex_text ts : separated ts → lex LStart (text ts) = Some ts.
Proof.
  induction ts as [|t ts IH]; [done|]. intros Hsep. simpl text.
  rewrite lex_token.
  - destruct ts as [|t' ts]; [done|]. destruct Hsep as [_ Hsep].
    by rewrite IH.
  - intros Hw. destruct ts as [|t' ts]; [done|]. destruct Hsep as [Hp _].
    simpl text. apply delimited_punctuation. auto.
Qed.

Lemma separated_cons t ts :
  (wordlike t = true → match ts with t' :: _ => punctuation t' = true | [] => True end) →
  separated ts → separated (t :: ts).
Proof. destruct ts; simpl; auto. Qed.

Lemma separated_app a p b :
  punctuation p = true → separated a → separated (p :: b) →
  separated (a ++ p :: b).
Proof.
  intros Hp. induction a as [|t a IH]; [done|]. intros Ha Hb.
  destruct a as [|t' a]; simpl in *.
  - auto.
  - destruct Ha as [Ht Ha]. split; [done|]. by apply IH.
Qed.

Lemma separated_members l ts :
  separated (TRBrace :: ts) → separated (member_tokens l ++ TRBrace :: ts).
Proof.
  intros Hts. induction l as [|[k v] l IH]; [done|].
  destruct l as [|kv l].
  - simpl. repeat split; try done.
  - change (member_tokens ((k, v) :: kv :: l))
      with (TString k :: TColon :: value_token v :: TComma
              :: member_tokens (kv :: l)).
    simpl app. split; [done|]. split; [done|]. split; [done|].
    apply separated_cons; [done|]. exact IH.
Qed.

Lemma separated_object o ts :
  separated ts → separated (object_tokens o ++ ts).
Proof.
  intros Hts. unfold object_tokens.
  rewrite <- app_comm_cons, <- app_assoc. cbn [app].
  apply separated_cons; [done|]. apply separated_members.
  by apply separated_cons.
Qed.

Lemma separated_elements l ts :
  separated ts → separated (element_tokens l ++ ts).
Proof.
  intros Hts. induction l as [|o l IH]; [done|].
  destruct l as [|o' l].
  - by apply separated_object.
  - change (element_tokens (o :: o' :: l))
      with (object_tokens o ++ TComma :: element_tokens (o' :: l)).
    rewrite <- app_assoc. apply separated_object. simpl app.
    apply separated_cons; [done|]. exact IH.
Qed.

Lemma separated_tokens_of d : separated (tokens_of d).
Proof.
  destruct d as [v|o|l]; cbn [tokens_of].
  - done.
  - rewrite <- (app_nil_r (object_tokens o)). by apply separated_object.
  - apply separated_cons; [done|]. by apply separated_elements.
Qed.

Lemma storable_printable v : storable_value exact v → printable v.
Proof. by destruct v as [| |[]|[]|]. Qed.

Lemma run_members p o l ts :
  l ≠ [] → Forall (λ kv, printable kv.2) l →
  run (PKey p o) (member_tokens l ++ TRBrace :: ts)
  = run (close p (foldl put o l)) ts.
Proof.
  revert o. induction l as [|[k v] l IH]; intros o Hne Hl; [done|].
  inversion Hl as [|?? Hv Hl']; subst. simpl in Hv.
  destruct l as [|kv l].
  - simpl. rewrite Hv. reflexivity.
  - change (member_tokens ((k, v) :: kv :: l))
      with (TString k :: TColon :: value_token v :: TComma
              :: member_tokens (kv :: l)).
    simpl app. simpl run at 1. rewrite Hv. simpl.
    by rewrite IH.
Qed.

Lemma run_object st p o ts :
  step st TLBrace = Some (PObjFirst p) → storable_record exact o →
  run st (object_tokens o ++ ts) = run (close p o) ts.
Proof.
  intros Hst Ho. unfold object_tokens. simpl. rewrite Hst.
  assert (Hdef : List.filter defined (map_to_list o) = map_to_list o).
  { apply filter_all. apply Forall_forall. intros [k v] Hkv%elem_of_map_to_list.
    apply Ho in Hkv. unfold defined. by destruct v. }
  rewrite Hdef, <- app_assoc. simpl.
  assert (Hprint : Forall (λ kv, printable kv.2) (map_to_list o)).
  { apply Forall_forall. intros [k v] Hkv%elem_of_map_to_list.
    apply storable_printable. by eapply Ho. }
  assert (Hfold : foldl put ∅ (map_to_list o) = o).
  { rewrite <- (list_to_map_to_list o) at 2.
    pose proof (NoDup_fst_map_to_list o) as Hnd.
    generalize dependent (map_to_list o). intros l _ _ Hnd.
    assert (Hgen : ∀ acc : gmap string (value number),
              (∀ k, k ∈ l.*1 → acc !! k = None) →
              foldl put acc l = list_to_map l ∪ acc).
    { induction l as [|[k v] l IH]; intros acc Hacc; simpl.
      - by rewrite (left_id_L ∅ (∪)).
      - inversion Hnd as [|?? Hk Hnd']; subst. rewrite IH.
        + unfold put. simpl.
          rewrite <- insert_union_r by by apply not_elem_of_list_to_map_1.
          by rewrite insert_union_l.
        + done.
        + intros k' Hk'. unfold put. simpl. rewrite lookup_insert_ne.
          * apply Hacc. simpl. by right.
          * intros <-. done. }
    rewrite Hgen by done. by rewrite (right_id_L ∅ (∪)). }
  destruct (map_to_list o) as [|kv l] eqn:Hlist.
  - simpl. simpl in Hfold. by rewrite <- Hfold.
  - destruct kv as [k v]. rewrite <- Hfold.
    rewrite <- (run_members p ∅ ((k, v) :: l) ts) by done.
    destruct l; simpl; reflexivity.
Qed.

Lemma run_elements read l ts :
  l ≠ [] → Forall (storable_record exact) l →
  run (PArrNext read) (element_tokens l ++ TRBracket :: ts)
  = run (PEnd (JArr (read ++ l))) ts.
Proof.
  revert read. induction l as [|o l IH]; intros read Hne Hl; [done|].
  inversion Hl as [|?? Ho Hl']; subst.
  destruct l as [|o' l].
  - simpl element_tokens.
    by rewrite (run_object _ (InArray read)).
  - change (element_tokens (o :: o' :: l))
      with (object_tokens o ++ TComma :: element_tokens (o' :: l)).
    rewrite <- app_assoc. rewrite (run_object _ (InArray read)) by done.
    simpl app. simpl. rewrite IH by done.
    by rewrite <- app_assoc.
Qed.

Lemma run_tokens_of d : storable exact d → run PStart (tokens_of d) = Some d.
Proof.
  destruct d as [v|o|l]; cbn [tokens_of storable]; intros Hd.
  - by destruct v as [| |[]|[]|].
  - rewrite <- (app_nil_r (object_tokens o)).
    by rewrite (run_object _ Top).
  - destruct l as [|o l]; [done|].
    inversion Hd as [|?? Ho Hl]; subst.
    change (run PStart (TLBracket :: ?ts)) with (run PArrFirst ts).
    destruct l as [|o' l].
    + simpl element_tokens. by rewrite (run_object _ (InArray [])).
    + change (element_tokens (o :: o' :: l))
        with (object_tokens o ++ TComma :: element_tokens (o' :: l)).
      rewrite <- app_assoc. rewrite (run_object _ (InArray [])) by done.
      rewrite <- app_comm_cons.
      change (run (close (InArray []) o) (TComma :: ?ts))
        with (run (PArrNext [o]) ts).
      by rewrite run_elements.
Qed.

Theorem parse_stringify d : storable exact d → parse (stringify d) = Some d.
Proof.
  intros Hd. unfold parse.
  assert (Htext : stringify d = text (tokens_of d)).
  { by destruct d as [[]| |]. }
  rewrite Htext, lex_text by apply separated_tokens_of.
  by apply run_tokens_of.
Qed.

End IntegerPlatformFacts.

(** The integer platform meets the laws. *)
#[export] Instance integer_platform_lawful : Lawful integer_platform.
Proof.
  split.
  - exact IntegerPlatformFacts.parse_stringify.
  - reflexivity.
  - reflexivity.
Qed.

#[export] Instance integer_platform_ordered : Ordered integer_platform.
Proof.
  split.
  - reflexivity.
  - intros [|a] [|b]; simpl; try done. intros H%Z.ltb_lt. apply Z.ltb_ge. lia.
  - intros [|a] [|b] [|c]; simpl; try done.
    intros _ _ _ H1%Z.ltb_ge H2%Z.ltb_ge. apply Z.ltb_ge. lia.
  - intros [|a] [|b] [|c]; simpl; try done. by intros ->%Z.eqb_eq.
Qed.

Section Properties.
Context {P : Platform} {L : Lawful P}.

(** ** Reading and writing one key *)

Lemma setItem_run key text w :
  setItem key text w =
    if next_fails w then (Throw QuotaExceededError, refused w)
    else (Return tt, written key text w).
Proof.
  unfold setItem, next_fails, refused, written.
  destruct (faults w) as [|[] fs]; reflexivity.
Qed.

Lemma stringify_nonempty d :
  storable num_exact d → JSON_stringify d ≠ "".
Proof.
  intros Hd Hempty. pose proof (JSON_parse_stringify d Hd) as Hp.
  rewrite Hempty, JSON_parse_empty in Hp. discriminate.
Qed.

Lemma decode_stringify d :
  storable num_exact d → decode (Some (JSON_stringify d)) = d.
Proof.
  intros Hd. unfold decode.
  destruct (String.eqb_spec (JSON_stringify d) "") as [E|_].
  - by apply stringify_nonempty in E.
  - by rewrite JSON_parse_stringify.
Qed.

Lemma loadExpenses_run w :
  loadExpenses w = (Return (decode (items w !! EXPENSES_STORAGE_KEY)), w).
Proof.
  unfold loadExpenses, try_catch, bind, getItem, decode, parse, ret, throw.
  destruct (items w !! EXPENSES_STORAGE_KEY) as [t|]; [|done].
  destruct (String.eqb t ""); [done|]. by destruct (JSON_parse t).
Qed.

Lemma loadTodos_run w :
  loadTodos w = (Return (decode (items w !! TODOS_STORAGE_KEY)), w).
Proof.
  unfold loadTodos, try_catch, bind, getItem, decode, parse, ret, throw.
  destruct (items w !! TODOS_STORAGE_KEY) as [t|]; [|done].
  destruct (String.eqb t ""); [done|]. by destruct (JSON_parse t).
Qed.

Lemma storage_get_run key w :
  storage_get key w = (Return (decode (items w !! key)), w).
Proof.
  unfold storage_get, try_catch, bind, getItem, decode, parse, ret, throw.
  destruct (items w !! key) as [t|].
  - destruct (String.eqb t ""); [by rewrite JSON_parse_brackets|].
    by destruct (JSON_parse t).
  - by rewrite JSON_parse_brackets.
Qed.

Lemma saveExpenses_run l w :
  saveExpenses l w =
    if next_fails w then (Return false, refused w)
    else (Return true, written EXPENSES_STORAGE_KEY (JSON_stringify (JArr l)) w).
Proof.
  unfold saveExpenses, try_catch, bind. rewrite setItem_run.
  by destruct (next_fails w).
Qed.

Lemma saveTodos_run l w :
  saveTodos l w =
    if next_fails w then (Return false, refused w)
    else (Return true, written TODOS_STORAGE_KEY (JSON_stringify (JArr l)) w).
Proof.
  unfold saveTodos, try_catch, bind. rewrite setItem_run.
  by destruct (next_fails w).
Qed.

Lemma storage_set_run key d w :
  storage_set key d w =
    if next_fails w then (Return false, refused w)
    else (Return true, written key (JSON_stringify d) w).
Proof.
  unfold storage_set, try_catch, bind. rewrite setItem_run.
  by destruct (next_fails w).
Qed.

Lemma items_written key text w : items (written key text w) = <[key := text]> (items w).
Proof. reflexivity. Qed.

(** ** Operations on an identifier that no record carries *)

Lemma absent_findIndex id l :
  absent id l → findIndex (λ r, strict_eq (get r "id") id) l = None.
Proof. intros Hab. by apply findIndex_None. Qed.

Lemma absent_filter id l :
  absent id l → List.filter (λ r, negb (strict_eq (get r "id") id)) l = l.
Proof.
  intros Hab. apply filter_all. eapply Forall_impl; [exact Hab|].
  simpl. by intros r ->.
Qed.

(** C6: for an identifier carried by no stored record, [update] returns
    null and [delete] returns false, and neither changes the store; this
    holds for the ledger and for the todos. *)
Theorem absent_id_is_no_op (w : world) (id : val) (patch : record) :
  (∀ l, getAllExpenses w = (Return (JArr l), w) → absent id l →
        updateExpense id patch w = (Return None, w)
        ∧ deleteExpense id w = (Return false, w))
  ∧ (∀ l, getAllTodos w = (Return (JArr l), w) → absent id l →
        updateTodo id patch w = (Return None, w)
        ∧ deleteTodo id w = (Return false, w)).
Proof.
  split; intros l Hall Hab.
  - unfold getAllExpenses in Hall. rewrite loadExpenses_run in Hall.
    injection Hall as Hdoc. split.
    + unfold updateExpense, bind. rewrite loadExpenses_run, Hdoc. simpl.
      by rewrite absent_findIndex.
    + unfold deleteExpense, bind. rewrite loadExpenses_run, Hdoc. simpl.
      rewrite absent_filter by done. by rewrite Nat.eqb_refl.
  - unfold getAllTodos in Hall. rewrite loadTodos_run in Hall.
    injection Hall as Hdoc. split.
    + unfold updateTodo, bind. rewrite loadTodos_run, Hdoc. simpl.
      by rewrite absent_findIndex.
    + unfold deleteTodo, bind. rewrite loadTodos_run, Hdoc. simpl.
      rewrite absent_filter by done. by rewrite Nat.eqb_refl.
Qed.

(** ** What [delete] returns *)

Lemma present_filter_shorter id l :
  present id l →
  (length (List.filter (λ r, negb (strict_eq (get r "id") id)) l) =? length l)%nat
  = false.
Proof.
  intros Hpr. apply Nat.eqb_neq. intros Hlen.
  apply filter_length_eq in Hlen. apply Exists_exists in Hpr as (r & Hr & Heq).
  rewrite Forall_forall in Hlen. specialize (Hlen r Hr). simpl in Hlen.
  rewrite Heq in Hlen. done.
Qed.

(** C2, as the code has it: [delete] returns false and changes nothing when
    no record carries the identifier; when one does, it returns what the
    persist write returns: true and the filtered sequence stored when
    [setItem] succeeds, false and the old content kept when it throws. *)
Theorem delete_returns_write_status (w : world) (id : val) :
  (∀ l, getAllExpenses w = (Return (JArr l), w) →
     let kept := List.filter (λ r, negb (strict_eq (get r "id") id)) l in
     (absent id l → deleteExpense id w = (Return false, w))
     ∧ (present id l → next_fails w = false →
        deleteExpense id w =
          (Return true, written EXPENSES_STORAGE_KEY (JSON_stringify (JArr kept)) w))
     ∧ (present id l → next_fails w = true →
        deleteExpense id w = (Return false, refused w)))
  ∧ (∀ l, getAllTodos w = (Return (JArr l), w) →
     let kept := List.filter (λ r, negb (strict_eq (get r "id") id)) l in
     (absent id l → deleteTodo id w = (Return false, w))
     ∧ (present id l → next_fails w = false →
        deleteTodo id w =
          (Return true, written TODOS_STORAGE_KEY (JSON_stringify (JArr kept)) w))
     ∧ (present id l → next_fails w = true →
        deleteTodo id w = (Return false, refused w))).
Proof.
  split; intros l Hall kept.
  - unfold getAllExpenses in Hall. rewrite loadExpenses_run in Hall.
    injection Hall as Hdoc.
    assert (Hdel : ∀ b, (length kept =? length l)%nat = b →
      deleteExpense id w = if b then (Return false, w) else saveExpenses kept w).
    { intros b Hb. unfold deleteExpense, bind. rewrite loadExpenses_run, Hdoc.
      simpl. fold kept. rewrite Hb. by destruct b. }
    repeat split.
    + intros Hab. rewrite (Hdel true); [done|].
      unfold kept. rewrite absent_filter by done. apply Nat.eqb_refl.
    + intros Hpr Hok. rewrite (Hdel false) by by apply present_filter_shorter.
      by rewrite saveExpenses_run, Hok.
    + intros Hpr Hko. rewrite (Hdel false) by by apply present_filter_shorter.
      by rewrite saveExpenses_run, Hko.
  - unfold getAllTodos in Hall. rewrite loadTodos_run in Hall.
    injection Hall as Hdoc.
    assert (Hdel : ∀ b, (length kept =? length l)%nat = b →
      deleteTodo id w = if b then (Return false, w) else saveTodos kept w).
    { intros b Hb. unfold deleteTodo, bind. rewrite loadTodos_run, Hdoc.
      simpl. fold kept. rewrite Hb. by destruct b. }
    repeat split.
    + intros Hab. rewrite (Hdel true); [done|].
      unfold kept. rewrite absent_filter by done. apply Nat.eqb_refl.
    + intros Hpr Hok. rewrite (Hdel false) by by apply present_filter_shorter.
      by rewrite saveTodos_run, Hok.
    + intros Hpr Hko. rewrite (Hdel false) by by apply present_filter_shorter.
      by rewrite saveTodos_run, Hko.
Qed.

(** ** Todo statistics *)

(** C10: over the stored todos, with or without a date filter, the
    statistics are returned and satisfy total = completed + pending, where
    completed counts the counted records whose completion flag holds and
    pending those whose flag does not. *)
Theorem todo_stats_total (w : world) (date : date_arg) (l : list record) :
  getAllTodos w = (Return (JArr l), w) →
  ∃ s, getTodoStats date w = (Return s, w)
    ∧ TodoStats.total s = (TodoStats.completed s + TodoStats.pending s)%nat
    ∧ TodoStats.total s = length (todos_counted date l)
    ∧ TodoStats.completed s =
        length (List.filter (λ t, truthy (get t "completed")) (todos_counted date l))
    ∧ TodoStats.pending s =
        length (List.filter (λ t, negb (truthy (get t "completed")))
                  (todos_counted date l)).
Proof.
  intros Hall. unfold getAllTodos in Hall. rewrite loadTodos_run in Hall.
  injection Hall as Hdoc.
  assert (Hrun : ∀ c, c = todos_counted date l →
    getTodoStats date w =
      (Return {| TodoStats.total := length c;
         TodoStats.completed := length (List.filter (λ t, truthy (get t "completed")) c);
         TodoStats.pending :=
           length (List.filter (λ t, negb (truthy (get t "completed"))) c);
         TodoStats.high :=
           length (List.filter (λ t, strict_eq (get t "priority") (VStr "high")) c);
         TodoStats.medium :=
           length (List.filter (λ t, strict_eq (get t "priority") (VStr "medium")) c);
         TodoStats.low :=
           length (List.filter (λ t, strict_eq (get t "priority") (VStr "low")) c) |},
       w)).
  { intros c ->. unfold getTodoStats, bind. rewrite loadTodos_run, Hdoc.
    destruct date as [|s|s]; simpl; [done| |done].
    by destruct (String.eqb s ""). }
  eexists. split; [by apply Hrun|]. simpl. repeat split.
  symmetry. apply filter_split_length.
Qed.

(** ** Round trip through the store *)

(** C8: once [write(key, S)] has succeeded, [read(key)] returns [S] itself,
    for every key and every sequence [S] of records that JSON keeps
    exactly; a write succeeds whenever [setItem] does not throw.  The same
    holds for the load/save pair of either service: a save succeeds
    whenever [setItem] does not throw, and the load that follows returns
    [S]. *)
Theorem write_then_read (key : string) (S : list record) (w : world) :
  Forall (storable_record num_exact) S →
  (∀ w', storage_set key (JArr S) w = (Return true, w') →
         storage_get key w' = (Return (JArr S), w'))
  ∧ (∀ w', saveExpenses S w = (Return true, w') →
           loadExpenses w' = (Return (JArr S), w'))
  ∧ (∀ w', saveTodos S w = (Return true, w') →
           loadTodos w' = (Return (JArr S), w'))
  ∧ (next_fails w = false → ∃ w', storage_set key (JArr S) w = (Return true, w'))
  ∧ (next_fails w = false →
     ∃ w', saveExpenses S w = (Return true, w')
       ∧ loadExpenses w' = (Return (JArr S), w'))
  ∧ (next_fails w = false →
     ∃ w', saveTodos S w = (Return true, w')
       ∧ loadTodos w' = (Return (JArr S), w')).
Proof.
  intros HS. split; [|split; [|split; [|split; [|split]]]].
  - intros w'. rewrite storage_set_run. destruct (next_fails w); [done|].
    intros [= <-]. rewrite storage_get_run, items_written, lookup_insert_eq.
    by rewrite decode_stringify.
  - intros w'. rewrite saveExpenses_run. destruct (next_fails w); [done|].
    intros [= <-]. rewrite loadExpenses_run, items_written, lookup_insert_eq.
    by rewrite decode_stringify.
  - intros w'. rewrite saveTodos_run. destruct (next_fails w); [done|].
    intros [= <-]. rewrite loadTodos_run, items_written, lookup_insert_eq.
    by rewrite decode_stringify.
  - intros Hok. rewrite storage_set_run, Hok. by eexists.
  - intros Hok. rewrite saveExpenses_run, Hok. eexists. split; [reflexivity|].
    rewrite loadExpenses_run, items_written, lookup_insert_eq.
    by rewrite decode_stringify.
  - intros Hok. rewrite saveTodos_run, Hok. eexists. split; [reflexivity|].
    rewrite loadTodos_run, items_written, lookup_insert_eq.
    by rewrite decode_stringify.
Qed.

(** ** Toggling a todo twice *)

Lemma findIndex_ext {A} (p : A → bool) (l : list A) i x y :
  l !! i = Some x → p y = p x → findIndex p (<[i := y]> l) = findIndex p l.
Proof.
  revert i. induction l as [|z l IH]; intros [|i]; simpl; try done.
  - intros [= ->] ->. done.
  - intros Hi Hp. by rewrite (IH i Hi Hp).
Qed.

Lemma storable_insert (l : list record) i r :
  Forall (storable_record num_exact) l → storable_record num_exact r →
  Forall (storable_record num_exact) (<[i := r]> l).
Proof. intros Hl Hr. by apply Forall_insert. Qed.

Lemma storable_record_insert (r : record) k v :
  storable_record num_exact r → storable_value num_exact v →
  storable_record num_exact (<[k := v]> r).
Proof.
  intros Hr Hv k' v'. rewrite lookup_insert. case_decide.
  - by intros [= <-].
  - apply Hr.
Qed.

Lemma get_insert_ne (r : record) k k' v :
  k ≠ k' → get (<[k := v]> r) k' = get r k'.
Proof. intros Hne. unfold get. by rewrite lookup_insert_ne. Qed.

Lemma get_insert_eq (r : record) k v : get (<[k := v]> r) k = v.
Proof. unfold get. by rewrite lookup_insert_eq. Qed.

(** One call of [toggleTodo] on a record that is found. *)
Lemma toggleTodo_run (w : world) (id : val) (l : list record) i t :
  decode (items w !! TODOS_STORAGE_KEY) = JArr l →
  findIndex (λ todo, strict_eq (get todo "id") id) l = Some i →
  l !! i = Some t →
  let t' := <["completed" := js_not (get t "completed")]> t in
  let l' := <[i := t']> l in
  toggleTodo id w =
    if next_fails w then (Return None, refused w)
    else (Return (Some t'), written TODOS_STORAGE_KEY (JSON_stringify (JArr l')) w).
Proof.
  intros Hdoc Hfind Hi t' l'. unfold toggleTodo, bind.
  rewrite loadTodos_run, Hdoc. simpl. rewrite Hfind.
  rewrite (list_lookup_total_correct _ _ _ Hi). fold t' l'.
  rewrite saveTodos_run. destruct (next_fails w); [done|]. unfold ret.
  do 2 f_equal. f_equal. apply list_lookup_total_correct.
  apply list_lookup_insert_eq. by eapply lookup_lt_Some.
Qed.

(** C7: for an identifier that some todo carries, the toggled record being
    the first such one and its completion flag a boolean, two calls of
    [toggleCompletion] that both return the record bring the flag back: the
    first returns the record with the flag flipped, the second returns the
    original record, and the stored sequence is again the one before the
    pair of calls. *)
Theorem toggle_twice (w w1 w2 : world) (id : val) (l : list record)
    (r1 r2 : record) :
  getAllTodos w = (Return (JArr l), w) →
  Forall (storable_record num_exact) l →
  present id l →
  (∀ x, x ∈ l → strict_eq (get x "id") id = true →
        ∃ c, x !! "completed" = Some (VBool c)) →
  toggleTodo id w = (Return (Some r1), w1) →
  toggleTodo id w1 = (Return (Some r2), w2) →
  getAllTodos w2 = (Return (JArr l), w2)
  ∧ ∃ i c, findIndex (λ todo, strict_eq (get todo "id") id) l = Some i
         ∧ l !! i = Some r2
         ∧ get r2 "completed" = VBool c
         ∧ r1 = <["completed" := VBool (negb c)]> r2.
Proof.
  intros Hall Hst Hpr Hflag Hfirst Hsecond.
  unfold getAllTodos in Hall. rewrite loadTodos_run in Hall.
  injection Hall as Hdoc.
  destruct (findIndex (λ todo, strict_eq (get todo "id") id) l) as [i|] eqn:Hfind.
  2:{ apply findIndex_None in Hfind. apply Exists_exists in Hpr as (t & Ht & Hid).
      rewrite Forall_forall in Hfind. specialize (Hfind t Ht). simpl in Hfind.
      congruence. }
  destruct (findIndex_Some _ _ _ Hfind) as (x & Hi & Hx & _).
  destruct (Hflag x) as [c Hc]; [by eapply list_elem_of_lookup_2|done|].
  assert (Hgetc : get x "completed" = VBool c) by (unfold get; by rewrite Hc).
  rewrite (toggleTodo_run w id l i x Hdoc Hfind Hi) in Hfirst.
  destruct (next_fails w); [done|]. injection Hfirst as <- <-.
  rewrite Hgetc in *. unfold js_not in *. simpl in *.
  set (x' := <["completed" := VBool (negb c)]> x) in *.
  set (l' := <[i := x']> l) in *.
  assert (Hl' : Forall (storable_record num_exact) l').
  { apply storable_insert; [done|]. apply storable_record_insert; [|done].
    rewrite Forall_forall in Hst. apply Hst. by eapply list_elem_of_lookup_2. }
  assert (Hdoc' : decode (items (written TODOS_STORAGE_KEY (JSON_stringify (JArr l')) w)
                            !! TODOS_STORAGE_KEY) = JArr l').
  { rewrite items_written, lookup_insert_eq. by apply decode_stringify. }
  assert (Hfind' : findIndex (λ todo, strict_eq (get todo "id") id) l' = Some i).
  { unfold l'. rewrite (findIndex_ext _ l i x x' Hi); [done|].
    unfold x'. by rewrite get_insert_ne. }
  assert (Hi' : l' !! i = Some x').
  { apply list_lookup_insert_eq. by eapply lookup_lt_Some. }
  rewrite (toggleTodo_run _ id l' i x' Hdoc' Hfind' Hi') in Hsecond.
  destruct (next_fails _); [done|]. injection Hsecond as <- <-.
  assert (Hback : <["completed" := js_not (get x' "completed")]> x' = x).
  { unfold x', js_not. rewrite get_insert_eq, insert_insert_eq. simpl.
    rewrite negb_involutive. by apply insert_id. }
  rewrite Hback.
  assert (Hl : <[i := x]> l' = l).
  { unfold l'. rewrite list_insert_insert_eq. by apply list_insert_id. }
  rewrite Hl. split.
  - unfold getAllTodos. rewrite loadTodos_run, items_written, lookup_insert_eq.
    by rewrite decode_stringify.
  - by exists i, c.
Qed.

(** ** Initialization *)

Lemma writes_succeed_S n w :
  writes_succeed (S n) w →
  next_fails w = false ∧ ∀ key text, writes_succeed n (written key text w).
Proof.
  unfold writes_succeed, next_fails, written. simpl.
  destruct (faults w) as [|b fs]; simpl.
  - intros _. split; [done|]. intros _ _. rewrite take_nil. constructor.
  - intros Hall. inversion Hall as [|?? -> Hfs]; subst. done.
Qed.

Lemma initializeData_present e w :
  initialized w → initializeData e w = (Return tt, w).
Proof.
  intros (text & Htext & Hne). unfold initializeData, bind, getItem.
  rewrite Htext. by destruct (String.eqb_spec text "").
Qed.

Lemma initializeData_absent e w :
  ¬ initialized w → writes_succeed 5 w →
  initializeData e w =
    (Return tt,
     written STORAGE_KEYS.TEMPLATES (JSON_stringify (JArr []))
       (written STORAGE_KEYS.BUDGETS (JSON_stringify (JArr []))
          (written STORAGE_KEYS.EXPENSES (JSON_stringify (JArr []))
             (written STORAGE_KEYS.TODOS (JSON_stringify (JArr []))
                (written STORAGE_KEYS.SETTINGS
                   (JSON_stringify (JObj (default_settings e))) w))))).
Proof.
  intros Hno Hw. unfold initializeData, bind, getItem.
  assert (Habs : match items w !! STORAGE_KEYS.SETTINGS with
                 | Some text => negb (String.eqb text "")
                 | None => false
                 end = false).
  { destruct (items w !! STORAGE_KEYS.SETTINGS) as [text|] eqn:Htext; [|done].
    destruct (String.eqb_spec text "") as [->|Hne]; [done|].
    exfalso. apply Hno. by exists text. }
  rewrite Habs.
  apply writes_succeed_S in Hw as [Hok Hw]. rewrite setItem_run, Hok.
  destruct (writes_succeed_S _ _ (Hw STORAGE_KEYS.SETTINGS
    (JSON_stringify (JObj (default_settings e))))) as [Hok1 Hw1].
  rewrite storage_set_run, Hok1.
  destruct (writes_succeed_S _ _ (Hw1 STORAGE_KEYS.TODOS
    (JSON_stringify (JArr [])))) as [Hok2 Hw2].
  rewrite storage_set_run, Hok2.
  destruct (writes_succeed_S _ _ (Hw2 STORAGE_KEYS.EXPENSES
    (JSON_stringify (JArr [])))) as [Hok3 Hw3].
  rewrite storage_set_run, Hok3.
  destruct (writes_succeed_S _ _ (Hw3 STORAGE_KEYS.BUDGETS
    (JSON_stringify (JArr [])))) as [Hok4 _].
  rewrite storage_set_run, Hok4.
  reflexivity.
Qed.

Lemma default_settings_storable e :
  storable num_exact (JObj (default_settings e)).
Proof.
  intros k v Hkv. unfold default_settings in Hkv.
  repeat (apply lookup_insert_Some in Hkv as [[_ <-]|[_ Hkv]]; [done|]).
  by apply lookup_singleton_Some in Hkv as [_ <-].
Qed.

(** C9: the initialization module goes from uninitialized to initialized
    once.  When the settings record is absent and the writes succeed,
    [initializeData] stores an empty sequence under the key of every record
    kind and a settings record marked initialized, with version 2.0 and
    currency TWD, touching no other key, and leaves the store initialized;
    when the settings record is present it changes nothing, so that a
    second call changes nothing either. *)
Theorem initialize_once (e : env) (w : world) :
  (¬ initialized w → writes_succeed 5 w →
     ∃ w', initializeData e w = (Return tt, w')
       ∧ initialized w'
       ∧ (∀ key, key ∈ sequence_keys → storage_get key w' = (Return (JArr []), w'))
       ∧ decode (items w' !! STORAGE_KEYS.SETTINGS) = JObj (default_settings e)
       ∧ get (default_settings e) "initialized" = VBool true
       ∧ get (default_settings e) "version" = VStr "2.0"
       ∧ get (default_settings e) "currency" = VStr "TWD"
       ∧ (∀ key, key ∉ STORAGE_KEYS.SETTINGS :: sequence_keys →
                 items w' !! key = items w !! key)
       ∧ ∀ e', initializeData e' w' = (Return tt, w'))
  ∧ (initialized w → initializeData e w = (Return tt, w)).
Proof.
  split; [|apply initializeData_present].
  intros Hno Hw. eexists. split; [by apply initializeData_absent|].
  assert (Hinit : initialized
    (written STORAGE_KEYS.TEMPLATES (JSON_stringify (JArr []))
       (written STORAGE_KEYS.BUDGETS (JSON_stringify (JArr []))
          (written STORAGE_KEYS.EXPENSES (JSON_stringify (JArr []))
             (written STORAGE_KEYS.TODOS (JSON_stringify (JArr []))
                (written STORAGE_KEYS.SETTINGS
                   (JSON_stringify (JObj (default_settings e))) w)))))).
  { eexists. split.
    - rewrite !items_written. rewrite !lookup_insert_ne by done.
      apply lookup_insert_eq.
    - apply stringify_nonempty, default_settings_storable. }
  split; [exact Hinit|]. repeat split.
  - intros key Hkey. rewrite storage_get_run, !items_written.
    unfold sequence_keys in Hkey.
    assert (Hempty : decode (Some (JSON_stringify (JArr []))) = JArr [])
      by (apply decode_stringify; constructor).
    repeat (apply elem_of_cons in Hkey as [->|Hkey]);
      [..|by apply elem_of_nil in Hkey];
      rewrite ?lookup_insert_eq, ?(lookup_insert_ne _ _ _ _) by done;
      rewrite ?lookup_insert_eq; by rewrite Hempty.
  - rewrite !items_written, !lookup_insert_ne by done.
    rewrite lookup_insert_eq. apply decode_stringify, default_settings_storable.
  - intros key Hkey. rewrite !items_written.
    unfold sequence_keys in Hkey. rewrite !not_elem_of_cons in Hkey.
    destruct Hkey as (? & ? & ? & ? & ? & _).
    by rewrite !lookup_insert_ne.
  - intros e'. by apply initializeData_present.
Qed.

(** ** Ledger statistics *)

Lemma filter_ext_Forall {A} (p q : A → bool) (l : list A) :
  Forall (λ x, p x = q x) l → List.filter p l = List.filter q l.
Proof.
  induction 1 as [|x l Hx _ IH]; simpl; [done|]. by rewrite Hx, IH.
Qed.

Lemma ltb_negb_leb (a b : string) : negb (String.ltb a b) = String.leb b a.
Proof.
  unfold String.ltb, String.leb. rewrite (String.compare_antisym b a).
  by destruct (String.compare a b).
Qed.

Lemma truthy_bound (b : option string) :
  b ≠ Some "" → truthy (bound b) = match b with Some _ => true | None => false end.
Proof.
  destruct b as [s|]; simpl; [|done].
  intros Hne. destruct (String.eqb_spec s ""); [congruence|done].
Qed.

(** The filter of [getExpenseStats] is the inclusive range check. *)
Lemma range_filter (startDate endDate : option string) (r : record) :
  startDate ≠ Some "" → endDate ≠ Some "" →
  (∃ d, get r "date" = VStr d) →
  (if truthy (bound startDate) && js_lt (get r "date") (bound startDate) then false
   else if truthy (bound endDate) && js_gt (get r "date") (bound endDate) then false
   else true)
  = within startDate endDate r.
Proof.
  intros Hs He [d Hd]. unfold within, date_of, js_gt. rewrite Hd.
  rewrite !truthy_bound by done.
  destruct startDate as [s|], endDate as [e|]; simpl;
    rewrite <- ?ltb_negb_leb;
    repeat (match goal with |- context [String.ltb ?a ?b] =>
              destruct (String.ltb a b) end; simpl); reflexivity.
Qed.

Lemma within_spec (startDate endDate : option string) (r : record) :
  within startDate endDate r = true ↔
    (∀ s, startDate = Some s → (s ≤ date_of r)%string)
    ∧ (∀ e, endDate = Some e → (date_of r ≤ e)%string).
Proof.
  unfold within, String.le. rewrite andb_true_iff. split.
  - intros [Hs He]. split.
    + intros s ->. by apply Is_true_true.
    + intros e ->. by apply Is_true_true.
  - intros [Hs He]. split.
    + destruct startDate as [s|]; [|done]. by apply Is_true_true, Hs.
    + destruct endDate as [e|]; [|done]. by apply Is_true_true, He.
Qed.



(** ** Category statistics *)

Lemma filed_step_other (acc : gmap string category_entry) (r : record) c :
  in_category c r = false → filed_step acc r !! c = acc !! c.
Proof.
  unfold in_category, filed_step, category_key. intros Hc%String.eqb_neq.
  destruct (acc !! to_string (get r "category")); [by rewrite lookup_insert_ne|].
  destruct (is_method _); [done|]. by rewrite lookup_insert_ne.
Qed.

Lemma filed_step_same (acc : gmap string category_entry) (r : record) c :
  in_category c r = true →
  filed_step acc r !! c =
    match acc !! c with
    | Some entry =>
        Some {| count := count entry + 1;
                total := js_add (total entry) (get r "amount");
                type := type entry |}
    | None =>
        if is_method c then None
        else Some {| count := 0 + 1;
                     total := js_add (VNum num_zero) (get r "amount");
                     type := get r "type" |}
    end.
Proof.
  unfold in_category, filed_step, category_key. intros <-%String.eqb_eq.
  destruct (acc !! to_string (get r "category")) as [entry|] eqn:Hacc.
  - by rewrite lookup_insert_eq.
  - destruct (is_method _); [done|]. by rewrite lookup_insert_eq.
Qed.

Lemma entry_after_skip (start : option category_entry) c r (l : list record) :
  in_category c r = false → entry_after start c (r :: l) = entry_after start c l.
Proof. intros Hc. unfold entry_after. cbn [List.filter]. by rewrite Hc. Qed.

Lemma fold_filed_step (l : list record) (acc : gmap string category_entry) c :
  fold_left filed_step l acc !! c =
    match acc !! c with
    | Some entry => entry_after (Some entry) c l
    | None => if is_method c then None else entry_after None c l
    end.
Proof.
  revert acc. induction l as [|r l IH]; intros acc; cbn [fold_left].
  - unfold entry_after. simpl. destruct (acc !! c) as [[n t ty]|].
    + simpl. by rewrite Nat.add_0_r.
    + by destruct (is_method c).
  - rewrite IH. destruct (in_category c r) eqn:Hc.
    + rewrite (filed_step_same _ _ _ Hc).
      destruct (acc !! c) as [[n t ty]|].
      * unfold entry_after. cbn [List.filter]. rewrite Hc. simpl.
        do 2 f_equal. lia.
      * destruct (is_method c); [done|].
        unfold entry_after. cbn [List.filter]. by rewrite Hc.
    + rewrite (filed_step_other _ _ _ Hc).
      destruct (acc !! c); by rewrite (entry_after_skip _ _ _ _ Hc).
Qed.

Lemma category_step_filed (acc : gmap string category_entry) (proto : prototype)
    (r : record) :
  harmless proto → category_key r ≠ "__proto__" →
  category_step acc proto r = (Return (filed_step acc r), proto).
Proof.
  intros [Hcount Htotal] Hkey%String.eqb_neq.
  unfold category_step, filed_step, lookup_property. fold (category_key r).
  destruct (acc !! category_key r) as [entry|] eqn:Hacc.
  - by rewrite Hacc.
  - destruct (is_method (category_key r)); [by rewrite Hacc|].
    rewrite Hkey.
    destruct (String.eqb (category_key r) "count");
      [|destruct (String.eqb (category_key r) "total")];
      cbv zeta; rewrite ?Hcount, ?Htotal; cbn [truthy];
      rewrite lookup_insert_eq; by rewrite insert_insert_eq.
Qed.

Lemma forEach_category_filed (l : list record) (acc : gmap string category_entry)
    (proto : prototype) :
  harmless proto → Forall (λ r, category_key r ≠ "__proto__") l →
  forEach_category l acc proto = (Return (fold_left filed_step l acc), proto).
Proof.
  intros Hproto Hl. revert acc.
  induction Hl as [|r l Hr _ IH]; intros acc; simpl; [done|].
  by rewrite (category_step_filed acc proto r Hproto Hr), IH.
Qed.

Lemma getCategoryStats_run (w : world) (ty : val) (proto : prototype)
    (l : list record) :
  decode (items w !! EXPENSES_STORAGE_KEY) = JArr l →
  harmless proto →
  Forall (λ r, category_key r ≠ "__proto__") (records_grouped ty l) →
  getCategoryStats ty proto w
  = (Return (fold_left filed_step (records_grouped ty l) ∅), proto, w).
Proof.
  intros Hdoc Hproto Hl. unfold getCategoryStats, bind, records_grouped in *.
  rewrite loadExpenses_run, Hdoc.
  destruct (truthy ty); simpl; by rewrite forEach_category_filed.
Qed.


(** ** Adding a record *)

Lemma storable_app (l : list record) (r : record) :
  Forall (storable_record num_exact) l → storable_record num_exact r →
  storable num_exact (JArr (l ++ [r])).
Proof. intros Hl Hr. apply Forall_app. split; [done|]. by constructor. Qed.

Lemma newExpense_id e (data : record) :
  data !! "id" = None → get (newExpense e data) "id" = generateId e.
Proof.
  intros Hno. unfold get, newExpense, spread.
  rewrite lookup_union_r by done. by rewrite lookup_insert_eq.
Qed.

Lemma newTodo_id e (data : record) :
  data !! "id" = None → get (newTodo e data) "id" = generateId e.
Proof.
  intros Hno. unfold get, newTodo, spread.
  rewrite lookup_union_r by done. by rewrite lookup_insert_eq.
Qed.

(** C1, as the code has it: for record data without an [id] field, when
    the persist write succeeds, [add] returns the new record, whose id is
    the generated [Date.now() + Math.random()], and [getAll] afterwards is
    the previous sequence followed by that record, one record more.  The id
    differs from the ids already stored exactly when the generated number
    does; the code does not compare it with them. *)
Theorem add_appends_generated (e : env) (data : record) (w : world)
    (l : list record) :
  data !! "id" = None →
  Forall (storable_record num_exact) l →
  next_fails w = false →
  (getAllExpenses w = (Return (JArr l), w) →
   storable_record num_exact (newExpense e data) →
   ∃ r w', addExpense e data w = (Return (Some r), w')
     ∧ r = newExpense e data
     ∧ get r "id" = generateId e
     ∧ getAllExpenses w' = (Return (JArr (l ++ [r])), w')
     ∧ length (l ++ [r]) = S (length l)
     ∧ (absent (get r "id") l ↔ absent (generateId e) l))
  ∧ (getAllTodos w = (Return (JArr l), w) →
     storable_record num_exact (newTodo e data) →
     ∃ r w', addTodo e data w = (Return (Some r), w')
       ∧ r = newTodo e data
       ∧ get r "id" = generateId e
       ∧ getAllTodos w' = (Return (JArr (l ++ [r])), w')
       ∧ length (l ++ [r]) = S (length l)
       ∧ (absent (get r "id") l ↔ absent (generateId e) l)).
Proof.
  intros Hno Hl Hok. split; intros Hall Hnew.
  - unfold getAllExpenses in Hall. rewrite loadExpenses_run in Hall.
    injection Hall as Hdoc.
    exists (newExpense e data). eexists. split; [|split; [done|]].
    + unfold addExpense, bind. rewrite loadExpenses_run, Hdoc. simpl.
      rewrite saveExpenses_run, Hok. reflexivity.
    + rewrite newExpense_id by done. repeat split; try done.
      * unfold getAllExpenses.
        rewrite loadExpenses_run, items_written, lookup_insert_eq.
        by rewrite decode_stringify by by apply storable_app.
      * rewrite length_app. simpl. lia.
  - unfold getAllTodos in Hall. rewrite loadTodos_run in Hall.
    injection Hall as Hdoc.
    exists (newTodo e data). eexists. split; [|split; [done|]].
    + unfold addTodo, bind. rewrite loadTodos_run, Hdoc. simpl.
      rewrite saveTodos_run, Hok. reflexivity.
    + rewrite newTodo_id by done. repeat split; try done.
      * unfold getAllTodos.
        rewrite loadTodos_run, items_written, lookup_insert_eq.
        by rewrite decode_stringify by by apply storable_app.
      * rewrite length_app. simpl. lia.
Qed.

(** ** Updates, deletions and refused writes *)

Lemma getAllExpenses_doc w d :
  getAllExpenses w = (Return d, w) → decode (items w !! EXPENSES_STORAGE_KEY) = d.
Proof.
  unfold getAllExpenses. rewrite loadExpenses_run. by intros [= ->].
Qed.

Lemma getAllTodos_doc w d :
  getAllTodos w = (Return d, w) → decode (items w !! TODOS_STORAGE_KEY) = d.
Proof.
  unfold getAllTodos. rewrite loadTodos_run. by intros [= ->].
Qed.

Lemma getAllExpenses_written l w :
  Forall (storable_record num_exact) l →
  let w' := written EXPENSES_STORAGE_KEY (JSON_stringify (JArr l)) w in
  getAllExpenses w' = (Return (JArr l), w').
Proof.
  intros Hl w'. unfold getAllExpenses, w'.
  rewrite loadExpenses_run, items_written, lookup_insert_eq.
  by rewrite decode_stringify.
Qed.

Lemma getAllTodos_written l w :
  Forall (storable_record num_exact) l →
  let w' := written TODOS_STORAGE_KEY (JSON_stringify (JArr l)) w in
  getAllTodos w' = (Return (JArr l), w').
Proof.
  intros Hl w'. unfold getAllTodos, w'.
  rewrite loadTodos_run, items_written, lookup_insert_eq.
  by rewrite decode_stringify.
Qed.

Lemma present_first id l :
  present id l →
  ∃ i x, findIndex (λ r, strict_eq (get r "id") id) l = Some i
    ∧ l !! i = Some x
    ∧ strict_eq (get x "id") id = true
    ∧ Forall (λ y, strict_eq (get y "id") id = false) (take i l).
Proof.
  intros Hpr.
  destruct (findIndex (λ r, strict_eq (get r "id") id) l) as [i|] eqn:Hfind.
  - destruct (findIndex_Some _ _ _ Hfind) as (x & Hi & Hx & Hpre).
    by exists i, x.
  - apply findIndex_None in Hfind. apply Exists_exists in Hpr as (t & Ht & Hid).
    rewrite Forall_forall in Hfind. specialize (Hfind t Ht). simpl in Hfind.
    congruence.
Qed.

Lemma updateExpense_run (w : world) (id : val) (patch : record) (l : list record) i x :
  decode (items w !! EXPENSES_STORAGE_KEY) = JArr l →
  findIndex (λ r, strict_eq (get r "id") id) l = Some i →
  l !! i = Some x →
  updateExpense id patch w =
    if next_fails w then (Return None, refused w)
    else (Return (Some (spread x patch)),
          written EXPENSES_STORAGE_KEY
            (JSON_stringify (JArr (<[i := spread x patch]> l))) w).
Proof.
  intros Hdoc Hfind Hi. unfold updateExpense, bind.
  rewrite loadExpenses_run, Hdoc. simpl. rewrite Hfind.
  rewrite (list_lookup_total_correct _ _ _ Hi).
  rewrite saveExpenses_run. destruct (next_fails w); [done|]. unfold ret.
  do 2 f_equal. f_equal. apply list_lookup_total_correct.
  apply list_lookup_insert_eq. by eapply lookup_lt_Some.
Qed.

Lemma updateTodo_run (w : world) (id : val) (patch : record) (l : list record) i x :
  decode (items w !! TODOS_STORAGE_KEY) = JArr l →
  findIndex (λ r, strict_eq (get r "id") id) l = Some i →
  l !! i = Some x →
  updateTodo id patch w =
    if next_fails w then (Return None, refused w)
    else (Return (Some (spread x patch)),
          written TODOS_STORAGE_KEY
            (JSON_stringify (JArr (<[i := spread x patch]> l))) w).
Proof.
  intros Hdoc Hfind Hi. unfold updateTodo, bind.
  rewrite loadTodos_run, Hdoc. simpl. rewrite Hfind.
  rewrite (list_lookup_total_correct _ _ _ Hi).
  rewrite saveTodos_run. destruct (next_fails w); [done|]. unfold ret.
  do 2 f_equal. f_equal. apply list_lookup_total_correct.
  apply list_lookup_insert_eq. by eapply lookup_lt_Some.
Qed.

Lemma storable_spread (x patch : record) :
  storable_record num_exact x → storable_record num_exact patch →
  storable_record num_exact (spread x patch).
Proof.
  intros Hx Hp k v. unfold spread. rewrite lookup_union_Some_raw.
  intros [Hk|[_ Hk]]; [by eapply Hp|by eapply Hx].
Qed.

(** X1: for an identifier that some stored record carries, when the persist
    write succeeds, [update] returns the first such record merged with the
    patch (the fields of the patch win, the others are kept), and [getAll]
    afterwards is the stored sequence with that one record replaced in
    place: same length, same order, later records with the same identifier
    left alone.  This holds for the ledger and for the todos. *)
Theorem update_replaces_first (w : world) (id : val) (patch : record)
    (l : list record) :
  Forall (storable_record num_exact) l →
  storable_record num_exact patch →
  present id l →
  next_fails w = false →
  ∃ i x, l !! i = Some x
    ∧ strict_eq (get x "id") id = true
    ∧ Forall (λ y, strict_eq (get y "id") id = false) (take i l)
    ∧ (∀ k v, patch !! k = Some v → spread x patch !! k = Some v)
    ∧ (∀ k, patch !! k = None → spread x patch !! k = x !! k)
    ∧ (getAllExpenses w = (Return (JArr l), w) →
       ∃ w', updateExpense id patch w = (Return (Some (spread x patch)), w')
         ∧ getAllExpenses w' = (Return (JArr (<[i := spread x patch]> l)), w'))
    ∧ (getAllTodos w = (Return (JArr l), w) →
       ∃ w', updateTodo id patch w = (Return (Some (spread x patch)), w')
         ∧ getAllTodos w' = (Return (JArr (<[i := spread x patch]> l)), w')).
Proof.
  intros Hl Hpatch Hpr Hok.
  destruct (present_first id l Hpr) as (i & x & Hfind & Hi & Hx & Hpre).
  assert (Hnew : Forall (storable_record num_exact) (<[i := spread x patch]> l)).
  { apply storable_insert; [done|]. apply storable_spread; [|done].
    rewrite Forall_forall in Hl. apply Hl. by eapply list_elem_of_lookup_2. }
  exists i, x. split; [done|]. split; [done|]. split; [done|].
  split; [|split; [|split]].
  - intros k v Hk. unfold spread. by apply lookup_union_Some_l.
  - intros k Hk. unfold spread. by apply lookup_union_r.
  - intros Hall%getAllExpenses_doc. eexists. split.
    + rewrite (updateExpense_run w id patch l i x Hall Hfind Hi), Hok. reflexivity.
    + by apply getAllExpenses_written.
  - intros Hall%getAllTodos_doc. eexists. split.
    + rewrite (updateTodo_run w id patch l i x Hall Hfind Hi), Hok. reflexivity.
    + by apply getAllTodos_written.
Qed.

Lemma items_refused w : items (refused w) = items w.
Proof. reflexivity. Qed.

(** X2: when the persist write is refused, [add], [update] and [toggle]
    return null and the stored sequence stays what it was. *)
Theorem refused_write_changes_nothing (e : env) (w : world) (id : val)
    (data patch : record) (l : list record) :
  next_fails w = true →
  (getAllExpenses w = (Return (JArr l), w) →
     addExpense e data w = (Return None, refused w)
     ∧ (present id l → updateExpense id patch w = (Return None, refused w))
     ∧ getAllExpenses (refused w) = (Return (JArr l), refused w))
  ∧ (getAllTodos w = (Return (JArr l), w) →
     addTodo e data w = (Return None, refused w)
     ∧ (present id l → updateTodo id patch w = (Return None, refused w))
     ∧ (present id l → toggleTodo id w = (Return None, refused w))
     ∧ getAllTodos (refused w) = (Return (JArr l), refused w)).
Proof.
  intros Hko. split.
  - intros Hall%getAllExpenses_doc. split; [|split].
    + unfold addExpense, bind. rewrite loadExpenses_run, Hall. simpl.
      by rewrite saveExpenses_run, Hko.
    + intros Hpr. destruct (present_first id l Hpr) as (i & x & Hfind & Hi & _).
      by rewrite (updateExpense_run w id patch l i x Hall Hfind Hi), Hko.
    + unfold getAllExpenses. by rewrite loadExpenses_run, items_refused, Hall.
  - intros Hall%getAllTodos_doc. split; [|split; [|split]].
    + unfold addTodo, bind. rewrite loadTodos_run, Hall. simpl.
      by rewrite saveTodos_run, Hko.
    + intros Hpr. destruct (present_first id l Hpr) as (i & x & Hfind & Hi & _).
      by rewrite (updateTodo_run w id patch l i x Hall Hfind Hi), Hko.
    + intros Hpr. destruct (present_first id l Hpr) as (i & x & Hfind & Hi & _).
      by rewrite (toggleTodo_run w id l i x Hall Hfind Hi), Hko.
    + unfold getAllTodos. by rewrite loadTodos_run, items_refused, Hall.
Qed.

Lemma filter_absent id (l : list record) :
  absent id (List.filter (λ r, negb (strict_eq (get r "id") id)) l).
Proof.
  unfold absent. apply Forall_forall. intros r Hr.
  apply list_elem_of_In, filter_In in Hr as [_ Hr].
  by apply negb_true_iff in Hr.
Qed.

Lemma storable_filter (p : record → bool) (l : list record) :
  Forall (storable_record num_exact) l →
  Forall (storable_record num_exact) (List.filter p l).
Proof.
  rewrite !Forall_forall. intros Hl r Hr.
  apply Hl. apply list_elem_of_In. apply list_elem_of_In, filter_In in Hr. tauto.
Qed.

Lemma deleteExpense_run (w : world) (id : val) (l : list record) :
  decode (items w !! EXPENSES_STORAGE_KEY) = JArr l →
  let kept := List.filter (λ r, negb (strict_eq (get r "id") id)) l in
  deleteExpense id w =
    if (length kept =? length l)%nat then (Return false, w)
    else saveExpenses kept w.
Proof.
  intros Hdoc kept. unfold deleteExpense, bind.
  rewrite loadExpenses_run, Hdoc. simpl. fold kept.
  by destruct (length kept =? length l)%nat.
Qed.

Lemma deleteTodo_run (w : world) (id : val) (l : list record) :
  decode (items w !! TODOS_STORAGE_KEY) = JArr l →
  let kept := List.filter (λ r, negb (strict_eq (get r "id") id)) l in
  deleteTodo id w =
    if (length kept =? length l)%nat then (Return false, w)
    else saveTodos kept w.
Proof.
  intros Hdoc kept. unfold deleteTodo, bind.
  rewrite loadTodos_run, Hdoc. simpl. fold kept.
  by destruct (length kept =? length l)%nat.
Qed.

Lemma deleteExpense_absent w id l :
  decode (items w !! EXPENSES_STORAGE_KEY) = JArr l → absent id l →
  deleteExpense id w = (Return false, w).
Proof.
  intros Hdoc Hab. rewrite (deleteExpense_run w id l Hdoc).
  rewrite absent_filter by done. by rewrite Nat.eqb_refl.
Qed.

Lemma deleteTodo_absent w id l :
  decode (items w !! TODOS_STORAGE_KEY) = JArr l → absent id l →
  deleteTodo id w = (Return false, w).
Proof.
  intros Hdoc Hab. rewrite (deleteTodo_run w id l Hdoc).
  rewrite absent_filter by done. by rewrite Nat.eqb_refl.
Qed.

Lemma updateExpense_absent w id patch l :
  decode (items w !! EXPENSES_STORAGE_KEY) = JArr l → absent id l →
  updateExpense id patch w = (Return None, w).
Proof.
  intros Hdoc Hab. unfold updateExpense, bind. rewrite loadExpenses_run, Hdoc.
  simpl. by rewrite absent_findIndex.
Qed.

Lemma updateTodo_absent w id patch l :
  decode (items w !! TODOS_STORAGE_KEY) = JArr l → absent id l →
  updateTodo id patch w = (Return None, w).
Proof.
  intros Hdoc Hab. unfold updateTodo, bind. rewrite loadTodos_run, Hdoc.
  simpl. by rewrite absent_findIndex.
Qed.

Lemma toggleTodo_absent w id l :
  decode (items w !! TODOS_STORAGE_KEY) = JArr l → absent id l →
  toggleTodo id w = (Return None, w).
Proof.
  intros Hdoc Hab. unfold toggleTodo, bind. rewrite loadTodos_run, Hdoc.
  simpl. by rewrite absent_findIndex.
Qed.

(** X3: a successful [delete] removes every record that carries the
    identifier and keeps the others in their order.  The identifier is
    absent afterwards: deleting it again returns false, updating or toggling
    it returns null, and none of these changes the store. *)
Theorem delete_removes_every_match (w : world) (id : val) (patch : record)
    (l : list record) :
  Forall (storable_record num_exact) l →
  present id l →
  next_fails w = false →
  let kept := List.filter (λ r, negb (strict_eq (get r "id") id)) l in
  absent id kept
  ∧ (getAllExpenses w = (Return (JArr l), w) →
     ∃ w', deleteExpense id w = (Return true, w')
       ∧ getAllExpenses w' = (Return (JArr kept), w')
       ∧ deleteExpense id w' = (Return false, w')
       ∧ updateExpense id patch w' = (Return None, w'))
  ∧ (getAllTodos w = (Return (JArr l), w) →
     ∃ w', deleteTodo id w = (Return true, w')
       ∧ getAllTodos w' = (Return (JArr kept), w')
       ∧ deleteTodo id w' = (Return false, w')
       ∧ updateTodo id patch w' = (Return None, w')
       ∧ toggleTodo id w' = (Return None, w')).
Proof.
  intros Hl Hpr Hok kept.
  assert (Hab : absent id kept) by apply filter_absent.
  assert (Hkept : Forall (storable_record num_exact) kept) by by apply storable_filter.
  split; [done|]. split.
  - intros Hall%getAllExpenses_doc.
    pose proof (getAllExpenses_written kept w Hkept) as Hafter. simpl in Hafter.
    eexists. split; [|split; [exact Hafter|]].
    + rewrite (deleteExpense_run w id l Hall). fold kept.
      unfold kept at 1. rewrite present_filter_shorter by done.
      by rewrite saveExpenses_run, Hok.
    + apply getAllExpenses_doc in Hafter. split.
      * by apply (deleteExpense_absent _ _ kept).
      * by apply (updateExpense_absent _ _ _ kept).
  - intros Hall%getAllTodos_doc.
    pose proof (getAllTodos_written kept w Hkept) as Hafter. simpl in Hafter.
    eexists. split; [|split; [exact Hafter|]].
    + rewrite (deleteTodo_run w id l Hall). fold kept.
      unfold kept at 1. rewrite present_filter_shorter by done.
      by rewrite saveTodos_run, Hok.
    + apply getAllTodos_doc in Hafter. split; [|split].
      * by apply (deleteTodo_absent _ _ kept).
      * by apply (updateTodo_absent _ _ _ kept).
      * by apply (toggleTodo_absent _ _ kept).
Qed.

(** ** Adding, then deleting *)

Lemma filter_app_last (p : record → bool) (l : list record) (r : record) :
  Forall (λ x, p x = true) l → p r = false → List.filter p (l ++ [r]) = l.
Proof.
  intros Hl Hr. rewrite List.filter_app. simpl. rewrite Hr.
  rewrite filter_all by done. apply app_nil_r.
Qed.

(** X4: adding a record and then deleting the identifier it was given
    brings the stored sequence back, provided the generated identifier is a
    number ([NaN] is not equal to itself) that no stored record carries and
    the two writes succeed. *)
Theorem add_then_delete_restores (e : env) (data : record) (w : world)
    (l : list record) :
  data !! "id" = None →
  Forall (storable_record num_exact) l →
  absent (generateId e) l →
  strict_eq (generateId e) (generateId e) = true →
  writes_succeed 2 w →
  (getAllExpenses w = (Return (JArr l), w) →
   storable_record num_exact (newExpense e data) →
   ∃ r w1 w2, addExpense e data w = (Return (Some r), w1)
     ∧ getAllExpenses w1 = (Return (JArr (l ++ [r])), w1)
     ∧ deleteExpense (get r "id") w1 = (Return true, w2)
     ∧ getAllExpenses w2 = (Return (JArr l), w2))
  ∧ (getAllTodos w = (Return (JArr l), w) →
     storable_record num_exact (newTodo e data) →
     ∃ r w1 w2, addTodo e data w = (Return (Some r), w1)
       ∧ getAllTodos w1 = (Return (JArr (l ++ [r])), w1)
       ∧ deleteTodo (get r "id") w1 = (Return true, w2)
       ∧ getAllTodos w2 = (Return (JArr l), w2)).
Proof.
  intros Hno Hl Hab Hself Hw.
  apply writes_succeed_S in Hw as [Hok Hw].
  assert (Hkeep : Forall (λ x : record,
            negb (strict_eq (get x "id") (generateId e)) = true) l).
  { eapply Forall_impl; [exact Hab|]. simpl. by intros x ->. }
  split; intros Hall Hnew.
  - apply getAllExpenses_doc in Hall.
    set (r := newExpense e data).
    set (w1 := written EXPENSES_STORAGE_KEY (JSON_stringify (JArr (l ++ [r]))) w).
    assert (Hok1 : next_fails w1 = false).
    { by destruct (writes_succeed_S _ _
        (Hw EXPENSES_STORAGE_KEY (JSON_stringify (JArr (l ++ [r]))))). }
    assert (Hall1 : getAllExpenses w1 = (Return (JArr (l ++ [r])), w1)).
    { apply getAllExpenses_written. by apply storable_app. }
    assert (Hid : get r "id" = generateId e) by by apply newExpense_id.
    exists r, w1. eexists. split; [|split; [exact Hall1|split]].
    + unfold addExpense, bind. rewrite loadExpenses_run, Hall. simpl.
      by rewrite saveExpenses_run, Hok.
    + rewrite (deleteExpense_run w1 _ (l ++ [r]) (getAllExpenses_doc _ _ Hall1)).
      rewrite Hid, filter_app_last; [|done|by rewrite Hid, Hself].
      rewrite length_app. simpl.
      destruct (Nat.eqb_spec (length l) (length l + 1)) as [E|_]; [lia|].
      by rewrite saveExpenses_run, Hok1.
    + by apply getAllExpenses_written.
  - apply getAllTodos_doc in Hall.
    set (r := newTodo e data).
    set (w1 := written TODOS_STORAGE_KEY (JSON_stringify (JArr (l ++ [r]))) w).
    assert (Hok1 : next_fails w1 = false).
    { by destruct (writes_succeed_S _ _
        (Hw TODOS_STORAGE_KEY (JSON_stringify (JArr (l ++ [r]))))). }
    assert (Hall1 : getAllTodos w1 = (Return (JArr (l ++ [r])), w1)).
    { apply getAllTodos_written. by apply storable_app. }
    assert (Hid : get r "id" = generateId e) by by apply newTodo_id.
    exists r, w1. eexists. split; [|split; [exact Hall1|split]].
    + unfold addTodo, bind. rewrite loadTodos_run, Hall. simpl.
      by rewrite saveTodos_run, Hok.
    + rewrite (deleteTodo_run w1 _ (l ++ [r]) (getAllTodos_doc _ _ Hall1)).
      rewrite Hid, filter_app_last; [|done|by rewrite Hid, Hself].
      rewrite length_app. simpl.
      destruct (Nat.eqb_spec (length l) (length l + 1)) as [E|_]; [lia|].
      by rewrite saveTodos_run, Hok1.
    + by apply getAllTodos_written.
Qed.

(** ** Contents that are no sequence *)

Lemma decode_unreadable t : JSON_parse t = None → decode (Some t) = JArr [].
Proof. intros Ht. unfold decode. rewrite Ht. by destruct (String.eqb t ""). Qed.

(** X5: a key that holds a text [JSON.parse] rejects reads as the empty
    sequence: [getAll] returns the empty array, the statistics are those of
    no record, and the first successful [add] replaces the text by a
    sequence that holds the new record alone. *)
Theorem unreadable_text_reads_empty (e : env) (data : record) (w : world)
    (t : string) :
  JSON_parse t = None →
  (items w !! EXPENSES_STORAGE_KEY = Some t →
     getAllExpenses w = (Return (JArr []), w)
     ∧ getExpenseStats VNull VNull w
       = (Return {| totalIncome := VNum num_zero; totalExpense := VNum num_zero;
                    balance := VNum (num_sub num_zero num_zero);
                    incomeCount := 0; expenseCount := 0; totalCount := 0 |}, w)
     ∧ (∀ proto, getCategoryStats VNull proto w = (Return ∅, proto, w))
     ∧ (next_fails w = false → storable_record num_exact (newExpense e data) →
        ∃ r w', addExpense e data w = (Return (Some r), w')
          ∧ getAllExpenses w' = (Return (JArr [r]), w')))
  ∧ (items w !! TODOS_STORAGE_KEY = Some t →
     getAllTodos w = (Return (JArr []), w)
     ∧ getTodoStats NoDate w
       = (Return {| TodoStats.total := 0; TodoStats.completed := 0;
                    TodoStats.pending := 0; TodoStats.high := 0;
                    TodoStats.medium := 0; TodoStats.low := 0 |}, w)
     ∧ (next_fails w = false → storable_record num_exact (newTodo e data) →
        ∃ r w', addTodo e data w = (Return (Some r), w')
          ∧ getAllTodos w' = (Return (JArr [r]), w'))).
Proof.
  intros Ht. pose proof (decode_unreadable t Ht) as Hdec. split; intros Hitem.
  - assert (Hdoc : decode (items w !! EXPENSES_STORAGE_KEY) = JArr [])
      by by rewrite Hitem.
    split; [|split; [|split]].
    + unfold getAllExpenses. by rewrite loadExpenses_run, Hdoc.
    + unfold getExpenseStats, bind. by rewrite loadExpenses_run, Hdoc.
    + intros proto. unfold getCategoryStats, bind.
      by rewrite loadExpenses_run, Hdoc.
    + intros Hok Hnew. eexists _, _. split.
      * unfold addExpense, bind. rewrite loadExpenses_run, Hdoc. simpl.
        by rewrite saveExpenses_run, Hok.
      * apply getAllExpenses_written. by constructor.
  - assert (Hdoc : decode (items w !! TODOS_STORAGE_KEY) = JArr [])
      by by rewrite Hitem.
    split; [|split].
    + unfold getAllTodos. by rewrite loadTodos_run, Hdoc.
    + unfold getTodoStats, bind. by rewrite loadTodos_run, Hdoc.
    + intros Hok Hnew. eexists _, _. split.
      * unfold addTodo, bind. rewrite loadTodos_run, Hdoc. simpl.
        by rewrite saveTodos_run, Hok.
      * apply getAllTodos_written. by constructor.
Qed.

Lemma as_array_throws (d : document) w :
  (∀ l, d ≠ JArr l) → as_array d w = (Throw TypeError, w).
Proof. intros Hd. destruct d as [v|o|l]; [done|done|]. by destruct (Hd l). Qed.

(** X6: when the key holds JSON that is not an array, [getAll] returns it as
    it is and every other operation of the service throws a TypeError,
    leaving the store untouched. *)
Theorem non_array_content_throws (e : env) (w : world) (d : document) :
  (∀ l, d ≠ JArr l) →
  (getAllExpenses w = (Return d, w) →
     (∀ data, addExpense e data w = (Throw TypeError, w))
     ∧ (∀ id patch, updateExpense id patch w = (Throw TypeError, w))
     ∧ (∀ id, deleteExpense id w = (Throw TypeError, w))
     ∧ (∀ startDate endDate,
          getExpenseStats startDate endDate w = (Throw TypeError, w))
     ∧ (∀ type proto,
          getCategoryStats type proto w = (Throw TypeError, proto, w)))
  ∧ (getAllTodos w = (Return d, w) →
     (∀ data, addTodo e data w = (Throw TypeError, w))
     ∧ (∀ id patch, updateTodo id patch w = (Throw TypeError, w))
     ∧ (∀ id, toggleTodo id w = (Throw TypeError, w))
     ∧ (∀ id, deleteTodo id w = (Throw TypeError, w))
     ∧ (∀ date, getTodoStats date w = (Throw TypeError, w))).
Proof.
  intros Hd. pose proof (as_array_throws d) as Hthrow. split.
  - intros Hall%getAllExpenses_doc. repeat split; intros.
    + unfold addExpense, bind. by rewrite loadExpenses_run, Hall, Hthrow.
    + unfold updateExpense, bind. by rewrite loadExpenses_run, Hall, Hthrow.
    + unfold deleteExpense, bind. by rewrite loadExpenses_run, Hall, Hthrow.
    + unfold getExpenseStats, bind. rewrite loadExpenses_run, Hall.
      destruct (truthy _); by rewrite Hthrow.
    + unfold getCategoryStats, bind. rewrite loadExpenses_run, Hall.
      destruct (truthy _); by rewrite Hthrow.
  - intros Hall%getAllTodos_doc. repeat split; intros.
    + unfold addTodo, bind. by rewrite loadTodos_run, Hall, Hthrow.
    + unfold updateTodo, bind. by rewrite loadTodos_run, Hall, Hthrow.
    + unfold toggleTodo, bind. by rewrite loadTodos_run, Hall, Hthrow.
    + unfold deleteTodo, bind. by rewrite loadTodos_run, Hall, Hthrow.
    + unfold getTodoStats, bind. rewrite loadTodos_run, Hall.
      destruct date as [|s|s]; simpl; [by rewrite Hthrow| |by rewrite Hthrow].
      destruct (String.eqb s ""); simpl; by rewrite Hthrow.
Qed.

(** ** Statistics and the queries they agree with *)

Lemma getExpenseStats_run (w : world) (startDate endDate : val) (l : list record) :
  decode (items w !! EXPENSES_STORAGE_KEY) = JArr l →
  getExpenseStats startDate endDate w =
    (Return (summary
       (if truthy (js_or startDate endDate) then
          List.filter (λ expense,
            if truthy startDate && js_lt (get expense "date") startDate then false
            else if truthy endDate && js_gt (get expense "date") endDate then false
            else true) l
        else l)), w).
Proof.
  intros Hdoc. unfold getExpenseStats, bind. rewrite loadExpenses_run, Hdoc.
  by destruct (truthy (js_or startDate endDate)).
Qed.

Lemma truthy_VStr (s : string) : s ≠ "" → truthy (VStr s) = true.
Proof. intros Hs. simpl. by destruct (String.eqb_spec s ""). Qed.

Lemma strict_eq_VStr (v : val) (s : string) :
  strict_eq v (VStr s) = true ↔ v = VStr s.
Proof.
  destruct v; simpl; try (split; [discriminate|discriminate]).
  rewrite String.eqb_eq. split; congruence.
Qed.

Lemma filter_pair_length {A} (p q : A → bool) (l : list A) :
  (∀ x, p x = true → q x = false) →
  (length (List.filter p l) + length (List.filter q l) ≤ length l)%nat
  ∧ ((length (List.filter p l) + length (List.filter q l))%nat = length l
     ↔ Forall (λ x, p x = true ∨ q x = true) l).
Proof.
  intros Hpq. induction l as [|x l [IHle IHeq]]; simpl.
  - split; [lia|]. split; [constructor|done].
  - destruct (p x) eqn:Hp; [rewrite (Hpq x Hp)|destruct (q x) eqn:Hq]; simpl.
    + split; [lia|]. rewrite Forall_cons. split.
      * intros Hlen. split; [by left|]. apply IHeq. lia.
      * intros [_ Hl]. apply IHeq in Hl. lia.
    + split; [lia|]. rewrite Forall_cons. split.
      * intros Hlen. split; [by right|]. apply IHeq. lia.
      * intros [_ Hl]. apply IHeq in Hl. lia.
    + split; [lia|]. rewrite Forall_cons. split; [lia|].
      intros [[?|?] _]; congruence.
Qed.

Lemma income_not_expense (r : record) : is_income r = true → is_expense r = false.
Proof.
  unfold is_income, is_expense. intros ->%strict_eq_VStr. reflexivity.
Qed.

(** X7: in what [getExpenseStats] returns, whatever the bounds,
    incomeCount + expenseCount never exceeds totalCount; over the whole
    ledger the two are equal exactly when every record has the type income
    or the type expense. *)
Theorem typed_counts_bounded (w : world) (startDate endDate : val)
    (l : list record) :
  getAllExpenses w = (Return (JArr l), w) →
  (∃ s, getExpenseStats startDate endDate w = (Return s, w)
     ∧ (incomeCount s + expenseCount s ≤ totalCount s)%nat)
  ∧ (∃ s, getExpenseStats VNull VNull w = (Return s, w)
       ∧ totalCount s = length l
       ∧ ((incomeCount s + expenseCount s)%nat = totalCount s
          ↔ Forall (λ r, get r "type" = VStr "income"
                         ∨ get r "type" = VStr "expense") l)).
Proof.
  intros Hall%getAllExpenses_doc. split.
  - unfold getExpenseStats, bind. rewrite loadExpenses_run, Hall.
    destruct (truthy (js_or startDate endDate)); simpl;
      (eexists; split; [reflexivity|]; simpl;
       apply (filter_pair_length is_income is_expense), income_not_expense).
  - exists (summary l). split; [|split; [done|]].
    + unfold getExpenseStats, bind. by rewrite loadExpenses_run, Hall.
    + simpl.
      destruct (filter_pair_length is_income is_expense l income_not_expense)
        as [_ ->].
      apply Forall_iff. intros r. unfold is_income, is_expense.
      by rewrite !strict_eq_VStr.
Qed.

Lemma getTodoStats_run (w : world) (date : date_arg) (l : list record) :
  decode (items w !! TODOS_STORAGE_KEY) = JArr l →
  getTodoStats date w = (Return (todo_summary (todos_counted date l)), w).
Proof.
  intros Hdoc. unfold getTodoStats, bind. rewrite loadTodos_run, Hdoc.
  destruct date as [|s|s]; simpl; [done| |done].
  by destruct (String.eqb s "").
Qed.

(** X8: the queries by type and by priority return the records the
    statistics count: [getExpensesByType] of income and of expense give the
    records whose number and whose summed amounts are incomeCount,
    totalIncome, expenseCount and totalExpense, and [getTodosByPriority]
    gives the todos counted as high, medium and low. *)
Theorem typed_queries_match_stats (w : world) (l : list record) :
  (getAllExpenses w = (Return (JArr l), w) →
   ∃ s income expense,
     getExpenseStats VNull VNull w = (Return s, w)
     ∧ getExpensesByType (VStr "income") w = (Return income, w)
     ∧ getExpensesByType (VStr "expense") w = (Return expense, w)
     ∧ incomeCount s = length income
     ∧ totalIncome s = sum_amounts income
     ∧ expenseCount s = length expense
     ∧ totalExpense s = sum_amounts expense
     ∧ balance s = js_sub (sum_amounts income) (sum_amounts expense))
  ∧ (getAllTodos w = (Return (JArr l), w) →
     ∃ s high medium low,
       getTodoStats NoDate w = (Return s, w)
       ∧ getTodosByPriority (VStr "high") w = (Return high, w)
       ∧ getTodosByPriority (VStr "medium") w = (Return medium, w)
       ∧ getTodosByPriority (VStr "low") w = (Return low, w)
       ∧ TodoStats.high s = length high
       ∧ TodoStats.medium s = length medium
       ∧ TodoStats.low s = length low).
Proof.
  split.
  - intros Hall%getAllExpenses_doc.
    exists (summary l), (List.filter is_income l), (List.filter is_expense l).
    split; [|split; [|split]]; [| | |done].
    + unfold getExpenseStats, bind. by rewrite loadExpenses_run, Hall.
    + unfold getExpensesByType, bind. by rewrite loadExpenses_run, Hall.
    + unfold getExpensesByType, bind. by rewrite loadExpenses_run, Hall.
  - intros Hall%getAllTodos_doc.
    exists (todo_summary l),
      (List.filter (λ t, strict_eq (get t "priority") (VStr "high")) l),
      (List.filter (λ t, strict_eq (get t "priority") (VStr "medium")) l),
      (List.filter (λ t, strict_eq (get t "priority") (VStr "low")) l).
    split; [by apply (getTodoStats_run w NoDate)|].
    repeat split; unfold getTodosByPriority, bind; by rewrite loadTodos_run, Hall.
Qed.

Lemma compare_refl (a : string) : String.compare a a = Eq.
Proof.
  pose proof (String.compare_antisym a a) as Hc.
  destruct (String.compare a a); simpl in Hc; congruence.
Qed.

Lemma ltb_both_false (a b : string) :
  negb (String.ltb a b) && negb (String.ltb b a) = String.eqb a b.
Proof.
  unfold String.ltb. rewrite (String.compare_antisym a b).
  destruct (String.compare b a) eqn:Hc; simpl.
  - apply String.compare_eq_iff in Hc as ->. by rewrite String.eqb_refl.
  - symmetry. apply String.eqb_neq. intros ->.
    rewrite compare_refl in Hc. discriminate.
  - symmetry. apply String.eqb_neq. intros ->.
    rewrite compare_refl in Hc. discriminate.
Qed.

(** On a record dated by a string, the range filter of [getExpenseStats]
    with both bounds on one non-empty day is the test of [getExpensesByDate]. *)
Lemma single_day_filter (t : string) (r : record) :
  t ≠ "" → (∃ d, get r "date" = VStr d) →
  (if truthy (VStr t) && js_lt (get r "date") (VStr t) then false
   else if truthy (VStr t) && js_gt (get r "date") (VStr t) then false
   else true)
  = strict_eq (get r "date") (VStr t).
Proof.
  intros Ht [d Hd]. rewrite Hd. unfold js_gt. simpl.
  destruct (String.eqb_spec t "") as [|_]; [done|]. simpl.
  rewrite <- ltb_both_false.
  destruct (String.ltb d t), (String.ltb t d); reflexivity.
Qed.

(** X9: for records dated by strings and a non-empty date of today, what
    [getTodayStats] returns agrees with the totals the dashboard computes
    from the records of [getTodayExpenses]: the same number of records, the
    same income, expense and balance; these records are the ones whose date
    is today's. *)
Theorem today_totals_agree (e : env) (w : world) (l : list record) :
  getAllExpenses w = (Return (JArr l), w) →
  Forall (λ r, ∃ d, get r "date" = VStr d) l →
  today e ≠ "" →
  ∃ s todayExpenses,
    getTodayStats e w = (Return s, w)
    ∧ getTodayExpenses e w = (Return todayExpenses, w)
    ∧ todayExpenses
      = List.filter (λ r, strict_eq (get r "date") (VStr (today e))) l
    ∧ totalCount s = length todayExpenses
    ∧ totalIncome s = todayIncome todayExpenses
    ∧ totalExpense s = todayExpense todayExpenses
    ∧ balance s = todayBalance todayExpenses.
Proof.
  intros Hall%getAllExpenses_doc Hdates Ht.
  set (kept := List.filter (λ r, strict_eq (get r "date") (VStr (today e))) l).
  exists (summary kept), kept. split; [|split; [|done]].
  - unfold getTodayStats. rewrite (getExpenseStats_run w _ _ l Hall).
    unfold js_or. rewrite !truthy_VStr by done. do 3 f_equal.
    apply filter_ext_Forall. eapply Forall_impl; [exact Hdates|].
    intros r Hr. rewrite <- (single_day_filter (today e) r Ht Hr).
    by rewrite truthy_VStr.
  - unfold getTodayExpenses, getExpensesByDate, bind.
    by rewrite loadExpenses_run, Hall.
Qed.

Lemma leb_negb_ltb (a b : string) : String.leb a b = negb (String.ltb b a).
Proof. by rewrite ltb_negb_leb. Qed.

(** X10: on records dated by strings, [getExpensesByDateRange(s, e)] returns
    the records whose date lies between [s] and [e], both included; for
    non-empty bounds these are the records [getExpenseStats(s, e)] counts
    and sums. *)
Theorem date_range_query_matches_stats (w : world) (s e : string)
    (l : list record) :
  getAllExpenses w = (Return (JArr l), w) →
  Forall (λ r, ∃ d, get r "date" = VStr d) l →
  ∃ found,
    getExpensesByDateRange (VStr s) (VStr e) w = (Return found, w)
    ∧ found = List.filter (within (Some s) (Some e)) l
    ∧ (s ≠ "" → e ≠ "" →
       ∃ st, getExpenseStats (VStr s) (VStr e) w = (Return st, w)
         ∧ totalCount st = length found
         ∧ incomeCount st = length (List.filter is_income found)
         ∧ expenseCount st = length (List.filter is_expense found)
         ∧ totalIncome st = sum_amounts (List.filter is_income found)
         ∧ totalExpense st = sum_amounts (List.filter is_expense found)).
Proof.
  intros Hall%getAllExpenses_doc Hdates.
  exists (List.filter (within (Some s) (Some e)) l).
  split; [|split; [done|]].
  - unfold getExpensesByDateRange, bind. rewrite loadExpenses_run, Hall. simpl.
    unfold ret. do 2 f_equal. apply filter_ext_Forall.
    eapply Forall_impl; [exact Hdates|]. intros r [d Hd].
    unfold within, date_of, js_le. rewrite Hd. simpl.
    by rewrite !leb_negb_ltb.
  - intros Hs He. exists (summary (List.filter (within (Some s) (Some e)) l)).
    split; [|done].
    rewrite (getExpenseStats_run w _ _ l Hall).
    unfold js_or. rewrite !truthy_VStr by done. do 3 f_equal.
    apply filter_ext_Forall. eapply Forall_impl; [exact Hdates|].
    intros r Hr.
    rewrite <- (range_filter (Some s) (Some e) r); [|congruence..|done].
    simpl bound. by rewrite !truthy_VStr.
Qed.

(** X11: [getTodosByDate] without a date throws a TypeError; with a date (a
    non-empty string or a dayjs object) it returns the todos that
    [getTodoStats] counts for that date. *)
Theorem todos_by_date_matches_stats (w : world) (date : date_arg)
    (l : list record) :
  getAllTodos w = (Return (JArr l), w) →
  getTodosByDate NoDate w = (Throw TypeError, w)
  ∧ (date_given date = true →
     ∃ found s,
       getTodosByDate date w = (Return found, w)
       ∧ getTodoStats date w = (Return s, w)
       ∧ TodoStats.total s = length found
       ∧ TodoStats.completed s
         = length (List.filter (λ t, truthy (get t "completed")) found)
       ∧ TodoStats.pending s
         = length (List.filter (λ t, negb (truthy (get t "completed"))) found)
       ∧ TodoStats.high s
         = length (List.filter (λ t, strict_eq (get t "priority") (VStr "high"))
                     found)
       ∧ TodoStats.medium s
         = length (List.filter (λ t, strict_eq (get t "priority") (VStr "medium"))
                     found)
       ∧ TodoStats.low s
         = length (List.filter (λ t, strict_eq (get t "priority") (VStr "low"))
                     found)).
Proof.
  intros Hall%getAllTodos_doc. split.
  - unfold getTodosByDate, bind. by rewrite loadTodos_run, Hall.
  - intros Hgiven. unfold getTodosByDate, getTodoStats, bind.
    rewrite loadTodos_run, Hall, Hgiven.
    destruct date as [|s|s]; [done|..]; simpl;
      (eexists _, _; split; [reflexivity|]; split; [reflexivity|]; done).
Qed.

Lemma filter_triple_length {A} (p q r : A → bool) (l : list A) :
  (∀ x, p x = true → q x = false ∧ r x = false) →
  (∀ x, q x = true → r x = false) →
  (length (List.filter p l) + length (List.filter q l)
   + length (List.filter r l) ≤ length l)%nat
  ∧ ((length (List.filter p l) + length (List.filter q l)
      + length (List.filter r l))%nat = length l
     ↔ Forall (λ x, p x = true ∨ q x = true ∨ r x = true) l).
Proof.
  intros Hp Hq. induction l as [|x l [IHle IHeq]]; simpl.
  - split; [lia|]. split; [constructor|done].
  - rewrite Forall_cons.
    destruct (p x) eqn:Ep.
    { destruct (Hp x Ep) as [-> ->]. simpl. split; [lia|]. split.
      - intros Hlen. split; [by left|]. apply IHeq. lia.
      - intros [_ Hl]. apply IHeq in Hl. lia. }
    destruct (q x) eqn:Eq.
    { rewrite (Hq x Eq). simpl. split; [lia|]. split.
      - intros Hlen. split; [by right; left|]. apply IHeq. lia.
      - intros [_ Hl]. apply IHeq in Hl. lia. }
    destruct (r x) eqn:Er; simpl.
    { split; [lia|]. split.
      - intros Hlen. split; [by right; right|]. apply IHeq. lia.
      - intros [_ Hl]. apply IHeq in Hl. lia. }
    split; [lia|]. split; [lia|]. intros [[?|[?|?]] _]; congruence.
Qed.

(** X12: in the todo statistics high + medium + low never exceeds total,
    and equals it exactly when every counted todo has one of these three
    priorities. *)
Theorem priority_counts_bounded (w : world) (date : date_arg) (l : list record) :
  getAllTodos w = (Return (JArr l), w) →
  ∃ s, getTodoStats date w = (Return s, w)
    ∧ (TodoStats.high s + TodoStats.medium s + TodoStats.low s
       ≤ TodoStats.total s)%nat
    ∧ ((TodoStats.high s + TodoStats.medium s + TodoStats.low s)%nat
       = TodoStats.total s
       ↔ Forall known_priority (todos_counted date l)).
Proof.
  intros Hall%getAllTodos_doc.
  set (c := todos_counted date l).
  destruct (filter_triple_length
    (λ t : record, strict_eq (get t "priority") (VStr "high"))
    (λ t : record, strict_eq (get t "priority") (VStr "medium"))
    (λ t : record, strict_eq (get t "priority") (VStr "low")) c) as [Hle Heq].
  { intros t ->%strict_eq_VStr. done. }
  { intros t ->%strict_eq_VStr. done. }
  exists (todo_summary c). split; [by apply getTodoStats_run|].
  simpl. split; [exact Hle|]. rewrite Heq. apply Forall_iff. intros t.
  unfold known_priority. by rewrite !strict_eq_VStr.
Qed.

(** ** What [add] builds *)

Lemma get_spread_r (a b : record) k :
  b !! k = None → get (spread a b) k = get a k.
Proof. intros Hk. unfold get, spread. by rewrite lookup_union_r. Qed.

Lemma get_spread_l (a b : record) k v :
  b !! k = Some v → get (spread a b) k = v.
Proof.
  intros Hk. unfold get, spread. by rewrite (lookup_union_Some_l _ _ _ _ Hk).
Qed.

Lemma get_None (r : record) k : r !! k = None → get r k = VUndefined.
Proof. intros Hk. unfold get. by rewrite Hk. Qed.

(** X13: a todo added without a completion flag and without a priority is
    stored as not completed and of priority medium: the statistics
    afterwards count one more todo, one more pending and one more medium,
    and as many completed, high and low as before. *)
Theorem added_todo_counts_as_pending_medium (e : env) (data : record)
    (w : world) (l : list record) :
  data !! "completed" = None →
  data !! "priority" = None →
  Forall (storable_record num_exact) l →
  storable_record num_exact (newTodo e data) →
  next_fails w = false →
  getAllTodos w = (Return (JArr l), w) →
  ∃ before r w' after,
    getTodoStats NoDate w = (Return before, w)
    ∧ addTodo e data w = (Return (Some r), w')
    ∧ get r "completed" = VBool false
    ∧ get r "priority" = VStr "medium"
    ∧ getTodoStats NoDate w' = (Return after, w')
    ∧ TodoStats.total after = S (TodoStats.total before)
    ∧ TodoStats.pending after = S (TodoStats.pending before)
    ∧ TodoStats.completed after = TodoStats.completed before
    ∧ TodoStats.medium after = S (TodoStats.medium before)
    ∧ TodoStats.high after = TodoStats.high before
    ∧ TodoStats.low after = TodoStats.low before.
Proof.
  intros Hdone Hprio Hl Hnew Hok Hall%getAllTodos_doc.
  set (r := newTodo e data).
  set (w' := written TODOS_STORAGE_KEY (JSON_stringify (JArr (l ++ [r]))) w).
  assert (Hc : get r "completed" = VBool false).
  { unfold r, newTodo. rewrite get_spread_r by done. unfold get.
    rewrite !lookup_insert_ne by done. by rewrite lookup_insert_eq. }
  assert (Hp : get r "priority" = VStr "medium").
  { unfold r, newTodo. rewrite get_spread_r by done. unfold get at 1.
    rewrite !lookup_insert_ne by done. rewrite lookup_insert_eq. simpl.
    by rewrite (get_None data "priority"). }
  assert (Hafter : decode (items w' !! TODOS_STORAGE_KEY) = JArr (l ++ [r])).
  { apply getAllTodos_doc with (w := w'), getAllTodos_written.
    by apply storable_app. }
  exists (todo_summary l), r, w', (todo_summary (l ++ [r])).
  split; [by apply (getTodoStats_run w NoDate)|]. split.
  { unfold addTodo, bind. rewrite loadTodos_run, Hall. simpl.
    by rewrite saveTodos_run, Hok. }
  split; [done|]. split; [done|].
  split; [by apply (getTodoStats_run w' NoDate)|].
  simpl. rewrite !List.filter_app, !length_app. simpl.
  rewrite Hc, Hp. simpl. repeat split; lia.
Qed.

(** X14: the fields the caller passes override the ones [add] computes,
    because the caller's data is spread last.  For data that carries amount,
    description, category, type and date, and no id or createdAt, the new
    ledger record is the data with the generated id and the creation time
    added: the amount is stored as it was passed, and [parseFloat] has no
    effect.  Likewise a todo that carries text, date, priority and category
    keeps the priority and the category it was passed, whatever they are. *)
Theorem add_keeps_data_as_passed (e : env) (data : record) :
  data !! "id" = None →
  data !! "createdAt" = None →
  ((∀ k, k ∈ ["amount"; "description"; "category"; "type"; "date"] →
         is_Some (data !! k)) →
   newExpense e data
   = <["id" := generateId e]> (<["createdAt" := VStr (toISOString e)]> data)
   ∧ get (newExpense e data) "amount" = get data "amount")
  ∧ (data !! "completed" = None →
     (∀ k, k ∈ ["text"; "date"; "priority"; "category"] → is_Some (data !! k)) →
     newTodo e data
     = <["id" := generateId e]>
         (<["completed" := VBool false]>
            (<["createdAt" := VStr (toISOString e)]> data))
     ∧ get (newTodo e data) "priority" = get data "priority"
     ∧ get (newTodo e data) "category" = get data "category").
Proof.
  intros Hid Hat. split.
  - intros Hkeys.
    assert (Hget : ∀ k v, data !! k = Some v → newExpense e data !! k = Some v).
    { intros k v Hk. unfold newExpense, spread. by apply lookup_union_Some_l. }
    split.
    + apply map_eq. intros k.
      destruct (data !! k) as [v|] eqn:Hk.
      * rewrite (Hget k v Hk).
        rewrite !lookup_insert_ne by congruence. done.
      * unfold newExpense, spread. rewrite lookup_union_r by done.
        destruct (decide (k = "id")) as [->|Hne1];
          [by rewrite !lookup_insert_eq|].
        rewrite (lookup_insert_ne _ "id") by done.
        rewrite (lookup_insert_ne (<["createdAt" := _]> data) "id") by done.
        destruct (decide (k = "createdAt")) as [->|Hne2].
        { rewrite !lookup_insert_ne by done. by rewrite !lookup_insert_eq. }
        rewrite (lookup_insert_ne data "createdAt") by done. rewrite Hk.
        assert (Hother : ∀ k', k' ∈ ["amount"; "description"; "category";
                                     "type"; "date"] → k' ≠ k).
        { intros k' Hk' ->. apply Hkeys in Hk' as [v Hv]. congruence. }
        rewrite !lookup_insert_ne by (apply Hother; set_solver).
        by apply lookup_singleton_ne.
    + destruct (Hkeys "amount") as [v Hv]; [set_solver|].
      unfold get. by rewrite (Hget _ _ Hv), Hv.
  - intros Hdone Hkeys.
    assert (Hget : ∀ k v, data !! k = Some v → newTodo e data !! k = Some v).
    { intros k v Hk. unfold newTodo, spread. by apply lookup_union_Some_l. }
    split; [|split].
    + apply map_eq. intros k.
      destruct (data !! k) as [v|] eqn:Hk.
      * rewrite (Hget k v Hk).
        rewrite !lookup_insert_ne by congruence. done.
      * unfold newTodo, spread. rewrite lookup_union_r by done.
        destruct (decide (k = "id")) as [->|Hne1];
          [by rewrite !lookup_insert_eq|].
        rewrite (lookup_insert_ne _ "id") by done.
        rewrite (lookup_insert_ne (<["completed" := _]> _) "id") by done.
        destruct (decide (k = "completed")) as [->|Hne2].
        { rewrite !lookup_insert_ne by done. by rewrite !lookup_insert_eq. }
        rewrite (lookup_insert_ne (<["createdAt" := _]> data) "completed") by done.
        destruct (decide (k = "createdAt")) as [->|Hne3].
        { rewrite !lookup_insert_ne by done. rewrite lookup_insert_eq.
          by rewrite lookup_singleton_eq. }
        rewrite (lookup_insert_ne data "createdAt") by done. rewrite Hk.
        assert (Hother : ∀ k', k' ∈ ["text"; "date"; "priority"; "category"] →
                               k' ≠ k).
        { intros k' Hk' ->. apply Hkeys in Hk' as [v Hv]. congruence. }
        rewrite !lookup_insert_ne by (done || apply Hother; set_solver).
        by apply lookup_singleton_ne.
    + destruct (Hkeys "priority") as [v Hv]; [set_solver|].
      unfold get. by rewrite (Hget _ _ Hv), Hv.
    + destruct (Hkeys "category") as [v Hv]; [set_solver|].
      unfold get. by rewrite (Hget _ _ Hv), Hv.
Qed.

(** ** The storage module and the keys of the services *)

Lemma getAllExpenses_items w w' :
  items w' !! EXPENSES_STORAGE_KEY = items w !! EXPENSES_STORAGE_KEY →
  (getAllExpenses w').1 = (getAllExpenses w).1.
Proof. intros Heq. unfold getAllExpenses. by rewrite !loadExpenses_run, Heq. Qed.

Lemma getAllTodos_items w w' :
  items w' !! TODOS_STORAGE_KEY = items w !! TODOS_STORAGE_KEY →
  (getAllTodos w').1 = (getAllTodos w).1.
Proof. intros Heq. unfold getAllTodos. by rewrite !loadTodos_run, Heq. Qed.

Ltac step_writes :=
  repeat (first [rewrite storage_set_run | rewrite setItem_run];
          match goal with |- context [next_fails ?w] => destruct (next_fails w) end;
          cbn [fst snd]).

Lemma clearAllData_frame (e : env) (w : world) (key : string) :
  key ∉ STORAGE_KEYS.SETTINGS :: sequence_keys →
  items (clearAllData e w).2 !! key = items w !! key.
Proof.
  unfold sequence_keys. rewrite !not_elem_of_cons.
  intros (? & ? & ? & ? & ? & _).
  unfold clearAllData, bind.
  step_writes; unfold written, refused, ret; cbn [items fst snd];
    by rewrite ?lookup_insert_ne.
Qed.

Lemma initializeData_frame (e : env) (w : world) (key : string) :
  key ∉ STORAGE_KEYS.SETTINGS :: sequence_keys →
  items (initializeData e w).2 !! key = items w !! key.
Proof.
  unfold sequence_keys. rewrite !not_elem_of_cons.
  intros (? & ? & ? & ? & ? & _).
  unfold initializeData, bind, getItem.
  destruct (match items w !! STORAGE_KEYS.SETTINGS with
            | Some text => negb (String.eqb text "")
            | None => false
            end); [done|].
  step_writes; unfold written, refused, ret; cbn [items fst snd];
    by rewrite ?lookup_insert_ne.
Qed.

Lemma expenses_key_apart :
  EXPENSES_STORAGE_KEY ∉ STORAGE_KEYS.SETTINGS :: sequence_keys.
Proof.
  unfold sequence_keys. rewrite !not_elem_of_cons.
  repeat split; try done. apply not_elem_of_nil.
Qed.

Lemma todos_key_apart :
  TODOS_STORAGE_KEY ∉ STORAGE_KEYS.SETTINGS :: sequence_keys.
Proof.
  unfold sequence_keys. rewrite !not_elem_of_cons.
  repeat split; try done. apply not_elem_of_nil.
Qed.

(** X15: [clearAllData] and [initializeData] write the five keys of the
    storage module and no other; whatever becomes of their writes, the
    sequences the two services read are the same afterwards. *)
Theorem storage_module_spares_services (e : env) (w : world) :
  (∀ key, key ∉ STORAGE_KEYS.SETTINGS :: sequence_keys →
     items (clearAllData e w).2 !! key = items w !! key
     ∧ items (initializeData e w).2 !! key = items w !! key)
  ∧ (getAllExpenses (clearAllData e w).2).1 = (getAllExpenses w).1
  ∧ (getAllTodos (clearAllData e w).2).1 = (getAllTodos w).1
  ∧ (getAllExpenses (initializeData e w).2).1 = (getAllExpenses w).1
  ∧ (getAllTodos (initializeData e w).2).1 = (getAllTodos w).1.
Proof.
  split; [|repeat split].
  - intros key Hkey. split.
    + by apply clearAllData_frame.
    + by apply initializeData_frame.
  - apply getAllExpenses_items, clearAllData_frame, expenses_key_apart.
  - apply getAllTodos_items, clearAllData_frame, todos_key_apart.
  - apply getAllExpenses_items, initializeData_frame, expenses_key_apart.
  - apply getAllTodos_items, initializeData_frame, todos_key_apart.
Qed.

(** [storage.set] always returns; it consumes one answer of the store and
    either leaves the content or stores the text under its key. *)
Lemma storage_set_total key d w :
  ∃ b w', storage_set key d w = (Return b, w')
    ∧ faults w' = tail (faults w)
    ∧ (items w' = items w ∨ items w' = <[key := JSON_stringify d]> (items w)).
Proof.
  rewrite storage_set_run. destruct (next_fails w).
  - exists false, (refused w). split; [done|]. split; [done|]. by left.
  - exists true, (written key (JSON_stringify d) w).
    split; [done|]. split; [done|]. by right.
Qed.

Lemma next_fails_lookup w :
  next_fails w = match faults w !! 0%nat with Some true => true | _ => false end.
Proof. unfold next_fails. by destruct (faults w) as [|[] ?]. Qed.

Lemma reads_empty_kept (m m' : gmap string string) (k key : string) :
  m' = m ∨ m' = <[k := JSON_stringify (JArr [])]> m →
  decode (m !! key) = JArr [] → decode (m' !! key) = JArr [].
Proof.
  intros [->| ->] Hm; [done|].
  destruct (decide (k = key)) as [->|Hne].
  - rewrite lookup_insert_eq. apply decode_stringify. constructor.
  - by rewrite lookup_insert_ne.
Qed.

Lemma settings_kept (m m' : gmap string string) (k text : string) :
  k ≠ STORAGE_KEYS.SETTINGS →
  m' = m ∨ m' = <[k := text]> m →
  m' !! STORAGE_KEYS.SETTINGS = m !! STORAGE_KEYS.SETTINGS.
Proof. intros Hk [->| ->]; [done|]. by rewrite lookup_insert_ne. Qed.

(** X16: when its five writes succeed, [clearAllData] leaves every sequence
    key of the storage module reading as the empty sequence and stores the
    settings record of a fresh store; the store is initialized, and
    [initializeData] changes nothing afterwards. *)
Theorem clear_all_data_resets (e : env) (w : world) :
  writes_succeed 5 w →
  ∃ w', clearAllData e w = (Return tt, w')
    ∧ initialized w'
    ∧ (∀ key, key ∈ sequence_keys → storage_get key w' = (Return (JArr []), w'))
    ∧ decode (items w' !! STORAGE_KEYS.SETTINGS) = JObj (default_settings e)
    ∧ ∀ e', initializeData e' w' = (Return tt, w').
Proof.
  intros Hw. unfold clearAllData, bind.
  apply writes_succeed_S in Hw as [Hok Hw]. rewrite storage_set_run, Hok.
  destruct (writes_succeed_S _ _ (Hw STORAGE_KEYS.TODOS
    (JSON_stringify (JArr [])))) as [Hok1 Hw1].
  rewrite storage_set_run, Hok1.
  destruct (writes_succeed_S _ _ (Hw1 STORAGE_KEYS.EXPENSES
    (JSON_stringify (JArr [])))) as [Hok2 Hw2].
  rewrite storage_set_run, Hok2.
  destruct (writes_succeed_S _ _ (Hw2 STORAGE_KEYS.BUDGETS
    (JSON_stringify (JArr [])))) as [Hok3 Hw3].
  rewrite storage_set_run, Hok3.
  destruct (writes_succeed_S _ _ (Hw3 STORAGE_KEYS.TEMPLATES
    (JSON_stringify (JArr [])))) as [Hok4 _].
  rewrite setItem_run, Hok4.
  eexists. split; [reflexivity|].
  assert (Hinit : initialized
    (written STORAGE_KEYS.SETTINGS (JSON_stringify (JObj (default_settings e)))
       (written STORAGE_KEYS.TEMPLATES (JSON_stringify (JArr []))
          (written STORAGE_KEYS.BUDGETS (JSON_stringify (JArr []))
             (written STORAGE_KEYS.EXPENSES (JSON_stringify (JArr []))
                (written STORAGE_KEYS.TODOS (JSON_stringify (JArr [])) w)))))).
  { eexists. split.
    - rewrite items_written. apply lookup_insert_eq.
    - apply stringify_nonempty, default_settings_storable. }
  split; [exact Hinit|]. split; [|split].
  - intros key Hkey. rewrite storage_get_run, !items_written.
    unfold sequence_keys in Hkey.
    assert (Hempty : decode (Some (JSON_stringify (JArr []))) = JArr [])
      by (apply decode_stringify; constructor).
    repeat (apply elem_of_cons in Hkey as [->|Hkey]);
      [..|by apply elem_of_nil in Hkey];
      rewrite ?lookup_insert_eq, ?(lookup_insert_ne _ _ _ _) by done;
      rewrite ?lookup_insert_eq; by rewrite Hempty.
  - rewrite items_written, lookup_insert_eq.
    apply decode_stringify, default_settings_storable.
  - intros e'. by apply initializeData_present.
Qed.

(** X17: only the write of the settings record can make the storage module
    throw.  On a store that is not initialized, [initializeData] passes the
    exception on when its first write is refused, and the store stays
    uninitialized; when that write succeeds it returns normally and the
    store is initialized whatever becomes of the four writes that follow,
    every sequence key that was absent still reading as the empty sequence.
    [clearAllData] throws exactly when the fifth write is refused. *)
Theorem settings_write_decides (e : env) (w : world) :
  (¬ initialized w → next_fails w = true →
     initializeData e w = (Throw QuotaExceededError, refused w)
     ∧ ¬ initialized (refused w))
  ∧ (¬ initialized w → next_fails w = false →
     ∃ w', initializeData e w = (Return tt, w')
       ∧ initialized w'
       ∧ ∀ key, key ∈ sequence_keys → items w !! key = None →
           storage_get key w' = (Return (JArr []), w'))
  ∧ ∃ w', clearAllData e w =
      (match faults w !! 4%nat with
       | Some true => Throw QuotaExceededError
       | _ => Return tt
       end, w').
Proof.
  assert (Habs : ¬ initialized w →
            match items w !! STORAGE_KEYS.SETTINGS with
            | Some text => negb (String.eqb text "")
            | None => false
            end = false).
  { intros Hno.
    destruct (items w !! STORAGE_KEYS.SETTINGS) as [text|] eqn:Htext; [|done].
    destruct (String.eqb_spec text "") as [->|Hne]; [done|].
    exfalso. apply Hno. by exists text. }
  split; [|split].
  - intros Hno Hko. split; [|done].
    unfold initializeData, bind, getItem. rewrite (Habs Hno).
    by rewrite setItem_run, Hko.
  - intros Hno Hok. unfold initializeData, bind, getItem. rewrite (Habs Hno).
    rewrite setItem_run, Hok.
    set (w0 := written STORAGE_KEYS.SETTINGS
                 (JSON_stringify (JObj (default_settings e))) w).
    destruct (storage_set_total STORAGE_KEYS.TODOS (JArr []) w0)
      as (b1 & w1 & -> & _ & H1).
    destruct (storage_set_total STORAGE_KEYS.EXPENSES (JArr []) w1)
      as (b2 & w2 & -> & _ & H2).
    destruct (storage_set_total STORAGE_KEYS.BUDGETS (JArr []) w2)
      as (b3 & w3 & -> & _ & H3).
    destruct (storage_set_total STORAGE_KEYS.TEMPLATES (JArr []) w3)
      as (b4 & w4 & -> & _ & H4).
    exists w4. split; [reflexivity|]. split.
    + exists (JSON_stringify (JObj (default_settings e))). split.
      * rewrite (settings_kept _ _ STORAGE_KEYS.TEMPLATES _ ltac:(done) H4).
        rewrite (settings_kept _ _ STORAGE_KEYS.BUDGETS _ ltac:(done) H3).
        rewrite (settings_kept _ _ STORAGE_KEYS.EXPENSES _ ltac:(done) H2).
        rewrite (settings_kept _ _ STORAGE_KEYS.TODOS _ ltac:(done) H1).
        apply lookup_insert_eq.
      * apply stringify_nonempty, default_settings_storable.
    + intros key Hkey Hnone. rewrite storage_get_run. do 2 f_equal.
      apply (reads_empty_kept _ _ STORAGE_KEYS.TEMPLATES _ H4).
      apply (reads_empty_kept _ _ STORAGE_KEYS.BUDGETS _ H3).
      apply (reads_empty_kept _ _ STORAGE_KEYS.EXPENSES _ H2).
      apply (reads_empty_kept _ _ STORAGE_KEYS.TODOS _ H1).
      unfold w0. rewrite items_written, lookup_insert_ne, Hnone; [done|].
      intros <-. unfold sequence_keys in Hkey.
      repeat (apply elem_of_cons in Hkey as [Hkey|Hkey]; [done|]).
      by apply elem_of_nil in Hkey.
  - unfold clearAllData, bind.
    destruct (storage_set_total STORAGE_KEYS.TODOS (JArr []) w)
      as (b1 & w1 & -> & F1 & _).
    destruct (storage_set_total STORAGE_KEYS.EXPENSES (JArr []) w1)
      as (b2 & w2 & -> & F2 & _).
    destruct (storage_set_total STORAGE_KEYS.BUDGETS (JArr []) w2)
      as (b3 & w3 & -> & F3 & _).
    destruct (storage_set_total STORAGE_KEYS.TEMPLATES (JArr []) w3)
      as (b4 & w4 & -> & F4 & _).
    rewrite setItem_run, next_fails_lookup, F4, F3, F2, F1.
    rewrite !lookup_tail.
    destruct (faults w !! 4%nat) as [[]|]; by eexists.
Qed.

(** ** The helpers of the storage module *)

Lemma storage_get_doc key w d :
  storage_get key w = (Return d, w) → decode (items w !! key) = d.
Proof. rewrite storage_get_run. by intros [= ->]. Qed.

Lemma storage_get_written key l w :
  Forall (storable_record num_exact) l →
  let w' := written key (JSON_stringify (JArr l)) w in
  storage_get key w' = (Return (JArr l), w').
Proof.
  intros Hl w'. unfold w'. rewrite storage_get_run, items_written, lookup_insert_eq.
  by rewrite decode_stringify.
Qed.

Lemma storage_update_run (e : env) (key : string) (w : world) (id : val)
    (updates : record) (l : list record) i x :
  decode (items w !! key) = JArr l →
  findIndex (λ r, strict_eq (get r "id") id) l = Some i →
  l !! i = Some x →
  let updated :=
    spread (spread x updates) {[ "updated_at" := VStr (getCurrentTimestamp e) ]} in
  storage_update e key id updates w =
    (Return (Some updated),
     if next_fails w then refused w
     else written key (JSON_stringify (JArr (<[i := updated]> l))) w).
Proof.
  intros Hdoc Hfind Hi updated. unfold storage_update, bind.
  rewrite storage_get_run, Hdoc. simpl. rewrite Hfind.
  rewrite (list_lookup_total_correct _ _ _ Hi). fold updated.
  rewrite storage_set_run.
  assert (Hat : <[i := updated]> l !!! i = updated).
  { apply list_lookup_total_correct, list_lookup_insert_eq.
    by eapply lookup_lt_Some. }
  destruct (next_fails w); unfold ret; by rewrite Hat.
Qed.

(** X18: the helpers of the storage module do not report a refused write:
    [storage.add] returns the new item, [storage.update] the updated record
    with its [updated_at] stamp, and [storage.delete] true, while the stored
    sequence stays what it was. *)
Theorem storage_helpers_hide_refused_write (e : env) (key : string) (w : world)
    (id : val) (item updates : record) (l : list record) :
  storage_get key w = (Return (JArr l), w) →
  next_fails w = true →
  storage_add e key item w
    = (Return (spread item {[ "id" := getNextId l;
                              "created_at" := VStr (getCurrentTimestamp e) ]}),
       refused w)
  ∧ (present id l →
     ∃ x, storage_update e key id updates w
          = (Return (Some x), refused w)
        ∧ get x "updated_at" = VStr (getCurrentTimestamp e)
        ∧ ∀ k v, updates !! k = Some v → k ≠ "updated_at" → get x k = v)
  ∧ storage_delete key id w = (Return true, refused w)
  ∧ storage_get key (refused w) = (Return (JArr l), refused w).
Proof.
  intros Hall%storage_get_doc Hko. split; [|split; [|split]].
  - unfold storage_add, bind. rewrite storage_get_run, Hall. simpl.
    by rewrite storage_set_run, Hko.
  - intros Hpr. destruct (present_first id l Hpr) as (i & x & Hfind & Hi & _).
    eexists. split; [|split].
    + rewrite (storage_update_run e key w id updates l i x Hall Hfind Hi), Hko.
      reflexivity.
    + by apply get_spread_l, lookup_singleton_eq.
    + intros k v Hk Hne. rewrite get_spread_r by by apply lookup_singleton_ne.
      by apply get_spread_l.
  - unfold storage_delete, bind. rewrite storage_get_run, Hall. simpl.
    by rewrite storage_set_run, Hko.
  - by rewrite storage_get_run, items_refused, Hall.
Qed.

(** X19: [storage.delete] returns true whenever the key holds an array,
    also when no item carries the identifier (the sequence then reads as
    before) and when the write is refused; after a successful write the
    stored sequence holds the items with another identifier. *)
Theorem storage_delete_always_true (key : string) (w : world) (id : val)
    (l : list record) :
  storage_get key w = (Return (JArr l), w) →
  Forall (storable_record num_exact) l →
  let kept := List.filter (λ r, negb (strict_eq (get r "id") id)) l in
  ∃ w', storage_delete key id w = (Return true, w')
    ∧ storage_get key w' = (Return (JArr (if next_fails w then l else kept)), w')
    ∧ (absent id l → storage_get key w' = (Return (JArr l), w'))
    ∧ absent id kept.
Proof.
  intros Hall%storage_get_doc Hl kept.
  assert (Hkept : Forall (storable_record num_exact) kept) by by apply storable_filter.
  assert (Hrun : storage_delete key id w =
            (Return true, if next_fails w then refused w
                          else written key (JSON_stringify (JArr kept)) w)).
  { unfold storage_delete, bind. rewrite storage_get_run, Hall. simpl.
    fold kept. rewrite storage_set_run. by destruct (next_fails w). }
  eexists. split; [exact Hrun|].
  assert (Hafter : storage_get key
            (if next_fails w then refused w
             else written key (JSON_stringify (JArr kept)) w)
          = (Return (JArr (if next_fails w then l else kept)),
             if next_fails w then refused w
             else written key (JSON_stringify (JArr kept)) w)).
  { destruct (next_fails w).
    - by rewrite storage_get_run, items_refused, Hall.
    - by apply storage_get_written. }
  split; [exact Hafter|]. split; [|apply filter_absent].
  intros Hab. rewrite Hafter. unfold kept. rewrite absent_filter by done.
  by destruct (next_fails w).
Qed.

Section Identifiers.
Context {O : Ordered P}.

Lemma max_step_bound (xs : list num) (m : num) :
  num_eqb m m = true →
  Forall (λ x, num_eqb x x = true) xs →
  let M := fold_left (λ m x, if is_nan m || is_nan x then num_nan
                             else if num_ltb m x then x else m) xs m in
  num_eqb M M = true
  ∧ num_ltb M m = false
  ∧ Forall (λ x, num_ltb M x = false) xs.
Proof.
  intros Hm Hxs. revert m Hm.
  induction Hxs as [|x xs Hx _ IH]; intros m Hm; cbn [fold_left].
  - split; [done|]. split; [|constructor].
    destruct (num_ltb m m) eqn:E; [|done]. by rewrite (num_ltb_asym _ _ E) in E.
  - assert (Hstep : (if is_nan m || is_nan x then num_nan
                      else if num_ltb m x then x else m)
                     = if num_ltb m x then x else m)
      by (unfold is_nan; by rewrite Hm, Hx).
    rewrite Hstep. clear Hstep.
    destruct (num_ltb m x) eqn:Hlt.
    + destruct (IH x Hx) as (HM & HMx & Hrest).
      split; [done|]. split; [|by constructor].
      apply (num_geb_trans _ x m); try done. by apply num_ltb_asym.
    + destruct (IH m Hm) as (HM & HMm & Hrest).
      split; [done|]. split; [done|]. constructor; [|done].
      by apply (num_geb_trans _ m x).
Qed.

Lemma id_number_self (r : record) :
  numeric_id r →
  num_eqb (to_number (js_or (get r "id") (VNum num_zero)))
          (to_number (js_or (get r "id") (VNum num_zero))) = true.
Proof.
  intros [->|(n & -> & Hn)]; simpl; [apply num_zero_self|].
  unfold js_or. simpl. rewrite Hn.
  destruct (num_eqb n num_zero); simpl; [apply num_zero_self|done].
Qed.

Lemma largest_id_bound (items : list record) :
  Forall numeric_id items →
  num_eqb (largest_id items) (largest_id items) = true
  ∧ ∀ r n, r ∈ items → get r "id" = VNum n →
           num_ltb (largest_id items) n = false.
Proof.
  intros Hids. unfold largest_id, Math_max_0.
  destruct (max_step_bound
    (map (λ item, to_number (js_or (get item "id") (VNum num_zero))) items)
    num_zero num_zero_self) as (HM & HM0 & Hall).
  { apply Forall_map. eapply Forall_impl; [exact Hids|].
    intros r Hr. by apply id_number_self. }
  split; [exact HM|]. intros r n Hr Hn.
  rewrite Forall_map, Forall_forall in Hall. specialize (Hall r Hr).
  simpl in Hall. rewrite Hn in Hall. unfold js_or in Hall. simpl in Hall.
  rewrite Forall_forall in Hids. destruct (Hids r Hr) as [Hu|(n' & Hn' & Hself)];
    [congruence|].
  assert (n' = n) as -> by congruence. rewrite Hself in Hall.
  destruct (num_eqb n num_zero) eqn:Hz; simpl in Hall; [|done].
  by rewrite (num_ltb_eqb _ _ _ Hz).
Qed.

(** X20: [storage.add] gives the new item the identifier one above the
    largest stored one, whatever identifier the caller passed, and the
    time of creation.  When the stored identifiers
    are numbers or missing and adding one to the largest gives a larger
    number, no stored item carries the new identifier; after a successful
    write [storage.get] returns the previous sequence followed by the new
    item. *)
Theorem storage_add_appends_fresh_id (e : env) (key : string) (w : world)
    (item : record) (l : list record) :
  storage_get key w = (Return (JArr l), w) →
  Forall (storable_record num_exact) l →
  Forall numeric_id l →
  num_ltb (largest_id l) (num_add (largest_id l) num_one) = true →
  storable_record num_exact
    (spread item {[ "id" := getNextId l;
                    "created_at" := VStr (getCurrentTimestamp e) ]}) →
  next_fails w = false →
  ∃ newItem w', storage_add e key item w = (Return newItem, w')
    ∧ get newItem "id" = VNum (num_add (largest_id l) num_one)
    ∧ get newItem "created_at" = VStr (getCurrentTimestamp e)
    ∧ (∀ k, k ≠ "id" → k ≠ "created_at" → get newItem k = get item k)
    ∧ absent (get newItem "id") l
    ∧ storage_get key w' = (Return (JArr (l ++ [newItem])), w').
Proof.
  intros Hall%storage_get_doc Hl Hids Hnext Hnew Hok.
  set (newItem := spread item {[ "id" := getNextId l;
                                 "created_at" := VStr (getCurrentTimestamp e) ]}) in *.
  assert (Hid : get newItem "id" = VNum (num_add (largest_id l) num_one)).
  { unfold newItem. by erewrite get_spread_l by apply lookup_insert_eq. }
  exists newItem. eexists. split; [|split; [exact Hid|split; [|split; [|split]]]].
  - unfold storage_add, bind. rewrite storage_get_run, Hall. simpl.
    fold newItem. by rewrite storage_set_run, Hok.
  - unfold newItem. apply get_spread_l.
    rewrite lookup_insert_ne by done. apply lookup_singleton_eq.
  - intros k Hk1 Hk2. unfold newItem. apply get_spread_r.
    rewrite lookup_insert_ne by done. by apply lookup_singleton_ne.
  - rewrite Hid. destruct (largest_id_bound l Hids) as [_ Hbound].
    apply Forall_forall. intros r Hr.
    destruct (get r "id") as [| |b|n|s] eqn:Hn; try reflexivity. simpl.
    destruct (num_eqb n (num_add (largest_id l) num_one)) eqn:Heq; [|done].
    pose proof (Hbound r n Hr Hn) as Hle.
    rewrite (num_ltb_eqb _ _ _ Heq) in Hle. congruence.
  - apply storage_get_written. by apply storable_app.
Qed.

End Identifiers.

(** ** The month the finance page shows *)

(** X21: [changeMonth(1)] and [changeMonth(-1)] move the month the finance
    page shows by one month of the calendar: the month stays between 0 and
    11, the year changes at the turn of the year only, and going one way and
    then the other comes back to the month left. *)
Theorem change_month_steps (month year delta : Z) :
  0 <= month <= 11 →
  delta = 1 ∨ delta = -1 →
  0 <= (changeMonth month year delta).1 <= 11
  ∧ 12 * (changeMonth month year delta).2 + (changeMonth month year delta).1
    = 12 * year + month + delta
  ∧ changeMonth (changeMonth month year delta).1 (changeMonth month year delta).2
      (- delta)
    = (month, year).
Proof.
  intros Hm Hd. unfold changeMonth.
  destruct Hd as [-> | ->];
    repeat (match goal with |- context [?a <? ?b] =>
              destruct (Z.ltb_spec a b) end; cbn [fst snd] in *);
    repeat split; try lia; f_equal; lia.
Qed.

(** ** Category statistics and the category query *)

Lemma count_sum_insert (stats : gmap string category_entry) key entry :
  stats !! key = None →
  count_sum (<[key := entry]> stats) = (count entry + count_sum stats)%nat.
Proof.
  intros Hkey. unfold count_sum. rewrite map_fold_insert_L; [done| |done].
  intros. lia.
Qed.

Lemma count_sum_step (acc : gmap string category_entry) (r : record) :
  (∀ k, is_method k = true → acc !! k = None) →
  (∀ k, is_method k = true → filed_step acc r !! k = None)
  ∧ count_sum (filed_step acc r)
    = ((if is_method (category_key r) then 0 else 1) + count_sum acc)%nat.
Proof.
  intros Hacc. unfold filed_step.
  destruct (acc !! category_key r) as [entry|] eqn:Hkey.
  - destruct (is_method (category_key r)) eqn:Hm;
      [by rewrite (Hacc _ Hm) in Hkey|].
    split.
    + intros k Hk. rewrite lookup_insert_ne by congruence. by apply Hacc.
    + rewrite <- (insert_delete_id acc _ _ Hkey) at 2.
      rewrite <- insert_delete_eq.
      rewrite !count_sum_insert by apply lookup_delete_eq. simpl. lia.
  - destruct (is_method (category_key r)) eqn:Hm; [done|].
    split.
    + intros k Hk. rewrite lookup_insert_ne by congruence. by apply Hacc.
    + by rewrite count_sum_insert.
Qed.

Lemma count_sum_fold (l : list record) (acc : gmap string category_entry) :
  (∀ k, is_method k = true → acc !! k = None) →
  count_sum (fold_left filed_step l acc) = (length (filed l) + count_sum acc)%nat.
Proof.
  revert acc. induction l as [|r l IH]; intros acc Hacc; simpl; [done|].
  destruct (count_sum_step acc r Hacc) as [Hnext Hcount].
  rewrite (IH _ Hnext), Hcount.
  destruct (is_method (category_key r)); simpl; lia.
Qed.

(** X22: in a page where no record has the category [__proto__] and the
    prototype holds nothing truthy under [count] and [total], the counts of
    the category statistics add up to the number of grouped records whose
    category is not the name of an inherited method; they add up to the
    number of grouped records exactly when no category is such a name.  The
    categories listed are the ones some grouped record has that are no
    such name. *)
Theorem category_counts_add_up (w : world) (ty : val) (l : list record)
    (proto : prototype) :
  getAllExpenses w = (Return (JArr l), w) →
  harmless proto →
  Forall (λ r, category_key r ≠ "__proto__") (records_grouped ty l) →
  ∃ stats, getCategoryStats ty proto w = (Return stats, proto, w)
    ∧ count_sum stats = length (filed (records_grouped ty l))
    ∧ (count_sum stats = length (records_grouped ty l)
       ↔ Forall (λ r, is_method (category_key r) = false) (records_grouped ty l))
    ∧ ∀ c, is_Some (stats !! c)
           ↔ is_method c = false
             ∧ ∃ r, r ∈ records_grouped ty l ∧ category_key r = c.
Proof.
  intros Hall%getAllExpenses_doc Hproto Hl.
  exists (fold_left filed_step (records_grouped ty l) ∅).
  assert (Hsum : count_sum (fold_left filed_step (records_grouped ty l) ∅)
                 = length (filed (records_grouped ty l))).
  { rewrite count_sum_fold by (intros; apply lookup_empty).
    unfold count_sum. rewrite map_fold_empty. lia. }
  split; [by apply getCategoryStats_run|]. split; [exact Hsum|]. split.
  - rewrite Hsum. unfold filed. split.
    + intros Hlen%filter_length_eq. eapply Forall_impl; [exact Hlen|].
      intros r. simpl. by destruct (is_method (category_key r)).
    + intros Hnone. rewrite filter_all; [done|].
      eapply Forall_impl; [exact Hnone|]. intros r. simpl. by intros ->.
  - intros c. rewrite fold_filed_step, lookup_empty. unfold entry_after.
    destruct (is_method c); [split; [by intros [? ?]|by intros [? _]]|].
    destruct (List.filter (in_category c) (records_grouped ty l))
      as [|first rest] eqn:Hmembers.
    + split; [by intros [? ?]|]. intros (_ & r & Hr & Hc).
      assert (Hin : r ∈ List.filter (in_category c) (records_grouped ty l)).
      { apply list_elem_of_In, filter_In. split; [by apply list_elem_of_In|].
        unfold in_category. by apply String.eqb_eq. }
      rewrite Hmembers in Hin. by apply elem_of_nil in Hin.
    + split; [|by eexists]. intros _. split; [done|]. exists first.
      assert (Hin : first ∈ List.filter (in_category c) (records_grouped ty l))
        by (rewrite Hmembers; apply elem_of_cons; by left).
      apply list_elem_of_In, filter_In in Hin as [Hin Hc].
      split; [by apply list_elem_of_In|]. by apply String.eqb_eq.
Qed.

(** X23: when every record has a string as category, none of them
    [__proto__], and the prototype holds nothing truthy under [count] and
    [total], the entry of a category in the category statistics describes
    the records [getExpensesByCategory] returns for it: their number, the
    sum of their amounts and the type of the first; no entry when there is
    none.  A category named like an inherited method has no entry, whatever
    the query returns for it. *)
Theorem category_query_matches_stats (w : world) (c : string) (l : list record)
    (proto : prototype) :
  getAllExpenses w = (Return (JArr l), w) →
  Forall (λ r, ∃ k, get r "category" = VStr k ∧ k ≠ "__proto__") l →
  harmless proto →
  ∃ stats found,
    getCategoryStats VNull proto w = (Return stats, proto, w)
    ∧ getExpensesByCategory (VStr c) w = (Return found, w)
    ∧ stats !! c
      = if is_method c then None
        else match found with
             | [] => None
             | first :: _ =>
                 Some {| count := length found;
                         total := sum_amounts found;
                         type := get first "type" |}
             end.
Proof.
  intros Hall%getAllExpenses_doc Hcat Hproto.
  exists (fold_left filed_step l ∅),
    (List.filter (λ r, strict_eq (get r "category") (VStr c)) l).
  split; [|split].
  - apply (getCategoryStats_run w VNull proto l Hall Hproto).
    eapply Forall_impl; [exact Hcat|].
    intros r (k & Hk & Hne). unfold category_key. by rewrite Hk.
  - unfold getExpensesByCategory, bind. by rewrite loadExpenses_run, Hall.
  - rewrite fold_filed_step, lookup_empty. unfold entry_after.
    assert (Hsame : List.filter (in_category c) l
                    = List.filter (λ r, strict_eq (get r "category") (VStr c)) l).
    { apply filter_ext_Forall. eapply Forall_impl; [exact Hcat|].
      intros r (k & Hk & _). unfold in_category. by rewrite Hk. }
    by rewrite Hsame.
Qed.

(** ** The month totals of the finance page and [getMonthlyStats] *)

Lemma filter_js_pure {A} (p : A → js bool) (q : A → bool) (l : list A) w :
  Forall (λ x, ∀ w, p x w = (Return (q x), w)) l →
  filter_js p l w = (Return (List.filter q l), w).
Proof.
  induction 1 as [|x l Hx _ IH]; simpl; [done|].
  unfold bind. rewrite Hx, IH. unfold ret. by destruct (q x).
Qed.

Lemma prefix_same_length (a b s : string) :
  String.length a = String.length b →
  String.prefix a (b +:+ s) = String.eqb a b.
Proof.
  revert b. induction a as [|c a IH]; intros [|c' b]; simpl; try done.
  - intros _. by destruct s.
  - intros [= Hlen]. destruct (ascii_dec c c') as [->|Hne].
    + rewrite Ascii.eqb_refl. by apply IH.
    + by rewrite (proj2 (Ascii.eqb_neq c c') Hne).
Qed.

Lemma ascii_compare_refl (c : ascii) : Ascii.compare c c = Eq.
Proof.
  pose proof (Ascii.compare_antisym c c) as Hc.
  destruct (Ascii.compare c c); simpl in Hc; congruence.
Qed.

Lemma compare_app_same (a s t : string) :
  String.compare (a +:+ s) (a +:+ t) = String.compare s t.
Proof. induction a as [|c a IH]; simpl; [done|]. by rewrite ascii_compare_refl. Qed.

Lemma compare_app_apart (a b s t : string) :
  String.length a = String.length b → a ≠ b →
  String.compare (a +:+ s) (b +:+ t) = String.compare a b
  ∧ String.compare a b ≠ Eq.
Proof.
  revert b. induction a as [|c a IH]; intros [|c' b]; simpl; try done.
  intros [= Hlen] Hne. destruct (Ascii.compare c c') eqn:Hc; [|done..].
  apply Ascii.compare_eq_iff in Hc as ->. apply IH; [done|]. congruence.
Qed.

Lemma app_inj_length (a b s t : string) :
  String.length a = String.length b → a +:+ s = b +:+ t → a = b ∧ s = t.
Proof.
  revert b. induction a as [|c a IH]; intros [|c' b]; simpl; try done.
  intros [= Hlen] [= -> Heq]. destruct (IH b Hlen Heq) as [-> ->]. done.
Qed.

Lemma length_app_string (a b : string) :
  String.length (a +:+ b) = (String.length a + String.length b)%nat.
Proof. induction a as [|c a IH]; simpl; [done|]. by rewrite IH. Qed.

Lemma Z_to_string_inj (a b : Z) : Z_to_string a = Z_to_string b → a = b.
Proof.
  intros Heq. pose proof (IntegerPlatformFacts.literal_Z_to_string a) as Ha.
  rewrite Heq, IntegerPlatformFacts.literal_Z_to_string in Ha. congruence.
Qed.

Lemma all_from_spec n start p :
  all_from n start p = true → ∀ z, start <= z < start + Z.of_nat n → p z = true.
Proof.
  revert start. induction n as [|n IH]; intros start; simpl; [lia|].
  intros [Hp Hrest]%andb_true_iff z Hz.
  destruct (decide (z = start)) as [->|Hne]; [done|].
  apply (IH (start + 1)); [done|lia].
Qed.

Lemma four_digit_years_hold : four_digit_years = true.
Proof. vm_compute. reflexivity. Qed.

Lemma two_digit_order_holds : two_digit_order = true.
Proof. vm_compute. reflexivity. Qed.

Lemma year_length (y : Z) :
  1000 <= y <= 9999 → String.length (Z_to_string y) = 4%nat.
Proof.
  intros Hy. apply Nat.eqb_eq.
  apply (all_from_spec _ _ _ four_digit_years_hold). lia.
Qed.

Lemma two_digits_facts (a b : Z) :
  0 <= a <= 99 → 0 <= b <= 99 →
  String.length (two_digits a) = 2%nat
  ∧ (a <= b → String.leb (two_digits a) (two_digits b) = true)
  ∧ (two_digits a = two_digits b → a = b).
Proof.
  intros Ha Hb.
  pose proof (all_from_spec _ _ _ two_digit_order_holds a ltac:(lia)) as Hall.
  apply andb_true_iff in Hall as [Hlen Hpairs].
  pose proof (all_from_spec _ _ _ Hpairs b ltac:(lia)) as Hpair.
  apply andb_true_iff in Hpair as [Hle Heq].
  split; [by apply Nat.eqb_eq|]. split.
  - intros Hab. destruct (Z.leb_spec a b); [done|lia].
  - intros Hsame. rewrite Hsame, String.eqb_refl in Heq. simpl in Heq.
    by apply Z.eqb_eq.
Qed.

Lemma iso_date_split (y m d : Z) :
  iso_date y m d = monthStr y (m - 1) +:+ ("-" +:+ two_digits d).
Proof.
  unfold iso_date, monthStr, two_digits. replace (m - 1 + 1) with m by lia.
  by rewrite <- !IntegerPlatformFacts.append_assoc.
Qed.

Lemma monthStr_length (y m : Z) :
  1000 <= y <= 9999 → 0 <= m <= 11 → String.length (monthStr y m) = 7%nat.
Proof.
  intros Hy Hm. unfold monthStr. rewrite !length_app_string, year_length by done.
  fold (two_digits (m + 1)).
  destruct (two_digits_facts (m + 1) (m + 1)) as [-> _]; [lia..|done].
Qed.

Lemma monthStr_inj (y m y' m' : Z) :
  1000 <= y <= 9999 → 0 <= m <= 11 → 1000 <= y' <= 9999 → 0 <= m' <= 11 →
  monthStr y m = monthStr y' m' → y = y' ∧ m = m'.
Proof.
  intros Hy Hm Hy' Hm'. unfold monthStr. intros Heq.
  apply app_inj_length in Heq as [Hyear Hrest];
    [|by rewrite !year_length].
  apply Z_to_string_inj in Hyear as ->. split; [done|].
  apply (app_inj_length "-" "-") in Hrest as [_ Hrest]; [|done].
  fold (two_digits (m + 1)) (two_digits (m' + 1)) in Hrest.
  destruct (two_digits_facts (m + 1) (m' + 1)) as (_ & _ & Hinj); [lia..|].
  specialize (Hinj Hrest). lia.
Qed.

Lemma days_in_month_range (y m : Z) :
  1 <= m <= 12 → 28 <= days_in_month y m <= 31.
Proof.
  intros Hm. unfold days_in_month.
  assert (m = 1 ∨ m = 2 ∨ m = 3 ∨ m = 4 ∨ m = 5 ∨ m = 6 ∨ m = 7 ∨ m = 8
          ∨ m = 9 ∨ m = 10 ∨ m = 11 ∨ m = 12) as Hcases by lia.
  repeat (destruct Hcases as [->|Hcases]); try subst m;
    try destruct (is_leap_year y); lia.
Qed.

(** On a calendar date, starting with the text of a month is lying between
    the first and the last day of that month. *)
Lemma month_prefix_is_range (y m : Z) (r : record) :
  1000 <= y <= 9999 → 0 <= m <= 11 → calendar_date r →
  String.prefix (monthStr y m) (date_of r)
  = within (Some (firstDayOf y (m + 1))) (Some (lastDayOf y (m + 1))) r.
Proof.
  intros Hy Hm (y' & m' & d' & Hdate & Hy' & Hm' & Hd').
  unfold within, date_of. rewrite Hdate.
  unfold firstDayOf, lastDayOf. rewrite !iso_date_split.
  replace (m + 1 - 1) with m by lia.
  pose proof (days_in_month_range y' m' Hm') as Hlast'.
  pose proof (days_in_month_range y (m + 1) ltac:(lia)) as Hlast.
  pose proof (monthStr_length y m Hy Hm) as Hlen.
  pose proof (monthStr_length y' (m' - 1) Hy' ltac:(lia)) as Hlen'.
  rewrite prefix_same_length by congruence.
  destruct (String.eqb_spec (monthStr y m) (monthStr y' (m' - 1))) as [Heq|Hne].
  - destruct (monthStr_inj y m y' (m' - 1)) as [-> Hmonth]; [lia..|done|].
    assert (m' = m + 1) as -> by lia. replace (m + 1 - 1) with m by lia.
    unfold String.leb. rewrite !compare_app_same.
    destruct (two_digits_facts 1 d') as (_ & Hfirst & _); [lia..|].
    destruct (two_digits_facts d' (days_in_month y' (m + 1))) as (_ & Hend & _);
      [lia..|].
    specialize (Hfirst ltac:(lia)). specialize (Hend ltac:(lia)).
    unfold String.leb in Hfirst, Hend.
    destruct (String.compare (two_digits 1) (two_digits d')); [| |done];
      by destruct (String.compare (two_digits d')
                     (two_digits (days_in_month y' (m + 1)))).
  - unfold String.leb.
    destruct (compare_app_apart (monthStr y m) (monthStr y' (m' - 1))
                ("-" +:+ two_digits 1) ("-" +:+ two_digits d')) as [-> Hcmp];
      [congruence|done|].
    destruct (compare_app_apart (monthStr y' (m' - 1)) (monthStr y m)
                ("-" +:+ two_digits d')
                ("-" +:+ two_digits (days_in_month y (m + 1)))) as [-> _];
      [congruence|congruence|].
    rewrite (String.compare_antisym (monthStr y m) (monthStr y' (m' - 1))) in *.
    destruct (String.compare (monthStr y' (m' - 1)) (monthStr y m));
      simpl in *; congruence.
Qed.

(** X24: the month totals of the finance page, taken from the records whose
    date starts with the text of the month, are the totals
    [getMonthlyStats] computes over the range of that month, when every
    record is dated by a calendar date with a year of four digits and the
    zone has the midnight beginning the last day of the month; the year
    shown has four digits and the month is counted from 0. *)
Theorem month_total_matches_monthly_stats (e : env) (year month : Z)
    (w : world) (l : list record) :
  1000 <= year <= 9999 →
  0 <= month <= 11 →
  midnight_kept e (last_day_number year (month + 1)) →
  getAllExpenses w = (Return (JArr l), w) →
  Forall calendar_date l →
  ∃ s, getMonthlyStats e year (month + 1) w = (Return s, w)
    ∧ monthTotal year month w = (Return (totalIncome s, totalExpense s), w)
    ∧ monthExpenses year month w
      = (Return (List.filter (λ r, String.prefix (monthStr year month) (date_of r)) l),
         w)
    ∧ totalCount s
      = length (List.filter (λ r, String.prefix (monthStr year month) (date_of r)) l).
Proof.
  intros Hy Hm [Hclip Hday] Hall Hdates.
  set (shown := List.filter (λ r, String.prefix (monthStr year month) (date_of r)) l).
  assert (Hshown : monthExpenses year month w = (Return shown, w)).
  { unfold monthExpenses, bind. rewrite Hall. simpl.
    apply filter_js_pure. eapply Forall_impl; [exact Hdates|].
    intros r (y' & m' & d' & Hdate & _) w0. unfold date_of. by rewrite Hdate. }
  assert (Hrange : List.filter
            (within (Some (firstDayOf year (month + 1)))
                    (Some (lastDayOf year (month + 1)))) l = shown).
  { symmetry. apply filter_ext_Forall. eapply Forall_impl; [exact Hdates|].
    intros r Hr. by apply month_prefix_is_range. }
  apply getAllExpenses_doc in Hall.
  exists (summary shown). split; [|split; [|split; [exact Hshown|done]]].
  - unfold getMonthlyStats.
    destruct (Z.eqb_spec year 0) as [|_]; [lia|].
    destruct (Z.eqb_spec (month + 1) 0) as [|_]; [lia|].
    rewrite DateFacts.getDate_of_last_day by (done || lia).
    fold (two_digits (month + 1)) (two_digits (days_in_month year (month + 1))).
    change (Z_to_string year +:+ "-" +:+ two_digits (month + 1) +:+ "-01")
      with (firstDayOf year (month + 1)).
    change (Z_to_string year +:+ "-" +:+ two_digits (month + 1) +:+ "-"
            +:+ two_digits (days_in_month year (month + 1)))
      with (lastDayOf year (month + 1)).
    rewrite (getExpenseStats_run w _ _ l Hall).
    assert (Hne : ∀ y m d, iso_date y m d ≠ "").
    { intros y m d. rewrite iso_date_split. unfold monthStr.
      destruct (IntegerPlatformFacts.Z_to_string_shape y) as (c & t & -> & _).
      done. }
    unfold js_or. rewrite !truthy_VStr by apply Hne. do 3 f_equal.
    rewrite <- Hrange. apply filter_ext_Forall.
    eapply Forall_impl; [exact Hdates|].
    intros r (y' & m' & d' & Hdate & _).
    rewrite <- (range_filter (Some (firstDayOf year (month + 1)))
                  (Some (lastDayOf year (month + 1))) r);
      [|intros [= E]; by apply Hne in E..|by eexists].
    simpl bound. by rewrite !truthy_VStr by apply Hne.
  - unfold monthTotal, bind. by rewrite Hshown.
Qed.

(** ** Searching *)

Lemma includes_empty (s : string) : includes s "" = true.
Proof. by destruct s. Qed.

Lemma filter_js_throws {A} (p : A → js bool) (q : A → bool) (pre post : list A)
    (x : A) (e : exn) w :
  Forall (λ y, ∀ w, p y w = (Return (q y), w)) pre →
  p x w = (Throw e, w) →
  filter_js p (pre ++ x :: post) w = (Throw e, w).
Proof.
  intros Hpre Hx. induction Hpre as [|y pre Hy _ IH]; simpl.
  - unfold bind. by rewrite Hx.
  - unfold bind. rewrite Hy. unfold bind in IH. by rewrite IH.
Qed.

Section Searching.
Variable toLowerCase : string → string.
Hypothesis toLowerCase_empty : toLowerCase "" = "".

(** X25: searching for the empty keyword returns every record, provided
    each has a string as description (as text, for a todo); a keyword that
    is not a string makes the search throw a TypeError, and so does a record
    without such a string that the search reaches. *)
Theorem search_edge_cases (w : world) (l : list record) :
  (getAllExpenses w = (Return (JArr l), w) →
     (Forall (λ r, ∃ d, get r "description" = VStr d) l →
      searchExpenses toLowerCase (VStr "") w = (Return l, w))
     ∧ (∀ keyword, (∀ k, keyword ≠ VStr k) →
          searchExpenses toLowerCase keyword w = (Throw TypeError, w))
     ∧ (∀ pre r post k, l = pre ++ r :: post →
          Forall (λ x, ∃ d c, get x "description" = VStr d
                              ∧ get x "category" = VStr c) pre →
          (∀ d, get r "description" ≠ VStr d) →
          searchExpenses toLowerCase (VStr k) w = (Throw TypeError, w)))
  ∧ (getAllTodos w = (Return (JArr l), w) →
     (Forall (λ r, ∃ d, get r "text" = VStr d) l →
      searchTodos toLowerCase (VStr "") w = (Return l, w))
     ∧ (∀ keyword, (∀ k, keyword ≠ VStr k) →
          searchTodos toLowerCase keyword w = (Throw TypeError, w))
     ∧ (∀ pre r post k, l = pre ++ r :: post →
          Forall (λ x, ∃ d c, get x "text" = VStr d
                              ∧ get x "category" = VStr c) pre →
          (∀ d, get r "text" ≠ VStr d) →
          searchTodos toLowerCase (VStr k) w = (Throw TypeError, w))).
Proof.
  split.
  - intros Hall%getAllExpenses_doc. split; [|split].
    + intros Hdesc. unfold searchExpenses, bind.
      rewrite loadExpenses_run, Hall. simpl. rewrite toLowerCase_empty.
      rewrite (filter_js_pure _ (λ _, true));
        [rewrite filter_all; [done|by apply Forall_forall]|].
      eapply Forall_impl; [exact Hdesc|]. intros r [d Hd] w0.
      unfold bind. rewrite Hd. simpl. by rewrite includes_empty.
    + intros keyword Hk. unfold searchExpenses, bind.
      rewrite loadExpenses_run, Hall.
      destruct keyword as [| | | |k]; try done. by destruct (Hk k).
    + intros pre r post k -> Hpre Hr. unfold searchExpenses, bind.
      rewrite loadExpenses_run, Hall. simpl.
      apply (filter_js_throws _
        (λ x, includes (toLowerCase (text_of (get x "description")))
                       (toLowerCase k)
              || includes (toLowerCase (text_of (get x "category")))
                          (toLowerCase k))).
      * eapply Forall_impl; [exact Hpre|]. intros x (d & c & Hd & Hc) w0.
        unfold bind. rewrite Hd, Hc. simpl.
        by destruct (includes (toLowerCase d) (toLowerCase k)).
      * unfold bind. destruct (get r "description") as [| | | |d]; try done.
        by destruct (Hr d).
  - intros Hall%getAllTodos_doc. split; [|split].
    + intros Hdesc. unfold searchTodos, bind.
      rewrite loadTodos_run, Hall. simpl. rewrite toLowerCase_empty.
      rewrite (filter_js_pure _ (λ _, true));
        [rewrite filter_all; [done|by apply Forall_forall]|].
      eapply Forall_impl; [exact Hdesc|]. intros r [d Hd] w0.
      unfold bind. rewrite Hd. simpl. by rewrite includes_empty.
    + intros keyword Hk. unfold searchTodos, bind.
      rewrite loadTodos_run, Hall.
      destruct keyword as [| | | |k]; try done. by destruct (Hk k).
    + intros pre r post k -> Hpre Hr. unfold searchTodos, bind.
      rewrite loadTodos_run, Hall. simpl.
      apply (filter_js_throws _
        (λ x, includes (toLowerCase (text_of (get x "text")))
                       (toLowerCase k)
              || includes (toLowerCase (text_of (get x "category")))
                          (toLowerCase k))).
      * eapply Forall_impl; [exact Hpre|]. intros x (d & c & Hd & Hc) w0.
        unfold bind. rewrite Hd, Hc. simpl.
        by destruct (includes (toLowerCase d) (toLowerCase k)).
      * unfold bind. destruct (get r "text") as [| | | |d]; try done.
        by destruct (Hr d).
Qed.

End Searching.

(** ** Toggling without a boolean flag *)

(** X26: two successful toggles of a todo leave its completion flag at the
    boolean its former value counted as, the first toggle returning the
    opposite; the stored sequence is the former one with that record.  A
    todo stored without the flag therefore does not come back as it was. *)
Theorem double_toggle_settles_flag (w : world) (id : val) (l : list record) :
  getAllTodos w = (Return (JArr l), w) →
  Forall (storable_record num_exact) l →
  present id l →
  writes_succeed 2 w →
  ∃ i x r1 r2 w1 w2,
    l !! i = Some x
    ∧ strict_eq (get x "id") id = true
    ∧ toggleTodo id w = (Return (Some r1), w1)
    ∧ toggleTodo id w1 = (Return (Some r2), w2)
    ∧ r1 = <["completed" := VBool (negb (truthy (get x "completed")))]> x
    ∧ r2 = <["completed" := VBool (truthy (get x "completed"))]> x
    ∧ getAllTodos w2 = (Return (JArr (<[i := r2]> l)), w2)
    ∧ (x !! "completed" = None → r2 ≠ x).
Proof.
  intros Hall%getAllTodos_doc Hl Hpr Hw.
  destruct (present_first id l Hpr) as (i & x & Hfind & Hi & Hx & _).
  apply writes_succeed_S in Hw as [Hok Hw].
  set (r1 := <["completed" := VBool (negb (truthy (get x "completed")))]> x).
  set (r2 := <["completed" := VBool (truthy (get x "completed"))]> x).
  set (l1 := <[i := r1]> l).
  set (w1 := written TODOS_STORAGE_KEY (JSON_stringify (JArr l1)) w).
  set (w2 := written TODOS_STORAGE_KEY (JSON_stringify (JArr (<[i := r2]> l))) w1).
  assert (Hxs : storable_record num_exact x).
  { rewrite Forall_forall in Hl. apply Hl. by eapply list_elem_of_lookup_2. }
  assert (Hl1 : Forall (storable_record num_exact) l1).
  { apply storable_insert; [done|]. by apply storable_record_insert. }
  assert (Hl2 : Forall (storable_record num_exact) (<[i := r2]> l)).
  { apply storable_insert; [done|]. by apply storable_record_insert. }
  assert (Hdoc1 : decode (items w1 !! TODOS_STORAGE_KEY) = JArr l1).
  { apply getAllTodos_doc with (w := w1). by apply getAllTodos_written. }
  assert (Hfind1 : findIndex (λ todo, strict_eq (get todo "id") id) l1 = Some i).
  { unfold l1. rewrite (findIndex_ext _ l i x r1 Hi); [done|].
    unfold r1. by rewrite get_insert_ne. }
  assert (Hi1 : l1 !! i = Some r1).
  { apply list_lookup_insert_eq. by eapply lookup_lt_Some. }
  assert (Hok1 : next_fails w1 = false).
  { by destruct (writes_succeed_S _ _
      (Hw TODOS_STORAGE_KEY (JSON_stringify (JArr l1)))). }
  assert (Hr2 : <["completed" := js_not (get r1 "completed")]> r1 = r2).
  { unfold r1, r2, js_not. rewrite get_insert_eq, insert_insert_eq. simpl.
    by rewrite negb_involutive. }
  exists i, x, r1, r2, w1, w2. split; [done|]. split; [done|].
  split; [|split; [|split; [done|split; [done|split]]]].
  - by rewrite (toggleTodo_run w id l i x Hall Hfind Hi), Hok.
  - rewrite (toggleTodo_run w1 id l1 i r1 Hdoc1 Hfind1 Hi1), Hok1, Hr2.
    unfold l1. by rewrite list_insert_insert_eq.
  - by apply getAllTodos_written.
  - intros Hnone Heq. unfold r2 in Heq.
    assert (Hsome : x !! "completed" = Some (VBool (truthy (get x "completed"))))
      by (rewrite <- Heq at 1; apply lookup_insert_eq).
    congruence.
Qed.

(** ** Totals are built with [+] *)

Lemma fold_add_numbers (items : list record) (amounts : list num) (start : num) :
  map (λ r, get r "amount") items = map VNum amounts →
  fold_left (λ sum item, js_add sum (get item "amount")) items (VNum start)
  = VNum (fold_left num_add amounts start).
Proof.
  revert amounts start. induction items as [|r items IH];
    intros [|n amounts] start; simpl; try done.
  intros [= Hr Hrest]. rewrite Hr. simpl. by apply IH.
Qed.

Lemma fold_add_strings (items : list record) (amounts : list string) (start : string) :
  map (λ r, get r "amount") items = map VStr amounts →
  fold_left (λ sum item, js_add sum (get item "amount")) items (VStr start)
  = VStr (start +:+ joined amounts).
Proof.
  revert amounts start. induction items as [|r items IH];
    intros [|a amounts] start; simpl; try done.
  - intros _. by rewrite IntegerPlatformFacts.append_nil_r.
  - intros [= Hr Hrest]. rewrite Hr. simpl. rewrite (IH amounts) by done.
    by rewrite IntegerPlatformFacts.append_assoc.
Qed.

(** X27: the totals are built with JavaScript's [+] from 0: over amounts
    that are numbers they are the sum, over amounts that are strings the
    text of 0 followed by the amounts one after the other. *)
Theorem totals_follow_plus (w : world) (l : list record) :
  getAllExpenses w = (Return (JArr l), w) →
  ∃ s, getExpenseStats VNull VNull w = (Return s, w)
    ∧ (∀ amounts : list num,
         map (λ r, get r "amount") (List.filter is_income l) = map VNum amounts →
         totalIncome s = VNum (fold_left num_add amounts num_zero))
    ∧ (∀ amounts : list string,
         amounts ≠ [] →
         map (λ r, get r "amount") (List.filter is_income l) = map VStr amounts →
         totalIncome s = VStr (num_to_string num_zero +:+ joined amounts))
    ∧ (∀ amounts : list num,
         map (λ r, get r "amount") (List.filter is_expense l) = map VNum amounts →
         totalExpense s = VNum (fold_left num_add amounts num_zero))
    ∧ (∀ amounts : list string,
         amounts ≠ [] →
         map (λ r, get r "amount") (List.filter is_expense l) = map VStr amounts →
         totalExpense s = VStr (num_to_string num_zero +:+ joined amounts)).
Proof.
  intros Hall%getAllExpenses_doc. exists (summary l). split.
  { unfold getExpenseStats, bind. by rewrite loadExpenses_run, Hall. }
  assert (Hstrings : ∀ (items : list record) (amounts : list string),
    amounts ≠ [] → map (λ r, get r "amount") items = map VStr amounts →
    sum_amounts items = VStr (num_to_string num_zero +:+ joined amounts)).
  { intros [|r items] [|a amounts] Hne; simpl; try done.
    intros [= Hr Hrest]. unfold sum_amounts. simpl. rewrite Hr. simpl.
    rewrite (fold_add_strings items amounts) by done.
    by rewrite IntegerPlatformFacts.append_assoc. }
  simpl. repeat split.
  - intros amounts. apply fold_add_numbers.
  - intros amounts. apply Hstrings.
  - intros amounts. apply fold_add_numbers.
  - intros amounts. apply Hstrings.
Qed.

(** ** An empty bound *)

(** X30: for the statistics an empty string as bound or as date counts as
    no bound and no date at all, while the queries take it as a date: over
    records (todos) dated by non-empty strings, [getExpenseStats("", "")]
    and [getTodoStats("")] count every one of them, and
    [getExpensesByDateRange("", "")] and [getTodosByDate("")] return none. *)
Theorem empty_bound_is_no_bound (w : world) (l : list record) :
  (∀ b, getExpenseStats (VStr "") b w = getExpenseStats VNull b w
        ∧ getExpenseStats b (VStr "") w = getExpenseStats b VNull w)
  ∧ getTodoStats (IsoDate "") w = getTodoStats NoDate w
  ∧ (Forall (λ r, ∃ d, get r "date" = VStr d ∧ d ≠ "") l →
     (getAllExpenses w = (Return (JArr l), w) →
      getExpensesByDateRange (VStr "") (VStr "") w = (Return [], w)
      ∧ ∃ s, getExpenseStats (VStr "") (VStr "") w = (Return s, w)
          ∧ totalCount s = length l)
     ∧ (getAllTodos w = (Return (JArr l), w) →
        getTodosByDate (IsoDate "") w = (Return [], w)
        ∧ ∃ s, getTodoStats (IsoDate "") w = (Return s, w)
            ∧ TodoStats.total s = length l)).
Proof.
  split; [|split; [reflexivity|]].
  - intros b. split; [reflexivity|].
    unfold getExpenseStats, js_or. by destruct (truthy b).
  - intros Hdates.
    assert (Hnone : ∀ (p : record → bool) (k : list record),
              Forall (λ r, p r = false) k → List.filter p k = []).
    { intros p k Hk. induction Hk as [|r rest Hr _ IH]; [done|].
      cbn [List.filter]. by rewrite Hr. }
    split.
    + intros Hall%getAllExpenses_doc. split.
      * unfold getExpensesByDateRange, bind. rewrite loadExpenses_run, Hall. simpl.
        rewrite Hnone; [done|]. eapply Forall_impl; [exact Hdates|].
        intros r (d & Hd & Hne). rewrite Hd. unfold js_le. simpl.
        destruct d; [done|]. apply andb_false_r.
      * exists (summary l). split; [|done].
        by rewrite (getExpenseStats_run w _ _ l Hall).
    + intros Hall%getAllTodos_doc. split.
      * unfold getTodosByDate, bind. rewrite loadTodos_run, Hall. simpl.
        rewrite Hnone; [done|]. eapply Forall_impl; [exact Hdates|].
        intros r (d & Hd & Hne). rewrite Hd. simpl. by destruct d.
      * exists (todo_summary l). split; [|done].
        by rewrite (getTodoStats_run w (IsoDate "") l Hall).
Qed.

(** ** Clearing a service *)

(** X28: [clearAllExpenses] and [clearAllTodos] return what the persist
    write returns: true, the sequence of the service now reading as empty
    with the statistics of no record, or false, the sequence unchanged; the
    sequence of the other service is unchanged in both cases. *)
Theorem clear_all_of_a_service (w : world) :
  (next_fails w = false →
     (∃ w', clearAllExpenses w = (Return true, w')
        ∧ getAllExpenses w' = (Return (JArr []), w')
        ∧ (getAllTodos w').1 = (getAllTodos w).1
        ∧ getExpenseStats VNull VNull w'
          = (Return {| totalIncome := VNum num_zero; totalExpense := VNum num_zero;
                       balance := VNum (num_sub num_zero num_zero);
                       incomeCount := 0; expenseCount := 0; totalCount := 0 |}, w'))
     ∧ (∃ w', clearAllTodos w = (Return true, w')
          ∧ getAllTodos w' = (Return (JArr []), w')
          ∧ (getAllExpenses w').1 = (getAllExpenses w).1
          ∧ getTodoStats NoDate w'
            = (Return {| TodoStats.total := 0; TodoStats.completed := 0;
                         TodoStats.pending := 0; TodoStats.high := 0;
                         TodoStats.medium := 0; TodoStats.low := 0 |}, w')))
  ∧ (next_fails w = true →
     clearAllExpenses w = (Return false, refused w)
     ∧ clearAllTodos w = (Return false, refused w)
     ∧ (getAllExpenses (refused w)).1 = (getAllExpenses w).1
     ∧ (getAllTodos (refused w)).1 = (getAllTodos w).1).
Proof.
  split.
  - intros Hok. split.
    + pose proof (getAllExpenses_written [] w ltac:(constructor)) as Hafter.
      simpl in Hafter. eexists. split; [|split; [exact Hafter|split]].
      * unfold clearAllExpenses. by rewrite saveExpenses_run, Hok.
      * apply getAllTodos_items. rewrite items_written. by apply lookup_insert_ne.
      * apply getAllExpenses_doc in Hafter.
        by rewrite (getExpenseStats_run _ _ _ [] Hafter).
    + pose proof (getAllTodos_written [] w ltac:(constructor)) as Hafter.
      simpl in Hafter. eexists. split; [|split; [exact Hafter|split]].
      * unfold clearAllTodos. by rewrite saveTodos_run, Hok.
      * apply getAllExpenses_items. rewrite items_written.
        by apply lookup_insert_ne.
      * apply getAllTodos_doc in Hafter.
        by rewrite (getTodoStats_run _ NoDate [] Hafter).
  - intros Hko. split; [|split; [|split]].
    + unfold clearAllExpenses. by rewrite saveExpenses_run, Hko.
    + unfold clearAllTodos. by rewrite saveTodos_run, Hko.
    + by apply getAllExpenses_items.
    + by apply getAllTodos_items.
Qed.

(** ** The date of today *)

Lemma before_T_app (d rest : string) :
  before_T d = d → before_T (d +:+ "T" +:+ rest) = d.
Proof.
  induction d as [|c d IH]; simpl; [done|].
  destruct (Ascii.eqb c "T"); [done|]. intros [= Hd]. by rewrite IH.
Qed.

Lemma substring_app (d rest : string) :
  String.substring 0 (String.length d) (d +:+ rest) = d.
Proof.
  induction d as [|c d IH]; simpl; [by destruct rest|]. by rewrite IH.
Qed.

Lemma substring_prefix n (d : string) :
  String.prefix (String.substring 0 n d) d = true.
Proof.
  revert n. induction d as [|c d IH]; intros [|n]; simpl; try done.
  destruct (ascii_dec c c); [apply IH|done].
Qed.

Lemma substring_substring n k (d : string) :
  (n <= k)%nat →
  String.substring 0 n (String.substring 0 k d) = String.substring 0 n d.
Proof.
  revert n k. induction d as [|c d IH]; intros [|n] [|k] Hnk; simpl; try done;
    try lia.
  rewrite IH; [done|lia].
Qed.

(** X29: when the ISO text of the clock is a date of ten characters
    followed by ['T'], the three ways the code takes the date of today agree
    ([split('T')[0]] in the services and in [utils.getCurrentDate],
    [slice(0, 10)] in the finance page), and [utils.getCurrentMonth] is the
    first seven characters of that date. *)
Theorem today_three_ways (e : env) (d rest : string) :
  toISOString e = d +:+ "T" +:+ rest →
  before_T d = d →
  String.length d = 10%nat →
  today e = d
  ∧ getCurrentDate e = d
  ∧ getTodayString e = d
  ∧ getCurrentMonth e = String.substring 0 7 d
  ∧ String.prefix (getCurrentMonth e) (today e) = true.
Proof.
  intros Hiso Hd Hlen. unfold today, getCurrentDate, getTodayString, getCurrentMonth.
  rewrite Hiso, before_T_app by done.
  assert (Hten : String.substring 0 10 (d +:+ "T" +:+ rest) = d)
    by (rewrite <- Hlen; apply substring_app).
  assert (Hseven : String.substring 0 7 (d +:+ "T" +:+ rest)
                   = String.substring 0 7 d).
  { rewrite <- (substring_substring 7 10) by lia. by rewrite Hten. }
  rewrite Hten, Hseven. repeat split. apply substring_prefix.
Qed.

End Properties.

(** * The properties on concrete inputs *)

Section Checks.
Import IntegerPlatform Examples.

Lemma storable_recordb_correct (r : record) :
  storable_recordb num_exact r = true → storable_record num_exact r.
Proof.
  unfold storable_recordb. rewrite forallb_forall.
  intros Hall k v Hkv. apply elem_of_map_to_list, list_elem_of_In in Hkv.
  specialize (Hall _ Hkv). simpl in Hall. by destruct v.
Qed.

Lemma storable_list_correct (l : list record) :
  forallb (storable_recordb num_exact) l = true →
  Forall (storable_record num_exact) l.
Proof.
  rewrite forallb_forall, Forall_forall. intros Hall r Hr.
  apply storable_recordb_correct, Hall. by apply list_elem_of_In.
Qed.

Ltac storable_list := apply storable_list_correct; vm_compute; reflexivity.

Ltac run := vm_compute; reflexivity.

(** The stores above hold the sequences they were built from. *)
Lemma home_holds :
  getAllExpenses home = (Return (JArr ledger), home)
  ∧ getAllTodos home = (Return (JArr todos), home).
Proof. split; run. Qed.

(** [absent_id_is_no_op] on the store [home] and an identifier it does not
    hold. *)
Lemma absent_id_is_no_op_witness :
  absent (VNum (Int 99)) ledger ∧ absent (VNum (Int 99)) todos
  ∧ updateExpense (VNum (Int 99)) {[ "amount" := VNum (Int 1) ]} home
    = (Return None, home)
  ∧ deleteExpense (VNum (Int 99)) home = (Return false, home)
  ∧ updateTodo (VNum (Int 99)) {[ "amount" := VNum (Int 1) ]} home
    = (Return None, home)
  ∧ deleteTodo (VNum (Int 99)) home = (Return false, home).
Proof.
  assert (HL : absent (VNum (Int 99)) ledger) by (repeat constructor; run).
  assert (HT : absent (VNum (Int 99)) todos) by (repeat constructor; run).
  destruct (absent_id_is_no_op (P := integer_platform)
              home (VNum (Int 99)) {[ "amount" := VNum (Int 1) ]}) as [HE HD].
  destruct home_holds as [HLedger HTodos].
  destruct (HE ledger HLedger HL) as [? ?].
  destruct (HD todos HTodos HT) as [? ?].
  repeat split; assumption.
Defined.

(** [delete_returns_write_status] on [home] and [home_full]: deleting the
    record of identifier 1 stores the other two when the write succeeds. *)
Lemma delete_returns_write_status_witness :
  present (VNum (Int 1)) ledger
  ∧ deleteExpense (VNum (Int 1)) home
    = (Return true,
       written EXPENSES_STORAGE_KEY (JSON_stringify (JArr [lunch; dinner])) home)
  ∧ deleteExpense (VNum (Int 1)) home_full = (Return false, refused home_full).
Proof.
  assert (HP : present (VNum (Int 1)) ledger) by (apply Exists_cons_hd; run).
  destruct (delete_returns_write_status (P := integer_platform) home (VNum (Int 1)))
    as [HE _].
  destruct (HE ledger (proj1 home_holds)) as (_ & Hok & _).
  destruct (delete_returns_write_status (P := integer_platform) home_full
              (VNum (Int 1))) as [HE' _].
  assert (HA : getAllExpenses home_full = (Return (JArr ledger), home_full)) by run.
  destruct (HE' ledger HA) as (_ & _ & Hko).
  split; [exact HP|]. split.
  - exact (Hok HP eq_refl).
  - exact (Hko HP eq_refl).
Defined.

(** C2 as stated fails: with a record of that identifier stored and the
    persist write refused, [delete] returns false, not true. *)
Lemma delete_returns_false_on_failed_write :
  getAllExpenses home_full = (Return (JArr ledger), home_full)
  ∧ present (VNum (Int 1)) ledger
  ∧ next_fails home_full = true
  ∧ (deleteExpense (VNum (Int 1)) home_full).1 = Return false
  ∧ (deleteExpense (VNum (Int 1)) home_full).1 ≠ Return true.
Proof.
  split; [run|]. split; [apply Exists_cons_hd; run|]. split; [run|].
  split; [run|]. vm_compute. discriminate.
Qed.

(** [todo_stats_total] on the todos of the scenario. *)
Lemma todo_stats_total_witness :
  ∃ s, getTodoStats NoDate home = (Return s, home)
    ∧ TodoStats.total s = (TodoStats.completed s + TodoStats.pending s)%nat
    ∧ TodoStats.total s = 3%nat
    ∧ TodoStats.completed s = 1%nat
    ∧ TodoStats.pending s = 2%nat.
Proof.
  assert (HA : getAllTodos home = (Return (JArr todos), home)) by run.
  destruct (todo_stats_total (P := integer_platform) home NoDate todos HA)
    as (s & Hrun & Hsum & Htotal & Hdone & Hopen).
  exists s. split; [exact Hrun|]. split; [exact Hsum|].
  split; [rewrite Htotal; run|]. split; [rewrite Hdone; run|rewrite Hopen; run].
Defined.

(** The todo scenario of the specification. *)
Example todo_stats_scenario :
  getTodoStats NoDate home
  = (Return {| TodoStats.total := 3; TodoStats.completed := 1;
               TodoStats.pending := 2; TodoStats.high := 2;
               TodoStats.medium := 0; TodoStats.low := 1 |}, home)
  ∧ (getTodoStats (IsoDate "2025-06-01") home).1
    = Return {| TodoStats.total := 2; TodoStats.completed := 1;
                TodoStats.pending := 1; TodoStats.high := 2;
                TodoStats.medium := 0; TodoStats.low := 0 |}.
Proof. split; run. Qed.

(** [write_then_read] on the ledger and the todos of the scenario and a
    fresh store. *)
Lemma write_then_read_witness :
  Forall (storable_record num_exact) ledger
  ∧ storage_set STORAGE_KEYS.EXPENSES (JArr ledger) fresh
    = (Return true,
       written STORAGE_KEYS.EXPENSES (JSON_stringify (JArr ledger)) fresh)
  ∧ storage_get STORAGE_KEYS.EXPENSES
      (written STORAGE_KEYS.EXPENSES (JSON_stringify (JArr ledger)) fresh)
    = (Return (JArr ledger),
       written STORAGE_KEYS.EXPENSES (JSON_stringify (JArr ledger)) fresh)
  ∧ (∃ w', saveExpenses ledger fresh = (Return true, w')
       ∧ loadExpenses w' = (Return (JArr ledger), w'))
  ∧ (∃ w', saveTodos todos fresh = (Return true, w')
       ∧ loadTodos w' = (Return (JArr todos), w')).
Proof.
  assert (HS : Forall (storable_record num_exact) ledger) by storable_list.
  assert (HT : Forall (storable_record num_exact) todos) by storable_list.
  assert (HW : next_fails fresh = false) by reflexivity.
  destruct (write_then_read (P := integer_platform) STORAGE_KEYS.EXPENSES ledger
              fresh HS) as (Hget & _ & _ & _ & Hexpenses & _).
  destruct (write_then_read (P := integer_platform) STORAGE_KEYS.TODOS todos
              fresh HT) as (_ & _ & _ & _ & _ & Htodos).
  split; [exact HS|]. split; [run|]. split; [apply Hget; run|].
  split; [exact (Hexpenses HW)|exact (Htodos HW)].
Defined.

(** [toggle_twice] on the todo [invoice] of [home]. *)
Lemma toggle_twice_witness :
  toggleTodo (VNum (Int 12)) home = (Return (Some invoice_open), home_toggled)
  ∧ toggleTodo (VNum (Int 12)) home_toggled = (Return (Some invoice), home)
  ∧ getAllTodos home = (Return (JArr todos), home)
  ∧ get invoice "completed" = VBool true
  ∧ get invoice_open "completed" = VBool false.
Proof.
  assert (HS : Forall (storable_record num_exact) todos) by storable_list.
  assert (HP : present (VNum (Int 12)) todos).
  { apply Exists_cons_tl. apply Exists_cons_hd. run. }
  assert (HB : ∀ x : record, x ∈ todos →
            strict_eq (get x "id") (VNum (Int 12)) = true →
            ∃ c, x !! "completed" = Some (VBool c)).
  { intros x Hx _. unfold todos in Hx.
    apply elem_of_cons in Hx as [->|Hx]; [exists false; run|].
    apply elem_of_cons in Hx as [->|Hx]; [exists true; run|].
    apply elem_of_cons in Hx as [->|Hx]; [exists false; run|].
    apply elem_of_nil in Hx. destruct Hx. }
  assert (HA : getAllTodos home = (Return (JArr todos), home)) by run.
  assert (H1 : toggleTodo (VNum (Int 12)) home
               = (Return (Some invoice_open), home_toggled)) by run.
  assert (H2 : toggleTodo (VNum (Int 12)) home_toggled
               = (Return (Some invoice), home)) by run.
  destruct (toggle_twice (P := integer_platform) home home_toggled home
              (VNum (Int 12)) todos invoice_open invoice
              HA HS HP HB H1 H2) as (Hall & _).
  split; [exact H1|]. split; [exact H2|]. split; [exact Hall|]. split; run.
Defined.

(** [initialize_once] in a browser that has never run the application. *)
Lemma initialize_once_witness :
  ¬ initialized fresh ∧ writes_succeed 5 fresh
  ∧ ∃ w', initializeData clock fresh = (Return tt, w')
      ∧ initialized w'
      ∧ (∀ key, key ∈ sequence_keys → storage_get key w' = (Return (JArr []), w'))
      ∧ decode (items w' !! STORAGE_KEYS.SETTINGS) = JObj (default_settings clock)
      ∧ ∀ e', initializeData e' w' = (Return tt, w').
Proof.
  assert (HN : ¬ initialized fresh).
  { intros (text & Htext & _). vm_compute in Htext. discriminate. }
  assert (HW : writes_succeed 5 fresh) by constructor.
  destruct (initialize_once (P := integer_platform) clock fresh) as [Hfirst _].
  destruct (Hfirst HN HW) as (w' & Hrun & Hinit & Hseq & Hset & _ & _ & _ & _ & Hagain).
  split; [exact HN|]. split; [exact HW|]. exists w'. repeat split; assumption.
Defined.




(** The ledger scenario of the specification. *)
Example monthly_stats_scenario :
  getMonthlyStats clock 2025 6 home
  = (Return {| totalIncome := VNum (Int 50000); totalExpense := VNum (Int 950);
               balance := VNum (Int 49050); incomeCount := 1;
               expenseCount := 2; totalCount := 3 |}, home).
Proof. run. Qed.

Lemma harmless_clean : harmless clean.
Proof. split; reflexivity. Qed.

Lemma ledger_categories :
  Forall (λ r : record, ∃ k, get r "category" = VStr k ∧ k ≠ "__proto__") ledger.
Proof.
  apply Forall_cons. split; [eexists; split; [run|discriminate]|].
  apply Forall_cons. split; [eexists; split; [run|discriminate]|].
  apply Forall_cons. split; [eexists; split; [run|discriminate]|]. constructor.
Qed.

Lemma inherited_categories :
  Forall (λ r : record, ∃ k, get r "category" = VStr k ∧ k ≠ "__proto__")
    [riddle; snack; builder].
Proof.
  apply Forall_cons. split; [eexists; split; [run|discriminate]|].
  apply Forall_cons. split; [eexists; split; [run|discriminate]|].
  apply Forall_cons. split; [eexists; split; [run|discriminate]|]. constructor.
Qed.

Lemma no_proto_key (l : list record) :
  Forall (λ r : record, ∃ k, get r "category" = VStr k ∧ k ≠ "__proto__") l →
  Forall (λ r : record, category_key r ≠ "__proto__") (records_grouped VNull l).
Proof.
  intros Hl. change (records_grouped VNull l) with l.
  eapply Forall_impl; [exact Hl|].
  intros r (k & Hk & Hne). unfold category_key. by rewrite Hk.
Qed.



(** [add_appends_generated] on the store [home]: a ledger entry and a todo
    as the forms of the application pass them. *)
Lemma add_appends_generated_witness :
  bus_fare !! "id" = None ∧ call_bank !! "id" = None
  ∧ (∃ r w', addExpense clock bus_fare home = (Return (Some r), w')
       ∧ get r "id" = VNum (Int 1749000000000)
       ∧ getAllExpenses w' = (Return (JArr (ledger ++ [r])), w')
       ∧ absent (get r "id") ledger)
  ∧ (∃ r w', addTodo clock call_bank home = (Return (Some r), w')
       ∧ get r "id" = VNum (Int 1749000000000)
       ∧ getAllTodos w' = (Return (JArr (todos ++ [r])), w')
       ∧ absent (get r "id") todos).
Proof.
  assert (HB : bus_fare !! "id" = None) by run.
  assert (HC : call_bank !! "id" = None) by run.
  assert (HL : Forall (storable_record num_exact) ledger) by storable_list.
  assert (HT : Forall (storable_record num_exact) todos) by storable_list.
  assert (HW : next_fails home = false) by run.
  assert (HNE : storable_record num_exact (newExpense clock bus_fare))
    by (apply storable_recordb_correct; run).
  assert (HNT : storable_record num_exact (newTodo clock call_bank))
    by (apply storable_recordb_correct; run).
  assert (HFL : absent (generateId clock) ledger) by (repeat constructor; run).
  assert (HFT : absent (generateId clock) todos) by (repeat constructor; run).
  destruct home_holds as [HAL HAT].
  destruct (add_appends_generated (P := integer_platform) clock bus_fare home
              ledger HB HL HW) as [HE _].
  destruct (add_appends_generated (P := integer_platform) clock call_bank home
              todos HC HT HW) as [_ HD].
  destruct (HE HAL HNE) as (r & w' & Hrun & _ & Hid & Hall & _ & Hfresh).
  destruct (HD HAT HNT) as (r' & w'' & Hrun' & _ & Hid' & Hall' & _ & Hfresh').
  split; [exact HB|]. split; [exact HC|]. split.
  - exists r, w'. split; [exact Hrun|]. split; [exact Hid|]. split; [exact Hall|].
    apply Hfresh, HFL.
  - exists r', w''. split; [exact Hrun'|]. split; [exact Hid'|].
    split; [exact Hall'|]. apply Hfresh', HFT.
Defined.

(** C1 as stated fails: a record added in the millisecond in which a stored
    record was added, [Math.random()] answering the same, gets the
    identifier of that record; [bus_fare] carries no [id] of its own. *)
Lemma add_repeats_generated_id :
  getAllExpenses same_millisecond = (Return (JArr [taxi]), same_millisecond)
  ∧ bus_fare !! "id" = None
  ∧ ∃ r w', addExpense clock bus_fare same_millisecond = (Return (Some r), w')
      ∧ getAllExpenses w' = (Return (JArr [taxi; r]), w')
      ∧ strict_eq (get taxi "id") (get r "id") = true
      ∧ ¬ absent (get r "id") [taxi].
Proof.
  split; [run|]. split; [run|].
  exists (newExpense clock bus_fare),
    (written EXPENSES_STORAGE_KEY
       (JSON_stringify (JArr [taxi; newExpense clock bus_fare])) same_millisecond).
  split; [run|]. split; [run|]. split; [run|].
  intros Habs. inversion Habs as [|?? Hne _]; subst.
  vm_compute in Hne. discriminate.
Qed.

Lemma update_replaces_first_witness :
  present (VNum (Int 2)) ledger
  ∧ (∃ i x w', ledger !! i = Some x
       ∧ strict_eq (get x "id") (VNum (Int 2)) = true
       ∧ updateExpense (VNum (Int 2)) {[ "amount" := VNum (Int 180) ]} home
         = (Return (Some (spread x {[ "amount" := VNum (Int 180) ]})), w')
       ∧ getAllExpenses w'
         = (Return (JArr (<[i := spread x {[ "amount" := VNum (Int 180) ]}]> ledger)),
            w'))
  ∧ (updateExpense (VNum (Int 2)) {[ "amount" := VNum (Int 180) ]} home).1
    = Return (Some (<["amount" := VNum (Int 180)]> lunch)).
Proof.
  assert (HS : Forall (storable_record num_exact) ledger) by storable_list.
  assert (HP : storable_record num_exact
                 ({[ "amount" := VNum (Int 180) ]} : record))
    by (apply storable_recordb_correct; run).
  assert (HI : present (VNum (Int 2)) ledger).
  { apply Exists_cons_tl, Exists_cons_hd. run. }
  assert (HW : next_fails home = false) by run.
  assert (HC : (updateExpense (VNum (Int 2)) {[ "amount" := VNum (Int 180) ]} home).1
               = Return (Some (<["amount" := VNum (Int 180)]> lunch))) by run.
  destruct (update_replaces_first (P := integer_platform) home (VNum (Int 2))
              {[ "amount" := VNum (Int 180) ]} ledger HS HP HI HW)
    as (i & x & Hi & Hx & _ & _ & _ & HE & _).
  destruct (HE (proj1 home_holds)) as (w' & Hrun & Hall).
  split; [exact HI|]. split; [|exact HC].
  exists i, x, w'. split; [exact Hi|]. split; [exact Hx|]. split; [exact Hrun|exact Hall].
Defined.

(** [refused_write_changes_nothing] on the store [home_full], whose next
    write is refused. *)
Lemma refused_write_changes_nothing_witness :
  next_fails home_full = true
  ∧ addExpense clock bus_fare home_full = (Return None, refused home_full)
  ∧ updateExpense (VNum (Int 2)) {[ "amount" := VNum (Int 180) ]} home_full
    = (Return None, refused home_full)
  ∧ getAllExpenses (refused home_full) = (Return (JArr ledger), refused home_full)
  ∧ toggleTodo (VNum (Int 12)) home_full = (Return None, refused home_full)
  ∧ getAllTodos (refused home_full) = (Return (JArr todos), refused home_full).
Proof.
  assert (HW : next_fails home_full = true) by run.
  assert (HL : getAllExpenses home_full = (Return (JArr ledger), home_full)) by run.
  assert (HT : getAllTodos home_full = (Return (JArr todos), home_full)) by run.
  assert (HI : present (VNum (Int 2)) ledger).
  { apply Exists_cons_tl, Exists_cons_hd. run. }
  assert (HJ : present (VNum (Int 12)) todos).
  { apply Exists_cons_tl, Exists_cons_hd. run. }
  destruct (refused_write_changes_nothing (P := integer_platform) clock home_full
              (VNum (Int 2)) bus_fare {[ "amount" := VNum (Int 180) ]} ledger HW)
    as [HE _].
  destruct (refused_write_changes_nothing (P := integer_platform) clock home_full
              (VNum (Int 12)) call_bank {[ "amount" := VNum (Int 180) ]} todos HW)
    as [_ HD].
  destruct (HE HL) as (Hadd & Hupdate & Hall).
  destruct (HD HT) as (_ & _ & Htoggle & Hall').
  split; [exact HW|]. split; [exact Hadd|]. split; [exact (Hupdate HI)|].
  split; [exact Hall|]. split; [exact (Htoggle HJ)|exact Hall'].
Defined.

(** [delete_removes_every_match] on the store [home] and the identifier 1. *)
Lemma delete_removes_every_match_witness :
  present (VNum (Int 1)) ledger
  ∧ List.filter (λ r : record, negb (strict_eq (get r "id") (VNum (Int 1)))) ledger
    = [lunch; dinner]
  ∧ ∃ w', deleteExpense (VNum (Int 1)) home = (Return true, w')
      ∧ getAllExpenses w'
        = (Return (JArr (List.filter
             (λ r : record, negb (strict_eq (get r "id") (VNum (Int 1)))) ledger)), w')
      ∧ deleteExpense (VNum (Int 1)) w' = (Return false, w')
      ∧ updateExpense (VNum (Int 1)) {[ "amount" := VNum (Int 180) ]} w'
        = (Return None, w').
Proof.
  assert (HS : Forall (storable_record num_exact) ledger) by storable_list.
  assert (HI : present (VNum (Int 1)) ledger) by (apply Exists_cons_hd; run).
  assert (HW : next_fails home = false) by run.
  assert (HK : List.filter (λ r : record,
                 negb (strict_eq (get r "id") (VNum (Int 1)))) ledger
               = [lunch; dinner]) by run.
  destruct (delete_removes_every_match (P := integer_platform) home (VNum (Int 1))
              {[ "amount" := VNum (Int 180) ]} ledger HS HI HW) as (_ & HE & _).
  destruct (HE (proj1 home_holds)) as (w' & Hdel & Hall & Hagain & Hupdate).
  split; [exact HI|]. split; [exact HK|]. exists w'.
  split; [exact Hdel|]. split; [exact Hall|]. split; [exact Hagain|exact Hupdate].
Defined.

(** [add_then_delete_restores] on the store [home]: the entry [bus_fare]
    added, then deleted. *)
Lemma add_then_delete_restores_witness :
  bus_fare !! "id" = None
  ∧ absent (generateId clock) ledger
  ∧ writes_succeed 2 home
  ∧ ∃ r w1 w2, addExpense clock bus_fare home = (Return (Some r), w1)
      ∧ getAllExpenses w1 = (Return (JArr (ledger ++ [r])), w1)
      ∧ deleteExpense (get r "id") w1 = (Return true, w2)
      ∧ getAllExpenses w2 = (Return (JArr ledger), w2).
Proof.
  assert (HB : bus_fare !! "id" = None) by run.
  assert (HS : Forall (storable_record num_exact) ledger) by storable_list.
  assert (HF : absent (generateId clock) ledger) by (repeat constructor; run).
  assert (HG : strict_eq (generateId clock) (generateId clock) = true) by run.
  assert (HW : writes_succeed 2 home) by constructor.
  assert (HN : storable_record num_exact (newExpense clock bus_fare))
    by (apply storable_recordb_correct; run).
  destruct (add_then_delete_restores (P := integer_platform) clock bus_fare home
              ledger HB HS HF HG HW) as [HE _].
  destruct (HE (proj1 home_holds) HN) as (r & w1 & w2 & Hadd & Hall1 & Hdel & Hall2).
  split; [exact HB|]. split; [exact HF|]. split; [exact HW|].
  exists r, w1, w2. split; [exact Hadd|]. split; [exact Hall1|].
  split; [exact Hdel|exact Hall2].
Defined.

(** [unreadable_text_reads_empty] on the store [garbled]. *)
Lemma unreadable_text_reads_empty_witness :
  JSON_parse "[{" = None
  ∧ items garbled !! EXPENSES_STORAGE_KEY = Some "[{"
  ∧ getAllExpenses garbled = (Return (JArr []), garbled)
  ∧ getCategoryStats VNull clean garbled = (Return ∅, clean, garbled)
  ∧ ∃ r w', addExpense clock bus_fare garbled = (Return (Some r), w')
      ∧ getAllExpenses w' = (Return (JArr [r]), w').
Proof.
  assert (HP : JSON_parse "[{" = None) by run.
  assert (HI : items garbled !! EXPENSES_STORAGE_KEY = Some "[{") by run.
  assert (HW : next_fails garbled = false) by run.
  assert (HN : storable_record num_exact (newExpense clock bus_fare))
    by (apply storable_recordb_correct; run).
  destruct (unreadable_text_reads_empty (P := integer_platform) clock bus_fare
              garbled "[{" HP) as [HE _].
  destruct (HE HI) as (Hall & _ & Hcat & Hadd).
  destruct (Hadd HW HN) as (r & w' & Hrun & Hafter).
  split; [exact HP|]. split; [exact HI|]. split; [exact Hall|].
  split; [exact (Hcat clean)|]. exists r, w'. split; [exact Hrun|exact Hafter].
Defined.

(** [non_array_content_throws] on the store [misplaced]. *)
Lemma non_array_content_throws_witness :
  getAllExpenses misplaced = (Return (JObj salary), misplaced)
  ∧ addExpense clock bus_fare misplaced = (Throw TypeError, misplaced)
  ∧ deleteExpense (VNum (Int 1)) misplaced = (Throw TypeError, misplaced)
  ∧ getExpenseStats VNull VNull misplaced = (Throw TypeError, misplaced)
  ∧ getCategoryStats VNull clean misplaced = (Throw TypeError, clean, misplaced).
Proof.
  assert (HD : ∀ l : list record, JObj salary ≠ JArr l) by discriminate.
  assert (HA : getAllExpenses misplaced = (Return (JObj salary), misplaced)) by run.
  destruct (non_array_content_throws (P := integer_platform) clock misplaced
              (JObj salary) HD) as [HE _].
  destruct (HE HA) as (Hadd & _ & Hdel & Hstats & Hcat).
  split; [exact HA|]. split; [exact (Hadd bus_fare)|].
  split; [exact (Hdel (VNum (Int 1)))|]. split; [exact (Hstats VNull VNull)|].
  exact (Hcat VNull clean).
Defined.

Lemma ledger_dates : Forall (λ r : record, ∃ d, get r "date" = VStr d) ledger.
Proof.
  apply Forall_cons. split; [exists "2025-06-01"; run|].
  apply Forall_cons. split; [exists "2025-06-01"; run|].
  apply Forall_cons. split; [exists "2025-06-02"; run|]. constructor.
Qed.

(** [typed_counts_bounded] on the ledger of the scenario, whose records are
    incomes and expenses. *)
Lemma typed_counts_bounded_witness :
  ∃ s, getExpenseStats VNull VNull home = (Return s, home)
    ∧ totalCount s = 3%nat
    ∧ (incomeCount s + expenseCount s)%nat = totalCount s.
Proof.
  assert (HT : Forall (λ r : record, get r "type" = VStr "income"
                                     ∨ get r "type" = VStr "expense") ledger).
  { apply Forall_cons. split; [left; run|].
    apply Forall_cons. split; [right; run|].
    apply Forall_cons. split; [right; run|]. constructor. }
  destruct (typed_counts_bounded (P := integer_platform) home VNull VNull ledger
              (proj1 home_holds)) as (_ & s & Hrun & Hcount & Hiff).
  exists s. split; [exact Hrun|]. split; [exact Hcount|]. exact (proj2 Hiff HT).
Defined.

(** [typed_queries_match_stats] on the store [home]. *)
Lemma typed_queries_match_stats_witness :
  (∃ s income, getExpenseStats VNull VNull home = (Return s, home)
     ∧ getExpensesByType (VStr "income") home = (Return income, home)
     ∧ incomeCount s = length income
     ∧ totalIncome s = sum_amounts income)
  ∧ (∃ s high, getTodoStats NoDate home = (Return s, home)
       ∧ getTodosByPriority (VStr "high") home = (Return high, home)
       ∧ TodoStats.high s = length high).
Proof.
  destruct (typed_queries_match_stats (P := integer_platform) home ledger) as [HE _].
  destruct (typed_queries_match_stats (P := integer_platform) home todos) as [_ HD].
  destruct (HE (proj1 home_holds))
    as (s & income & expense & Hrun & Hin & _ & Hcount & Hsum & _).
  destruct (HD (proj2 home_holds))
    as (s' & high & medium & low & Hrun' & Hhigh & _ & _ & Hcount' & _).
  split.
  - exists s, income. split; [exact Hrun|]. split; [exact Hin|].
    split; [exact Hcount|exact Hsum].
  - exists s', high. split; [exact Hrun'|]. split; [exact Hhigh|exact Hcount'].
Defined.

(** [today_totals_agree] on the store [home] on the morning of 2025-06-01. *)
Lemma today_totals_agree_witness :
  today morning = "2025-06-01"
  ∧ ∃ s todayExpenses,
      getTodayStats morning home = (Return s, home)
      ∧ getTodayExpenses morning home = (Return todayExpenses, home)
      ∧ totalCount s = length todayExpenses
      ∧ totalIncome s = todayIncome todayExpenses
      ∧ totalExpense s = todayExpense todayExpenses
      ∧ balance s = todayBalance todayExpenses.
Proof.
  assert (HT : today morning = "2025-06-01") by run.
  assert (HN : today morning ≠ "") by (rewrite HT; discriminate).
  destruct (today_totals_agree (P := integer_platform) morning home ledger
              (proj1 home_holds) ledger_dates HN)
    as (s & found & Hstats & Hfound & _ & Hcount & Hin & Hout & Hbal).
  split; [exact HT|]. exists s, found. split; [exact Hstats|].
  split; [exact Hfound|]. split; [exact Hcount|]. split; [exact Hin|].
  split; [exact Hout|exact Hbal].
Defined.

(** [date_range_query_matches_stats] on the store [home] for the single day
    2025-06-01. *)
Lemma date_range_query_matches_stats_witness :
  ∃ found st,
    getExpensesByDateRange (VStr "2025-06-01") (VStr "2025-06-01") home
    = (Return found, home)
    ∧ getExpenseStats (VStr "2025-06-01") (VStr "2025-06-01") home = (Return st, home)
    ∧ totalCount st = length found.
Proof.
  assert (HB : "2025-06-01" ≠ "") by discriminate.
  destruct (date_range_query_matches_stats (P := integer_platform) home
              "2025-06-01" "2025-06-01" ledger (proj1 home_holds) ledger_dates)
    as (found & Hrun & _ & Hstats).
  destruct (Hstats HB HB) as (st & Hst & Hcount & _).
  exists found, st. split; [exact Hrun|]. split; [exact Hst|exact Hcount].
Defined.

(** [todos_by_date_matches_stats] on the store [home] for 2025-06-01. *)
Lemma todos_by_date_matches_stats_witness :
  date_given (IsoDate "2025-06-01") = true
  ∧ getTodosByDate NoDate home = (Throw TypeError, home)
  ∧ ∃ found s,
      getTodosByDate (IsoDate "2025-06-01") home = (Return found, home)
      ∧ getTodoStats (IsoDate "2025-06-01") home = (Return s, home)
      ∧ TodoStats.total s = length found.
Proof.
  assert (HG : date_given (IsoDate "2025-06-01") = true) by reflexivity.
  destruct (todos_by_date_matches_stats (P := integer_platform) home
              (IsoDate "2025-06-01") todos (proj2 home_holds)) as [Hnone Hsome].
  destruct (Hsome HG) as (found & s & Hfound & Hstats & Htotal & _).
  split; [exact HG|]. split; [exact Hnone|]. exists found, s.
  split; [exact Hfound|]. split; [exact Hstats|exact Htotal].
Defined.

(** [priority_counts_bounded] on the todos of the scenario, which all have a
    priority. *)
Lemma priority_counts_bounded_witness :
  ∃ s, getTodoStats NoDate home = (Return s, home)
    ∧ (TodoStats.high s + TodoStats.medium s + TodoStats.low s)%nat
      = TodoStats.total s.
Proof.
  assert (HK : Forall known_priority (todos_counted NoDate todos)).
  { apply Forall_cons. split; [left; run|].
    apply Forall_cons. split; [left; run|].
    apply Forall_cons. split; [right; right; run|]. constructor. }
  destruct (priority_counts_bounded (P := integer_platform) home NoDate todos
              (proj2 home_holds)) as (s & Hrun & _ & Hiff).
  exists s. split; [exact Hrun|]. exact (proj2 Hiff HK).
Defined.

(** [added_todo_counts_as_pending_medium] on the store [home] and the todo
    [water_plants]. *)
Lemma added_todo_counts_as_pending_medium_witness :
  water_plants !! "completed" = None
  ∧ water_plants !! "priority" = None
  ∧ ∃ before r w' after,
      getTodoStats NoDate home = (Return before, home)
      ∧ addTodo clock water_plants home = (Return (Some r), w')
      ∧ get r "priority" = VStr "medium"
      ∧ getTodoStats NoDate w' = (Return after, w')
      ∧ TodoStats.total after = S (TodoStats.total before)
      ∧ TodoStats.pending after = S (TodoStats.pending before)
      ∧ TodoStats.medium after = S (TodoStats.medium before).
Proof.
  assert (HC : water_plants !! "completed" = None) by run.
  assert (HP : water_plants !! "priority" = None) by run.
  assert (HS : Forall (storable_record num_exact) todos) by storable_list.
  assert (HN : storable_record num_exact (newTodo clock water_plants))
    by (apply storable_recordb_correct; run).
  assert (HW : next_fails home = false) by run.
  destruct (added_todo_counts_as_pending_medium (P := integer_platform) clock
              water_plants home todos HC HP HS HN HW (proj2 home_holds))
    as (before & r & w' & after & Hbefore & Hadd & _ & Hprio & Hafter
        & Htotal & Hpending & _ & Hmedium & _).
  split; [exact HC|]. split; [exact HP|]. exists before, r, w', after.
  split; [exact Hbefore|]. split; [exact Hadd|]. split; [exact Hprio|].
  split; [exact Hafter|]. split; [exact Htotal|]. split; [exact Hpending|exact Hmedium].
Defined.

(** [add_keeps_data_as_passed] on what the forms pass: [bus_fare] and
    [call_bank]. *)
Lemma add_keeps_data_as_passed_witness :
  bus_fare !! "id" = None ∧ bus_fare !! "createdAt" = None
  ∧ newExpense clock bus_fare
    = <["id" := generateId clock]>
        (<["createdAt" := VStr (toISOString clock)]> bus_fare)
  ∧ get (newExpense clock bus_fare) "amount" = get bus_fare "amount"
  ∧ newTodo clock call_bank
    = <["id" := generateId clock]>
        (<["completed" := VBool false]>
           (<["createdAt" := VStr (toISOString clock)]> call_bank)).
Proof.
  assert (HB : bus_fare !! "id" = None) by run.
  assert (HB' : bus_fare !! "createdAt" = None) by run.
  assert (HC : call_bank !! "id" = None) by run.
  assert (HC' : call_bank !! "createdAt" = None) by run.
  assert (HD : call_bank !! "completed" = None) by run.
  assert (HK : ∀ k, k ∈ ["amount"; "description"; "category"; "type"; "date"] →
                    is_Some (bus_fare !! k)).
  { intros k Hk.
    repeat (apply elem_of_cons in Hk as [->|Hk]; [eexists; run|]).
    by apply elem_of_nil in Hk. }
  assert (HK' : ∀ k, k ∈ ["text"; "date"; "priority"; "category"] →
                     is_Some (call_bank !! k)).
  { intros k Hk.
    repeat (apply elem_of_cons in Hk as [->|Hk]; [eexists; run|]).
    by apply elem_of_nil in Hk. }
  destruct (add_keeps_data_as_passed (P := integer_platform) clock bus_fare HB HB')
    as [HE _].
  destruct (add_keeps_data_as_passed (P := integer_platform) clock call_bank HC HC')
    as [_ HT].
  destruct (HE HK) as [Hrecord Hamount].
  destruct (HT HD HK') as (Htodo & _).
  split; [exact HB|]. split; [exact HB'|]. split; [exact Hrecord|].
  split; [exact Hamount|exact Htodo].
Defined.

(** [storage_module_spares_services] on the store [home] and the key of the
    ledger. *)
Lemma storage_module_spares_services_witness :
  (EXPENSES_STORAGE_KEY ∉ STORAGE_KEYS.SETTINGS :: sequence_keys)
  ∧ items (clearAllData clock home).2 !! EXPENSES_STORAGE_KEY
    = items home !! EXPENSES_STORAGE_KEY
  ∧ (getAllExpenses (clearAllData clock home).2).1 = Return (JArr ledger)
  ∧ (getAllTodos (clearAllData clock home).2).1 = Return (JArr todos).
Proof.
  assert (HK : EXPENSES_STORAGE_KEY ∉ STORAGE_KEYS.SETTINGS :: sequence_keys).
  { unfold sequence_keys. rewrite !not_elem_of_cons.
    repeat split; try done. apply not_elem_of_nil. }
  assert (HL : (getAllExpenses home).1 = Return (JArr ledger)) by run.
  assert (HT : (getAllTodos home).1 = Return (JArr todos)) by run.
  destruct (storage_module_spares_services (P := integer_platform) clock home)
    as (Hkeys & Hledger & Htodos & _).
  split; [exact HK|]. split; [exact (proj1 (Hkeys _ HK))|].
  split; [exact (eq_trans Hledger HL)|exact (eq_trans Htodos HT)].
Defined.

(** [clear_all_data_resets] on the store [home]. *)
Lemma clear_all_data_resets_witness :
  writes_succeed 5 home
  ∧ ∃ w', clearAllData clock home = (Return tt, w')
      ∧ initialized w'
      ∧ (∀ key, key ∈ sequence_keys → storage_get key w' = (Return (JArr []), w'))
      ∧ ∀ e', initializeData e' w' = (Return tt, w').
Proof.
  assert (HW : writes_succeed 5 home) by constructor.
  destruct (clear_all_data_resets (P := integer_platform) clock home HW)
    as (w' & Hrun & Hinit & Hseq & _ & Hagain).
  split; [exact HW|]. exists w'. split; [exact Hrun|]. split; [exact Hinit|].
  split; [exact Hseq|exact Hagain].
Defined.

(** [settings_write_decides] on stores that refuse the first and the fifth
    write. *)
Lemma settings_write_decides_witness :
  ¬ initialized fresh_full ∧ next_fails fresh_full = true
  ∧ initializeData clock fresh_full = (Throw QuotaExceededError, refused fresh_full)
  ∧ ¬ initialized (refused fresh_full)
  ∧ (∃ w', initializeData clock fresh_once = (Return tt, w')
       ∧ initialized w'
       ∧ storage_get STORAGE_KEYS.TODOS w' = (Return (JArr []), w'))
  ∧ ∃ w', clearAllData clock fresh_fifth = (Throw QuotaExceededError, w').
Proof.
  assert (HN : ¬ initialized fresh_full).
  { intros (text & Htext & _). vm_compute in Htext. discriminate. }
  assert (HN' : ¬ initialized fresh_once).
  { intros (text & Htext & _). vm_compute in Htext. discriminate. }
  assert (HW : next_fails fresh_full = true) by reflexivity.
  assert (HW' : next_fails fresh_once = false) by reflexivity.
  assert (HK : STORAGE_KEYS.TODOS ∈ sequence_keys) by (apply elem_of_cons; by left).
  assert (HA : items fresh_once !! STORAGE_KEYS.TODOS = None) by reflexivity.
  destruct (settings_write_decides (P := integer_platform) clock fresh_full)
    as (Hthrow & _ & _).
  destruct (settings_write_decides (P := integer_platform) clock fresh_once)
    as (_ & Hreturn & _).
  destruct (settings_write_decides (P := integer_platform) clock fresh_fifth)
    as (_ & _ & w' & Hclear).
  destruct (Hthrow HN HW) as [Hrun Hstill].
  destruct (Hreturn HN' HW') as (w1 & Hrun1 & Hinit1 & Hempty).
  split; [exact HN|]. split; [exact HW|]. split; [exact Hrun|].
  split; [exact Hstill|]. split.
  - exists w1. split; [exact Hrun1|]. split; [exact Hinit1|].
    exact (Hempty _ HK HA).
  - exists w'. exact Hclear.
Defined.

Lemma office_holds :
  storage_get STORAGE_KEYS.BUDGETS office = (Return (JArr budgets), office)
  ∧ storage_get STORAGE_KEYS.BUDGETS office_full = (Return (JArr budgets), office_full).
Proof. split; run. Qed.

(** [storage_helpers_hide_refused_write] on the store [office_full], whose
    next write is refused. *)
Lemma storage_helpers_hide_refused_write_witness :
  next_fails office_full = true
  ∧ present (VNum (Int 2)) budgets
  ∧ (∃ newItem, storage_add clock STORAGE_KEYS.BUDGETS fun_budget office_full
                = (Return newItem, refused office_full)
       ∧ get newItem "id" = VNum (Int 3))
  ∧ (∃ x, storage_update clock STORAGE_KEYS.BUDGETS (VNum (Int 2))
            {[ "limit" := VNum (Int 2000) ]} office_full
          = (Return (Some x), refused office_full)
       ∧ get x "updated_at" = VStr (getCurrentTimestamp clock))
  ∧ storage_delete STORAGE_KEYS.BUDGETS (VNum (Int 2)) office_full
    = (Return true, refused office_full)
  ∧ storage_get STORAGE_KEYS.BUDGETS (refused office_full)
    = (Return (JArr budgets), refused office_full).
Proof.
  assert (HW : next_fails office_full = true) by reflexivity.
  assert (HI : present (VNum (Int 2)) budgets).
  { apply Exists_cons_tl, Exists_cons_hd. run. }
  assert (HID : get (spread fun_budget
                       {[ "id" := getNextId budgets;
                          "created_at" := VStr (getCurrentTimestamp clock) ]}) "id"
                = VNum (Int 3)) by run.
  destruct (storage_helpers_hide_refused_write (P := integer_platform) clock
              STORAGE_KEYS.BUDGETS office_full (VNum (Int 2)) fun_budget
              {[ "limit" := VNum (Int 2000) ]} budgets (proj2 office_holds) HW)
    as (Hadd & Hupdate & Hdelete & Hget).
  destruct (Hupdate HI) as (x & Hx & Hat & _).
  split; [exact HW|]. split; [exact HI|]. split.
  { eexists. split; [exact Hadd|exact HID]. }
  split.
  { exists x. split; [exact Hx|exact Hat]. }
  split; [exact Hdelete|exact Hget].
Defined.

(** [storage_delete_always_true] on the store [office] and an identifier no
    budget carries. *)
Lemma storage_delete_always_true_witness :
  absent (VNum (Int 99)) budgets
  ∧ ∃ w', storage_delete STORAGE_KEYS.BUDGETS (VNum (Int 99)) office
          = (Return true, w')
      ∧ storage_get STORAGE_KEYS.BUDGETS w' = (Return (JArr budgets), w').
Proof.
  assert (HS : Forall (storable_record num_exact) budgets) by storable_list.
  assert (HA : absent (VNum (Int 99)) budgets) by (repeat constructor; run).
  destruct (storage_delete_always_true (P := integer_platform) STORAGE_KEYS.BUDGETS
              office (VNum (Int 99)) budgets (proj1 office_holds) HS)
    as (w' & Hrun & _ & Hsame & _).
  split; [exact HA|]. exists w'. split; [exact Hrun|exact (Hsame HA)].
Defined.

(** [storage_add_appends_fresh_id] on the store [office]: the new budget
    gets the identifier 3. *)
Lemma storage_add_appends_fresh_id_witness :
  Forall numeric_id budgets
  ∧ largest_id budgets = Int 2
  ∧ ∃ newItem w', storage_add clock STORAGE_KEYS.BUDGETS fun_budget office
                  = (Return newItem, w')
      ∧ get newItem "id" = VNum (num_add (largest_id budgets) num_one)
      ∧ absent (get newItem "id") budgets
      ∧ storage_get STORAGE_KEYS.BUDGETS w'
        = (Return (JArr (budgets ++ [newItem])), w').
Proof.
  assert (HS : Forall (storable_record num_exact) budgets) by storable_list.
  assert (HN : Forall numeric_id budgets).
  { apply Forall_cons. split; [right; exists (Int 1); split; run|].
    apply Forall_cons. split; [right; exists (Int 2); split; run|]. constructor. }
  assert (HM : largest_id budgets = Int 2) by run.
  assert (HL : num_ltb (largest_id budgets) (num_add (largest_id budgets) num_one)
               = true) by run.
  assert (HW : next_fails office = false) by reflexivity.
  assert (HI : storable_record num_exact
                 (spread fun_budget
                    {[ "id" := getNextId budgets;
                       "created_at" := VStr (getCurrentTimestamp clock) ]}))
    by (apply storable_recordb_correct; run).
  destruct (storage_add_appends_fresh_id (P := integer_platform) clock
              STORAGE_KEYS.BUDGETS office fun_budget budgets
              (proj1 office_holds) HS HN HL HI HW)
    as (newItem & w' & Hrun & Hid & _ & _ & Hfresh & Hafter).
  split; [exact HN|]. split; [exact HM|]. exists newItem, w'.
  split; [exact Hrun|]. split; [exact Hid|]. split; [exact Hfresh|exact Hafter].
Defined.

(** [change_month_steps] from December 2025 to January 2026 and back. *)
Lemma change_month_steps_witness :
  changeMonth 11 2025 1 = (0, 2026)
  ∧ changeMonth 0 2026 (-1) = (11, 2025)
  ∧ 0 <= (changeMonth 11 2025 1).1 <= 11.
Proof.
  destruct (change_month_steps 11 2025 1 ltac:(lia) ltac:(by left))
    as (Hrange & _ & Hback).
  split; [reflexivity|]. split; [exact Hback|exact Hrange].
Defined.

(** [category_counts_add_up] on a ledger of three records, two of which
    have the name of an inherited method as category. *)
Lemma category_counts_add_up_witness :
  ∃ stats, getCategoryStats VNull clean inherited_names
           = (Return stats, clean, inherited_names)
    ∧ count_sum stats = 1%nat
    ∧ is_Some (stats !! "food")
    ∧ ¬ is_Some (stats !! "toString").
Proof.
  assert (HB : getAllExpenses inherited_names
               = (Return (JArr [riddle; snack; builder]), inherited_names)) by run.
  assert (HF : length (filed (records_grouped VNull [riddle; snack; builder]))
               = 1%nat) by run.
  destruct (category_counts_add_up (P := integer_platform) inherited_names VNull
              [riddle; snack; builder] clean HB harmless_clean
              (no_proto_key _ inherited_categories))
    as (stats & Hrun & Hsum & _ & Hdom).
  exists stats. split; [exact Hrun|]. split; [exact (eq_trans Hsum HF)|]. split.
  - apply Hdom. split; [reflexivity|]. exists snack. split; [|run].
    apply elem_of_cons. right. apply elem_of_cons. by left.
  - intros [Hmethod _]%Hdom. discriminate Hmethod.
Defined.

(** [category_query_matches_stats] on the ledger of the scenario and the
    category of the meals, and on the category toString of a ledger that
    has a record of it. *)
Lemma category_query_matches_stats_witness :
  (∃ stats found,
    getCategoryStats VNull clean home = (Return stats, clean, home)
    ∧ getExpensesByCategory (VStr "餐飲") home = (Return found, home)
    ∧ stats !! "餐飲"
      = match found with
        | [] => None
        | first :: _ =>
            Some {| count := length found;
                    total := sum_amounts found;
                    type := get first "type" |}
        end)
  ∧ (∃ stats,
      getCategoryStats VNull clean inherited_names
      = (Return stats, clean, inherited_names)
      ∧ getExpensesByCategory (VStr "toString") inherited_names
        = (Return [riddle], inherited_names)
      ∧ stats !! "toString" = None).
Proof.
  assert (HB : getAllExpenses inherited_names
               = (Return (JArr [riddle; snack; builder]), inherited_names)) by run.
  assert (HQ : getExpensesByCategory (VStr "toString") inherited_names
               = (Return [riddle], inherited_names)) by run.
  split.
  - exact (category_query_matches_stats (P := integer_platform) home "餐飲" ledger
             clean (proj1 home_holds) ledger_categories harmless_clean).
  - destruct (category_query_matches_stats (P := integer_platform) inherited_names
                "toString" [riddle; snack; builder] clean HB inherited_categories
                harmless_clean) as (stats & found & Hrun & _ & Hentry).
    exists stats. split; [exact Hrun|]. split; [exact HQ|exact Hentry].
Defined.

Lemma ledger_calendar : Forall calendar_date ledger.
Proof.
  apply Forall_cons. split.
  { exists 2025, 6, 1. split; [run|]. split; [lia|]. split; [lia|]. by vm_compute. }
  apply Forall_cons. split.
  { exists 2025, 6, 1. split; [run|]. split; [lia|]. split; [lia|]. by vm_compute. }
  apply Forall_cons. split.
  { exists 2025, 6, 2. split; [run|]. split; [lia|]. split; [lia|]. by vm_compute. }
  constructor.
Qed.

(** [month_total_matches_monthly_stats] on the store [home] for June 2025. *)
Lemma month_total_matches_monthly_stats_witness :
  midnight_kept clock (last_day_number 2025 (5 + 1))
  ∧ ∃ s, getMonthlyStats clock 2025 (5 + 1) home = (Return s, home)
      ∧ monthTotal 2025 5 home = (Return (totalIncome s, totalExpense s), home)
      ∧ totalCount s = 3%nat.
Proof.
  assert (HC : length (List.filter
                 (λ r : record, String.prefix (monthStr 2025 5) (date_of r)) ledger)
               = 3%nat) by run.
  assert (HK : midnight_kept clock (last_day_number 2025 (5 + 1))).
  { split; [split; intros E; vm_compute in E; discriminate E|run]. }
  destruct (month_total_matches_monthly_stats (P := integer_platform) clock 2025 5
              home ledger ltac:(lia) ltac:(lia) HK (proj1 home_holds)
              ledger_calendar)
    as (s & Hstats & Htotal & _ & Hcount).
  split; [exact HK|]. exists s. split; [exact Hstats|]. split; [exact Htotal|].
  exact (eq_trans Hcount HC).
Defined.

(** [search_edge_cases] on the store [home], with the lower case of the
    letters A to Z. *)
Lemma search_edge_cases_witness :
  to_lower_case "" = ""
  ∧ searchExpenses to_lower_case (VStr "") home = (Return ledger, home)
  ∧ searchExpenses to_lower_case VNull home = (Throw TypeError, home).
Proof.
  assert (HE : to_lower_case "" = "") by reflexivity.
  assert (HD : Forall (λ r : record, ∃ d, get r "description" = VStr d) ledger).
  { apply Forall_cons. split; [eexists; run|].
    apply Forall_cons. split; [eexists; run|].
    apply Forall_cons. split; [eexists; run|]. constructor. }
  destruct (search_edge_cases (P := integer_platform) to_lower_case HE home ledger)
    as [HS _].
  destruct (HS (proj1 home_holds)) as (Hempty & Hkeyword & _).
  split; [exact HE|]. split; [exact (Hempty HD)|].
  apply Hkeyword. discriminate.
Defined.

(** [double_toggle_settles_flag] on the store [notebook], whose todo has no
    completion flag. *)
Lemma double_toggle_settles_flag_witness :
  note !! "completed" = None
  ∧ ∃ r1 r2 w1 w2,
      toggleTodo (VNum (Int 41)) notebook = (Return (Some r1), w1)
      ∧ toggleTodo (VNum (Int 41)) w1 = (Return (Some r2), w2)
      ∧ get r1 "completed" = VBool true
      ∧ get r2 "completed" = VBool false
      ∧ r2 ≠ note.
Proof.
  assert (HN : note !! "completed" = None) by run.
  assert (HA : getAllTodos notebook = (Return (JArr [note]), notebook)) by run.
  assert (HS : Forall (storable_record num_exact) [note]) by storable_list.
  assert (HP : present (VNum (Int 41)) [note]) by (apply Exists_cons_hd; run).
  assert (HW : writes_succeed 2 notebook) by constructor.
  destruct (double_toggle_settles_flag (P := integer_platform) notebook
              (VNum (Int 41)) [note] HA HS HP HW)
    as (i & x & r1 & r2 & w1 & w2 & Hi & _ & H1 & H2 & Hr1 & Hr2 & _ & Hne).
  assert (Hx : x = note).
  { clear -Hi. destruct i as [|i]; [by injection Hi|]. by destruct i. }
  subst x. split; [exact HN|]. exists r1, r2, w1, w2.
  split; [exact H1|]. split; [exact H2|]. split; [|split].
  - rewrite Hr1. run.
  - rewrite Hr2. run.
  - exact (Hne HN).
Defined.

(** [totals_follow_plus] on the store [typed_in], whose amounts are
    strings. *)
Lemma totals_follow_plus_witness :
  ∃ s, getExpenseStats VNull VNull typed_in = (Return s, typed_in)
    ∧ totalIncome s = VStr "010030".
Proof.
  assert (HA : getAllExpenses typed_in = (Return (JArr [tip; refund]), typed_in))
    by run.
  assert (HM : map (λ r : record, get r "amount") (List.filter is_income [tip; refund])
               = map VStr ["100"; "30"]) by run.
  assert (HNE : ["100"; "30"] ≠ ([] : list string)) by discriminate.
  destruct (totals_follow_plus (P := integer_platform) typed_in [tip; refund] HA)
    as (s & Hrun & _ & Hstrings & _).
  exists s. split; [exact Hrun|].
  exact (Hstrings ["100"; "30"] HNE HM).
Defined.

(** [clear_all_of_a_service] on the store [home]. *)
Lemma clear_all_of_a_service_witness :
  next_fails home = false
  ∧ ∃ w', clearAllExpenses home = (Return true, w')
      ∧ getAllExpenses w' = (Return (JArr []), w')
      ∧ (getAllTodos w').1 = Return (JArr todos).
Proof.
  assert (HW : next_fails home = false) by reflexivity.
  assert (HT : (getAllTodos home).1 = Return (JArr todos)) by run.
  destruct (clear_all_of_a_service (P := integer_platform) home) as [Hok _].
  destruct (Hok HW) as ((w' & Hrun & Hall & Htodos & _) & _).
  split; [exact HW|]. exists w'. split; [exact Hrun|]. split; [exact Hall|].
  exact (eq_trans Htodos HT).
Defined.

(** [today_three_ways] on the clock of the scenario. *)
Lemma today_three_ways_witness :
  today clock = "2025-06-04"
  ∧ getCurrentDate clock = "2025-06-04"
  ∧ getTodayString clock = "2025-06-04"
  ∧ getCurrentMonth clock = "2025-06".
Proof.
  destruct (today_three_ways (P := integer_platform) clock "2025-06-04"
              "01:20:00.000Z" eq_refl eq_refl eq_refl)
    as (Htoday & Hdate & Hstring & Hmonth & _).
  split; [exact Htoday|]. split; [exact Hdate|]. split; [exact Hstring|exact Hmonth].
Defined.

(** [empty_bound_is_no_bound] on the store [home], whose records and todos
    all have a date. *)
Lemma empty_bound_is_no_bound_witness :
  getExpensesByDateRange (VStr "") (VStr "") home = (Return [], home)
  ∧ (∃ s, getExpenseStats (VStr "") (VStr "") home = (Return s, home)
       ∧ totalCount s = 3%nat)
  ∧ getTodosByDate (IsoDate "") home = (Return [], home)
  ∧ ∃ s, getTodoStats (IsoDate "") home = (Return s, home)
      ∧ TodoStats.total s = 3%nat.
Proof.
  assert (HL : Forall (λ r : record, ∃ d, get r "date" = VStr d ∧ d ≠ "") ledger).
  { apply Forall_cons. split; [exists "2025-06-01"; split; [run|discriminate]|].
    apply Forall_cons. split; [exists "2025-06-01"; split; [run|discriminate]|].
    apply Forall_cons. split; [exists "2025-06-02"; split; [run|discriminate]|].
    constructor. }
  assert (HT : Forall (λ r : record, ∃ d, get r "date" = VStr d ∧ d ≠ "") todos).
  { apply Forall_cons. split; [exists "2025-06-01"; split; [run|discriminate]|].
    apply Forall_cons. split; [exists "2025-06-01"; split; [run|discriminate]|].
    apply Forall_cons. split; [exists "2025-06-02"; split; [run|discriminate]|].
    constructor. }
  destruct (empty_bound_is_no_bound (P := integer_platform) home ledger)
    as (_ & _ & HE).
  destruct (empty_bound_is_no_bound (P := integer_platform) home todos)
    as (_ & _ & HD).
  destruct (HE HL) as [HE' _]. destruct (HD HT) as [_ HD'].
  destruct (HE' (proj1 home_holds)) as (Hrange & s & Hstats & Hcount).
  destruct (HD' (proj2 home_holds)) as (Hdate & s' & Hstats' & Hcount').
  split; [exact Hrange|]. split.
  { exists s. split; [exact Hstats|exact Hcount]. }
  split; [exact Hdate|]. exists s'. split; [exact Hstats'|exact Hcount'].
Defined.

End Checks.
